(** * fenics_service/main.py: job lifecycle and result synthesis

    A shallow embedding of the FEniCS solver service.  The Python module
    keeps one [JobStatus] record per job, runs the finite-element solve in
    the background and, when the solve raises, synthesises a fallback result
    from the request alone.

    Modelling conventions:
    - a Python [float] is an exact rational ([Q]): rounding, infinities and
      NaN are outside the model, arithmetic is exact; [math.exp], which
      raises [OverflowError] when its result leaves the float range, is a
      function into [result];
    - a Python [int] is a [Z];
    - [Optional[float]] is [option Q], and [x or d] takes the default when
      [x] is [None] or zero;
    - a dict with a fixed set of keys is a record, an absent key an [option]
      field holding [None];
    - a raised exception is the [Raise] case of [result]; stateful code
      (the job record, the throttle's locals, the clock) passes a [World];
    - [random.Random], [math.sin], [math.exp], [math.pi], [time.monotonic]
      and the dolfin/numpy solve belong to the environment and are
      variables of the section that holds the code. *)

From Stdlib Require Import ZArith QArith Qround List String Bool Sorted Lia Lqa.
Import ListNotations.

Local Open Scope Z_scope.
Local Open Scope Q_scope.

(** ** Python values and builtins *)

Inductive exn : Type :=
| ZeroDivisionError
| ValueError
| OverflowError
| ImportError
| RuntimeError.

Inductive result (A : Type) : Type :=
| Ok (a : A)
| Raise (e : exn).
Arguments Ok {A} a.
Arguments Raise {A} e.

Definition result_bind {A B : Type} (r : result A) (k : A -> result B) : result B :=
  match r with
  | Ok a => k a
  | Raise e => Raise e
  end.

Declare Scope result_scope.
Delimit Scope result_scope with result.
Notation "x <- e ;; k" := (result_bind e (fun x => k))
  (at level 100, e at next level, right associativity) : result_scope.

(** [a < b] on floats, as a boolean. *)
Definition Qltb (a b : Q) : bool := negb (Qle_bool b a).

(** [max(a, b)]: the first argument is kept unless the second is greater. *)
Definition py_max (a b : Q) : Q := if Qltb a b then b else a.

(** [min(a, b)]: the first argument is kept unless the second is smaller. *)
Definition py_min (a b : Q) : Q := if Qltb b a then b else a.

(** [max(xs)] and [min(xs)] over a sequence: [ValueError] when it is empty. *)
Definition py_max_list (xs : list Q) : result Q :=
  match xs with
  | [] => Raise ValueError
  | x :: rest => Ok (fold_left py_max rest x)
  end.

Definition py_min_list (xs : list Q) : result Q :=
  match xs with
  | [] => Raise ValueError
  | x :: rest => Ok (fold_left py_min rest x)
  end.

(** [sum(xs)]: left to right from 0. *)
Definition py_sum (xs : list Q) : Q := fold_left Qplus xs 0.

(** [len(xs)] as a number. *)
Definition py_len {A : Type} (xs : list A) : Q := inject_Z (Z.of_nat (List.length xs)).

(** [a / b]: [ZeroDivisionError] when the divisor is zero. *)
Definition py_div (a b : Q) : result Q :=
  if Qeq_bool b 0 then Raise ZeroDivisionError else Ok (a / b).

(** [int(x)] on a float: truncation towards zero. *)
Definition py_int (x : Q) : Z := Z.quot (Qnum x) (QDen x).

(** [x or d] for an [Optional[float]] [x]. *)
Definition py_or (x : option Q) (d : Q) : Q :=
  match x with
  | Some v => if Qeq_bool v 0 then d else v
  | None => d
  end.

(** [xs or d] for a list: the empty list is false. *)
Definition py_list_or {A : Type} (xs d : list A) : list A :=
  match xs with
  | [] => d
  | _ :: _ => xs
  end.

(** ** Data model *)

Module StressPoint.
Record t : Type := mk { strain : Q; stress : Q }.
End StressPoint.

Module Material.
Record t : Type := mk {
    id : Z;
    name : string;
    youngsModulus : Q;
    poissonRatio : Q;
    stressStrainCurve : list StressPoint.t
  }.
End Material.

Module SimulationRequest.
Record t : Type := mk {
    name : string;
    materialId : Z;
    type : string;
    appliedLoad : option Q;
    temperature : option Q;
    duration : option Q;
    frequency : option Q;
    dampingRatio : option Q;
    material : Material.t
  }.
End SimulationRequest.

(** One entry of the generated curve: the dict with keys strain and stress. *)
Module CurvePoint.
Record t : Type := mk { strain : Q; stress : Q }.
End CurvePoint.

(** One entry of the time series: the dict with keys time, stress and
    displacement. *)
Module TimePoint.
Record t : Type := mk { time : Q; stress : Q; displacement : Q }.
End TimePoint.

(** One entry of the hotspots list. *)
Module Hotspot.
Record t : Type := mk { type : string; value : Q; location : list Q }.
End Hotspot.

(** The results dict.  The keys hotspots and warning are present only on
    some paths. *)
Module Results.
Record t : Type := mk {
    maxStress : Q;
    minStress : Q;
    avgStress : Q;
    stressRange : Q;
    maxDeformation : Q;
    maxStrain : Q;
    avgStrain : Q;
    safetyFactor : Q;
    timeSeriesData : list TimePoint.t;
    stressStrainCurve : list CurvePoint.t;
    hotspots : option (list Hotspot.t);
    source : string;
    warning : option string
  }.

(** [d["warning"] = text] *)
Definition set_warning (text : string) (d : t) : t :=
    mk (maxStress d) (minStress d) (avgStress d) (stressRange d)
       (maxDeformation d) (maxStrain d) (avgStrain d) (safetyFactor d)
       (timeSeriesData d) (stressStrainCurve d) (hotspots d) (source d)
       (Some text).
End Results.

Module JobStatus.
Record t : Type := mk {
    id : string;
    status : string;
    progress : Z;
    results : option Results.t;
    error : option string
  }.

Definition set_status (v : string) (s : t) : t :=
    mk (id s) v (progress s) (results s) (error s).
Definition set_progress (v : Z) (s : t) : t :=
    mk (id s) (status s) v (results s) (error s).
Definition set_results (v : Results.t) (s : t) : t :=
    mk (id s) (status s) (progress s) (Some v) (error s).
End JobStatus.

(** A request with one optional field replaced. *)
Definition with_appliedLoad (v : option Q) (p : SimulationRequest.t)
    : SimulationRequest.t :=
  SimulationRequest.mk (SimulationRequest.name p) (SimulationRequest.materialId p)
    (SimulationRequest.type p) v (SimulationRequest.temperature p)
    (SimulationRequest.duration p) (SimulationRequest.frequency p)
    (SimulationRequest.dampingRatio p) (SimulationRequest.material p).

Definition with_duration (v : option Q) (p : SimulationRequest.t)
    : SimulationRequest.t :=
  SimulationRequest.mk (SimulationRequest.name p) (SimulationRequest.materialId p)
    (SimulationRequest.type p) (SimulationRequest.appliedLoad p)
    (SimulationRequest.temperature p) v (SimulationRequest.frequency p)
    (SimulationRequest.dampingRatio p) (SimulationRequest.material p).

Definition with_frequency (v : option Q) (p : SimulationRequest.t)
    : SimulationRequest.t :=
  SimulationRequest.mk (SimulationRequest.name p) (SimulationRequest.materialId p)
    (SimulationRequest.type p) (SimulationRequest.appliedLoad p)
    (SimulationRequest.temperature p) (SimulationRequest.duration p) v
    (SimulationRequest.dampingRatio p) (SimulationRequest.material p).

Definition with_dampingRatio (v : option Q) (p : SimulationRequest.t)
    : SimulationRequest.t :=
  SimulationRequest.mk (SimulationRequest.name p) (SimulationRequest.materialId p)
    (SimulationRequest.type p) (SimulationRequest.appliedLoad p)
    (SimulationRequest.temperature p) (SimulationRequest.duration p)
    (SimulationRequest.frequency p) v (SimulationRequest.material p).

(** ** Request-only functions *)

(** [_mesh_resolution] *)
Definition _mesh_resolution (payload : SimulationRequest.t) : Z :=
  let applied_load :=
    match SimulationRequest.appliedLoad payload with
    | Some v => v
    | None => 1000.0
    end in
  let duration := py_or (SimulationRequest.duration payload) 10.0 in
  let resolution :=
    (6 + py_int (py_min 6 ((applied_load / 1000.0) + (duration / 10.0))))%Z in
  Z.max 6 (Z.min 14 resolution).

(** [_estimate_allowable_stress] *)
Definition _estimate_allowable_stress
    (payload : SimulationRequest.t) (max_stress : Q) : result Q :=
  let curve := Material.stressStrainCurve (SimulationRequest.material payload) in
  match curve with
  | _ :: _ =>
      (ultimate <- py_max_list (map StressPoint.stress curve) ;;
       Ok (ultimate * 0.9))%result
  | [] => Ok (max_stress * 1.2)
  end.

(** ** The job's world: state and exceptions *)

(** What [_run_job] reads and writes: the [JobStatus] object stored in
    [_jobs] (shared with [get_job]), the closure's locals, and the effects
    on the outside.  [observable] lists every state the shared record has
    been in, newest first: a concurrent [get_job] returns one of them.
    [candidates] logs the values [set_progress] was called with and
    [slept] the arguments of [time.sleep], newest first. *)
Record World : Type := mkWorld {
  job : JobStatus.t;
  observable : list JobStatus.t;
  last_progress : Z;
  last_tick : Q;
  clock_reads : nat;
  slept : list Q;
  candidates : list Z
}.

Definition M (A : Type) : Type := World -> result A * World.

Definition ret {A : Type} (a : A) : M A := fun w => (Ok a, w).

Definition bind {A B : Type} (m : M A) (k : A -> M B) : M B :=
  fun w =>
    match m w with
    | (Ok a, w') => k a w'
    | (Raise e, w') => (Raise e, w')
    end.

(** A computation that touches no state. *)
Definition lift {A : Type} (r : result A) : M A := fun w => (r, w).

(** [try: body except Exception as exc: handler]: the handler starts from
    the state the body left behind. *)
Definition try_except {A : Type} (body : M A) (handler : exn -> M A) : M A :=
  fun w =>
    match body w with
    | (Ok a, w') => (Ok a, w')
    | (Raise e, w') => handler e w'
    end.

Declare Scope job_scope.
Delimit Scope job_scope with job.
Notation "x <- e ;; k" := (bind e (fun x => k))
  (at level 100, e at next level, right associativity) : job_scope.
Notation "e ;; k" := (bind e (fun _ => k))
  (at level 100, right associativity) : job_scope.

(** An assignment to a field of the shared record: readers can see the
    record from then on. *)
Definition mutate (f : JobStatus.t -> JobStatus.t) : M unit :=
  fun w =>
    let s := f (job w) in
    (Ok tt, mkWorld s (s :: observable w) (last_progress w) (last_tick w)
                   (clock_reads w) (slept w) (candidates w)).

Definition read {A : Type} (f : World -> A) : M A := fun w => (Ok (f w), w).

Definition set_last_progress (v : Z) : M unit :=
  fun w => (Ok tt, mkWorld (job w) (observable w) v (last_tick w)
                           (clock_reads w) (slept w) (candidates w)).

Definition set_last_tick (v : Q) : M unit :=
  fun w => (Ok tt, mkWorld (job w) (observable w) (last_progress w) v
                           (clock_reads w) (slept w) (candidates w)).

(** [time.sleep(d)] *)
Definition time_sleep (d : Q) : M unit :=
  fun w => (Ok tt, mkWorld (job w) (observable w) (last_progress w) (last_tick w)
                           (clock_reads w) (d :: slept w) (candidates w)).

Definition log_candidate (v : Z) : M unit :=
  fun w => (Ok tt, mkWorld (job w) (observable w) (last_progress w) (last_tick w)
                           (clock_reads w) (slept w) (v :: candidates w)).

(** [if progress_cb: progress_cb(v)] *)
Definition call (progress_cb : option (Z -> M unit)) (v : Z) : M unit :=
  match progress_cb with
  | Some f => f v
  | None => ret tt
  end.

(** [create_job]: the record stored under the fresh identifier. *)
Definition create_job (job_id : string) : JobStatus.t :=
  JobStatus.mk job_id "running" 5 None None.

(** The world in which the background task of a submitted job starts. *)
Definition submitted (job_id : string) : World :=
  mkWorld (create_job job_id) [create_job job_id] 0 0 0 [] [].

(** What the dolfin and numpy calls of [_solve_with_fenics] did. *)
Module FieldSummary.
Record t : Type := mk {
  max_stress : Q;
  min_stress : Q;
  avg_stress : Q;
  max_strain : Q;
  avg_strain : Q;
  max_deformation : Q;
  hotspot_location : list Q
}.
End FieldSummary.

(** Either an exception, raised after [passed] of the progress checkpoints
    12, 35, 55 and 70 had been reported, or the reductions of the stress,
    strain and displacement fields. *)
Inductive DolfinRun : Type :=
| DolfinRaises (passed : nat) (e : exn)
| DolfinFields (f : FieldSummary.t).

Definition dolfin_stage (run : DolfinRun) (k : nat) : M unit :=
  match run with
  | DolfinRaises passed e => if Nat.eqb passed k then lift (Raise e) else ret tt
  | DolfinFields _ => ret tt
  end.

Definition dolfin_fields (run : DolfinRun) : M FieldSummary.t :=
  match run with
  | DolfinRaises _ e => lift (Raise e)
  | DolfinFields f => ret f
  end.

(** ** The service code *)

Section Service.

(** [random.Random(seed)] and the generator's [random()]. *)
Variable rng_state : Type.
Variable Random : string -> rng_state.
Variable random : rng_state -> Q * rng_state.

(** [math.sin] and [math.pi]; [math.exp], which raises [OverflowError] on
    the arguments whose exponential is no float. *)
Variable math_sin : Q -> Q.
Variable math_exp : Q -> result Q.
Variable math_pi : Q.

(** The successive readings of [time.monotonic()]. *)
Variable time_monotonic : nat -> Q.

(** The finite-element solve for a request and a mesh resolution. *)
Variable dolfin : SimulationRequest.t -> Z -> DolfinRun.

(** [rng.uniform(a, b)] is [a + (b - a) * rng.random()]. *)
Definition uniform (rng : rng_state) (a b : Q) : Q * rng_state :=
  let (r, rng') := random rng in (a + (b - a) * r, rng').

Definition monotonic : M Q :=
  fun w => (Ok (time_monotonic (clock_reads w)),
            mkWorld (job w) (observable w) (last_progress w) (last_tick w)
                    (S (clock_reads w)) (slept w) (candidates w)).

Definition min_tick_seconds : Q := 0.5.

Local Open Scope job_scope.

(** [set_progress], the closure of [_run_job]; its argument is an int
    already, so [int(value)] is the value. *)
Definition set_progress (value : Z) : M unit :=
  log_candidate value ;;
  last <- read last_progress ;;
  let value := Z.max value last in
  now <- monotonic ;;
  tick <- read last_tick ;;
  let elapsed := now - tick in
  (if Qltb elapsed min_tick_seconds
   then time_sleep (min_tick_seconds - elapsed)
   else ret tt) ;;
  mutate (JobStatus.set_progress (Z.min value 99)) ;;
  p <- read (fun w => JobStatus.progress (job w)) ;;
  set_last_progress p ;;
  now' <- monotonic ;;
  set_last_tick now'.

(** The loop of [_build_stress_strain_curve]. *)
Fixpoint dense_curve_loop (curve : list StressPoint.t) (rng : rng_state)
    (stress_scale strain_scale : Q) (dense_curve : list CurvePoint.t)
    : list CurvePoint.t :=
  match curve with
  | [] => dense_curve
  | point :: rest =>
      let (u, rng) := uniform rng (-0.015) 0.015 in
      let noise := u * StressPoint.stress point in
      dense_curve_loop rest rng stress_scale strain_scale
        (dense_curve ++
         [CurvePoint.mk
            (StressPoint.strain point * strain_scale)
            (py_max 0.0 (StressPoint.stress point * stress_scale + noise))])
  end.

(** [_build_stress_strain_curve] *)
Definition _build_stress_strain_curve (job_id : string)
    (payload : SimulationRequest.t) (max_stress : option Q)
    : result (list CurvePoint.t) :=
  let curve := Material.stressStrainCurve (SimulationRequest.material payload) in
  match curve with
  | [] => Ok [CurvePoint.mk 0.0 0.0]
  | _ :: _ =>
      let rng := Random (String.append job_id "_curve") in
      let applied_load :=
        match SimulationRequest.appliedLoad payload with
        | Some v => v
        | None => 1000.0
        end in
      let load_factor := py_max 0.6 (py_min 1.6 (applied_load / 1000.0)) in
      (max_curve_stress <- py_max_list (map StressPoint.stress curve) ;;
       stress_scale <-
         match max_stress with
         | Some v =>
             if Qeq_bool v 0 then Ok load_factor else py_div v max_curve_stress
         | None => Ok load_factor
         end ;;
       let strain_scale :=
         1.0 + (py_or (SimulationRequest.dampingRatio payload) 0.05) * 0.2 in
       Ok (dense_curve_loop curve rng stress_scale strain_scale []))%result
  end.

Definition points : Z := 40.

(** [range(n)] *)
Definition range (n : Z) : list Z := map Z.of_nat (seq 0 (Z.to_nat n)).

(** The loop of [_build_time_series]. *)
Fixpoint time_series_loop (indices : list Z) (rng : rng_state)
    (duration frequency damping base amplitude : Q)
    (progress_cb : option (Z -> M unit)) (progress_range : option (Z * Z))
    (start_progress end_progress : Z)
    (time_series : list TimePoint.t) : M (list TimePoint.t) :=
  match indices with
  | [] => ret time_series
  | index :: rest =>
      time_value <-
        lift (py_div (duration * inject_Z index) (inject_Z (Z.max (points - 1) 1))) ;;
      angle <- lift (py_div (2.0 * math_pi * frequency * time_value) duration) ;;
      let oscillation := math_sin angle in
      decay <- lift (math_exp (- damping * time_value)) ;;
      let (u, rng) := uniform rng (-0.03) 0.03 in
      let noise := u * amplitude in
      let stress_value := base + amplitude * oscillation * decay + noise in
      elapsed_fraction <- lift (py_div time_value duration) ;;
      let (v, rng) := uniform rng (-0.002) 0.002 in
      let displacement := elapsed_fraction * 0.2 + v in
      let time_series :=
        (time_series ++
         [TimePoint.mk time_value (py_max stress_value 0.0)
                       (py_max displacement 0.0)])%list in
      match progress_cb, progress_range with
      | Some cb, Some _ =>
          if Z.eqb (index mod 4) 0
          then
            fraction <-
              lift (py_div (inject_Z index) (inject_Z (Z.max (points - 1) 1))) ;;
            let progress_value :=
              inject_Z start_progress
              + inject_Z (end_progress - start_progress) * fraction in
            cb (py_int progress_value)
          else ret tt
      | _, _ => ret tt
      end ;;
      time_series_loop rest rng duration frequency damping base amplitude
        progress_cb progress_range start_progress end_progress time_series
  end.

(** [_build_time_series] *)
Definition _build_time_series (job_id : string) (payload : SimulationRequest.t)
    (max_stress : option Q) (progress_cb : option (Z -> M unit))
    (progress_range : option (Z * Z)) : M (list TimePoint.t) :=
  let duration := py_or (SimulationRequest.duration payload) 10.0 in
  let frequency := py_or (SimulationRequest.frequency payload) 1.0 in
  let damping := py_or (SimulationRequest.dampingRatio payload) 0.05 in
  let rng := Random job_id in
  let base := py_or max_stress 100.0 * 0.35 in
  let amplitude := py_or max_stress 100.0 * 0.65 in
  let (start_progress, end_progress) :=
    match progress_range with
    | Some r => r
    | None => (0%Z, 0%Z)
    end in
  time_series_loop (range points) rng duration frequency damping base amplitude
    progress_cb progress_range start_progress end_progress [].

(** [_build_stub_results] *)
Definition _build_stub_results (job_id : string) (payload : SimulationRequest.t)
    (progress_cb : option (Z -> M unit)) : M Results.t :=
  stress_strain_curve <- lift (_build_stress_strain_curve job_id payload None) ;;
  let stresses := py_list_or (map CurvePoint.stress stress_strain_curve) [0.0] in
  let strains := py_list_or (map CurvePoint.strain stress_strain_curve) [0.0] in
  max_stress <- lift (py_max_list stresses) ;;
  min_stress <- lift (py_min_list stresses) ;;
  avg_stress <- lift (py_div (py_sum stresses) (py_len stresses)) ;;
  let stress_range := max_stress - min_stress in
  time_series <-
    _build_time_series job_id payload (Some max_stress) progress_cb
      (Some (70%Z, 95%Z)) ;;
  allowable_stress <- lift (_estimate_allowable_stress payload max_stress) ;;
  safety_factor <-
    (if Qltb 0 max_stress
     then lift (py_div allowable_stress max_stress)
     else ret 0.0) ;;
  max_deformation <- lift (py_max_list strains) ;;
  max_strain <- lift (py_max_list strains) ;;
  avg_strain <- lift (py_div (py_sum strains) (py_len strains)) ;;
  ret (Results.mk max_stress min_stress avg_stress stress_range
         max_deformation max_strain avg_strain safety_factor
         time_series stress_strain_curve None "fallback" None).

(** [_solve_with_fenics].  The dolfin and numpy calls between two progress
    checkpoints are one stage of [dolfin]'s run. *)
Definition _solve_with_fenics (job_id : string) (payload : SimulationRequest.t)
    (progress_cb : option (Z -> M unit)) : M Results.t :=
  let resolution := _mesh_resolution payload in
  let run := dolfin payload resolution in
  dolfin_stage run 0 ;;
  call progress_cb 12 ;;
  dolfin_stage run 1 ;;
  call progress_cb 35 ;;
  dolfin_stage run 2 ;;
  call progress_cb 55 ;;
  dolfin_stage run 3 ;;
  call progress_cb 70 ;;
  fields <- dolfin_fields run ;;
  let max_stress := FieldSummary.max_stress fields in
  let min_stress := FieldSummary.min_stress fields in
  let avg_stress := FieldSummary.avg_stress fields in
  let stress_range := max_stress - min_stress in
  let max_strain := FieldSummary.max_strain fields in
  let avg_strain := FieldSummary.avg_strain fields in
  let max_deformation := FieldSummary.max_deformation fields in
  let hotspot_location := FieldSummary.hotspot_location fields in
  call progress_cb 80 ;;
  stress_strain_curve <-
    lift (_build_stress_strain_curve job_id payload (Some max_stress)) ;;
  time_series <-
    _build_time_series job_id payload (Some max_stress) progress_cb
      (Some (80%Z, 95%Z)) ;;
  call progress_cb 95 ;;
  allowable_stress <- lift (_estimate_allowable_stress payload max_stress) ;;
  safety_factor <-
    (if Qltb 0 max_stress
     then lift (py_div allowable_stress max_stress)
     else ret 0.0) ;;
  ret (Results.mk max_stress min_stress avg_stress stress_range
         max_deformation max_strain avg_strain safety_factor
         time_series stress_strain_curve
         (Some [Hotspot.mk "max_stress" max_stress hotspot_location])
         "fenics" None).

(** [_run_job].  [status = _jobs[job_id]] is the record of the world. *)
Definition _run_job (job_id : string) (payload : SimulationRequest.t) : M unit :=
  p <- read (fun w => JobStatus.progress (job w)) ;;
  set_last_progress p ;;
  now <- monotonic ;;
  set_last_tick now ;;
  try_except
    (set_progress 8 ;;
     results <- _solve_with_fenics job_id payload (Some set_progress) ;;
     mutate (JobStatus.set_status "completed") ;;
     mutate (JobStatus.set_progress 100) ;;
     mutate (JobStatus.set_results results))
    (fun exc =>
     set_progress 70 ;;
     fallback <- _build_stub_results job_id payload (Some set_progress) ;;
     let fallback :=
       Results.set_warning "FEniCS unavailable, using fallback results." fallback in
     mutate (JobStatus.set_status "completed") ;;
     mutate (JobStatus.set_progress 100) ;;
     mutate (JobStatus.set_results fallback)).

End Service.

Arguments uniform {rng_state} random rng a b.
Arguments dense_curve_loop {rng_state} random curve rng stress_scale strain_scale dense_curve.
Arguments _build_stress_strain_curve {rng_state} Random random job_id payload max_stress.
Arguments time_series_loop {rng_state} random math_sin math_exp math_pi indices rng
  duration frequency damping base amplitude progress_cb progress_range
  start_progress end_progress time_series.
Arguments _build_time_series {rng_state} Random random math_sin math_exp math_pi
  job_id payload max_stress progress_cb progress_range.
Arguments _build_stub_results {rng_state} Random random math_sin math_exp math_pi
  job_id payload progress_cb.
Arguments _solve_with_fenics {rng_state} Random random math_sin math_exp math_pi
  dolfin job_id payload progress_cb.
Arguments _run_job {rng_state} Random random math_sin math_exp math_pi
  time_monotonic dolfin job_id payload.

(** ** The job store, the endpoints and the unthrottled updater *)

(** [_jobs]: the dict from job identifiers to records, in insertion order. *)
Definition JobStore : Type := list (string * JobStatus.t).

(** [_jobs.get(job_id)] *)
Fixpoint jobs_get (jobs : JobStore) (job_id : string) : option JobStatus.t :=
  match jobs with
  | [] => None
  | (k, s) :: rest =>
      if String.eqb k job_id then Some s else jobs_get rest job_id
  end.

(** [_jobs[job_id] = status]: the value of a present key is replaced, a new
    key goes to the end. *)
Fixpoint jobs_set (jobs : JobStore) (job_id : string) (status : JobStatus.t)
    : JobStore :=
  match jobs with
  | [] => [(job_id, status)]
  | (k, s) :: rest =>
      if String.eqb k job_id
      then (k, status) :: rest
      else (k, s) :: jobs_set rest job_id status
  end.

(** What an endpoint gives back: its return value, or the [HTTPException]
    it raises. *)
Inductive response (A : Type) : Type :=
| Respond (a : A)
| HTTPException (status_code : Z) (detail : string).
Arguments Respond {A} a.
Arguments HTTPException {A} status_code detail.

Module Endpoint.

(** [create_job]: [job_id] is the string of the fresh [uuid.uuid4()].  The
    new store, the task handed to [background_tasks.add_task] and the
    returned record. *)
Definition create_job (jobs : JobStore) (job_id : string)
    (payload : SimulationRequest.t)
    : JobStore * (string * SimulationRequest.t) * JobStatus.t :=
  let status := JobStatus.mk job_id "running" 5 None None in
  (jobs_set jobs job_id status, (job_id, payload), status).

(** [get_job]: a record is always true, so [not status] means [None]. *)
Definition get_job (jobs : JobStore) (job_id : string) : response JobStatus.t :=
  match jobs_get jobs job_id with
  | Some status => Respond status
  | None => HTTPException 404 "Job not found"
  end.

End Endpoint.

(** The world of a background task that finds [status] under its job
    identifier. *)
Definition world_of (status : JobStatus.t) : World :=
  mkWorld status [status] 0 0 0 [] [].

(** The scheduled task run to its end, or to the exception that leaves it.
    [_run_job] mutates the object that [_jobs] holds, so the entry of the
    job ends as the record of the world; [None] stands for the [KeyError]
    of [_jobs[job_id]] on a missing job. *)
Definition run_task {rng_state : Type} (Random : string -> rng_state)
    (random : rng_state -> Q * rng_state) (math_sin : Q -> Q)
    (math_exp : Q -> result Q) (math_pi : Q) (time_monotonic : nat -> Q)
    (dolfin : SimulationRequest.t -> Z -> DolfinRun)
    (jobs : JobStore) (task : string * SimulationRequest.t)
    : option (result unit * JobStore) :=
  let (job_id, payload) := task in
  match jobs_get jobs job_id with
  | None => None
  | Some status =>
      let (res, w) :=
        _run_job Random random math_sin math_exp math_pi time_monotonic dolfin
          job_id payload (world_of status) in
      Some (res, jobs_set jobs job_id (job w))
  end.





(** The material constants of [_solve_with_fenics], computed between the
    checkpoints 12 and 35: [temperature_factor], then [mu] and [lmbda] from
    the softened [youngs_modulus]. *)
Definition temperature_factor (payload : SimulationRequest.t) : Q :=
  let temperature := py_or (SimulationRequest.temperature payload) 20.0 in
  py_max 0.6 (1.0 - (temperature - 20.0) * 0.0002).

Definition elastic_constants (payload : SimulationRequest.t) : result (Q * Q) :=
  let youngs_modulus :=
    Material.youngsModulus (SimulationRequest.material payload) * 1000.0 in
  let poisson := Material.poissonRatio (SimulationRequest.material payload) in
  let youngs_modulus := youngs_modulus * temperature_factor payload in
  (mu <- py_div youngs_modulus (2.0 * (1.0 + poisson)) ;;
   lmbda <- py_div (youngs_modulus * poisson)
              ((1.0 + poisson) * (1.0 - 2.0 * poisson)) ;;
   Ok (mu, lmbda))%result.

(** ** A concrete environment, for evaluating the code *)

Module Demo.

(** A linear congruential generator on 31 bits. *)
Definition Random (seed : string) : Z := Z.of_nat (String.length seed).
Definition random (s : Z) : Q * Z :=
  let s' := ((s * 1103515245 + 12345) mod 2147483648)%Z in
  (Qmake s' 2147483648, s').

(** Polynomial stand-ins for the sine and the exponential.  Like
    [math.exp], the exponential raises above the logarithm of the largest
    float. *)
Definition sin (x : Q) : Q := Qred (x - x * x * x / 6).
Definition exp_limit : Q := 709.782712893384.
Definition exp (x : Q) : result Q :=
  if Qltb exp_limit x then Raise OverflowError
  else Ok (Qred (1 + x + x * x / 2)).
Definition pi : Q := 3.1416.

(** One second between two readings of the clock. *)
Definition clock (n : nat) : Q := inject_Z (Z.of_nat n).

Definition steel_curve : list StressPoint.t :=
  [StressPoint.mk 0.0 0.0; StressPoint.mk 0.001 200.0;
   StressPoint.mk 0.002 400.0; StressPoint.mk 0.01 500.0].

Definition steel : Material.t :=
  Material.mk 1 "steel" 210.0 0.3 steel_curve.

Definition request : SimulationRequest.t :=
  SimulationRequest.mk "beam" 1 "static" (Some 1200.0) None None None None steel.

Definition fields : FieldSummary.t :=
  FieldSummary.mk 250.0 10.0 120.0 0.004 0.002 0.0001 [0.5; 0.5; 1.0].

(** The request of the time-series example: duration 10, frequency 1,
    damping ratio 0.05. *)
Definition vibration : SimulationRequest.t :=
  SimulationRequest.mk "shaker" 1 "vibration" None None
    (Some 10.0) (Some 1.0) (Some 0.05) steel.

(** A request whose material has no reference curve. *)
Definition bare : SimulationRequest.t :=
  SimulationRequest.mk "bare" 2 "static" None None None None None
    (Material.mk 2 "unknown" 70.0 0.33 []).

(** A request whose reference curve has a point in compression. *)
Definition compressed : SimulationRequest.t :=
  SimulationRequest.mk "strut" 3 "static" None None None None None
    (Material.mk 3 "strut" 70.0 0.33 [StressPoint.mk (-0.002) 150.0]).

(** The steel request with a damping ratio of -100: at sample 28 the
    exponential is taken at 100 * 10 * 28 / 39, about 717.9. *)
Definition overdamped : SimulationRequest.t :=
  SimulationRequest.mk "beam" 1 "static" (Some 1200.0) None None None
    (Some (-100.0)) steel.

(** A request whose reference curve carries no stress at all. *)
Definition slack : SimulationRequest.t :=
  SimulationRequest.mk "slack" 4 "static" None None None None None
    (Material.mk 4 "slack" 1.0 0.3
       [StressPoint.mk 0.0 0.0; StressPoint.mk 0.01 0.0]).

(** A clock that advances by a tenth of a second between two readings. *)
Definition fast_clock (n : nat) : Q := inject_Z (Z.of_nat n) / 10.

(** Bounded stand-ins for the sine and the exponential. *)
Definition flat_sin (_ : Q) : Q := 0.5.
Definition flat_exp (_ : Q) : result Q := Ok 1.

Definition solver_fails (_ : SimulationRequest.t) (_ : Z) : DolfinRun :=
  DolfinRaises 0 ImportError.

Definition solver_succeeds (_ : SimulationRequest.t) (_ : Z) : DolfinRun :=
  DolfinFields fields.

Definition run (dolfin : SimulationRequest.t -> Z -> DolfinRun)
    (payload : SimulationRequest.t) : result unit * World :=
  _run_job Random random sin exp pi clock dolfin "job-1" payload
    (submitted "job-1").

End Demo.

(** ** Vocabulary of the statements *)

Definition reference_curve (payload : SimulationRequest.t) : list StressPoint.t :=
  Material.stressStrainCurve (SimulationRequest.material payload).

(** [strain_scale] of [_build_stress_strain_curve]. *)
Definition strain_scale_of (payload : SimulationRequest.t) : Q :=
  1.0 + py_or (SimulationRequest.dampingRatio payload) 0.05 * 0.2.

(** The time of sample [index]. *)
Definition sample_time (duration : Q) (index : Z) : Q :=
  duration * inject_Z index / inject_Z (Z.max (points - 1) 1).

Definition floored (p : TimePoint.t) : Prop :=
  0 <= TimePoint.stress p /\ 0 <= TimePoint.displacement p.

(** The argument of [math.exp] at sample [index]. *)
Definition decay_argument (damping duration : Q) (index : Z) : Q :=
  - damping * sample_time duration index.

(** [math.exp] returns at each of [indices]. *)
Definition decays (math_exp : Q -> result Q) (damping duration : Q)
    (indices : list Z) : bool :=
  forallb
    (fun index =>
       match math_exp (decay_argument damping duration index) with
       | Ok _ => true
       | Raise _ => false
       end)
    indices.

(** [math.exp] returns at each of the forty samples of the request: the
    time-series generator can then return. *)
Definition series_defined (math_exp : Q -> result Q)
    (payload : SimulationRequest.t) : bool :=
  decays math_exp
    (py_or (SimulationRequest.dampingRatio payload) 0.05)
    (py_or (SimulationRequest.duration payload) 10.0)
    (range points).

(** [math.exp] raises [e] at one of the forty samples of the request. *)
Definition exp_raises (math_exp : Q -> result Q)
    (payload : SimulationRequest.t) (e : exn) : Prop :=
  exists index,
    In index (range points) /\
    math_exp
      (decay_argument (py_or (SimulationRequest.dampingRatio payload) 0.05)
         (py_or (SimulationRequest.duration payload) 10.0) index)
    = Raise e.

(** What the generator hands back: forty floored samples at the sample
    times when [math.exp] returns at each of them, and the exception of
    [math.exp] otherwise. *)
Definition series_outcome (math_exp : Q -> result Q)
    (payload : SimulationRequest.t) (res : result (list TimePoint.t)) : Prop :=
  match res with
  | Ok ts =>
      series_defined math_exp payload = true /\
      List.length ts = 40%nat /\
      Forall floored ts /\
      map TimePoint.time ts =
        map (sample_time (py_or (SimulationRequest.duration payload) 10.0))
            (range points)
  | Raise e =>
      series_defined math_exp payload = false /\ exp_raises math_exp payload e
  end.

(** The outcome of a loop that appends [out] to [acc], or raises. *)
Definition appended {A : Type} (acc : list A) (out : result (list A))
    : result (list A) :=
  match out with
  | Ok new => Ok (acc ++ new)%list
  | Raise e => Raise e
  end.

(** [m] is a greatest element of [xs]. *)
Definition greatest (m : Q) (xs : list Q) : Prop :=
  In m xs /\ Forall (fun v => v <= m) xs.

(** [m] is a least element of [xs]. *)
Definition least (m : Q) (xs : list Q) : Prop :=
  In m xs /\ Forall (fun v => m <= v) xs.

(** The safety-factor rule of both result builders. *)
Definition safety_rule (payload : SimulationRequest.t) (r : Results.t) : Prop :=
  exists allowable,
    match reference_curve payload with
    | [] => allowable = Results.maxStress r * 1.2
    | _ :: _ =>
        exists ultimate,
          greatest ultimate (map StressPoint.stress (reference_curve payload)) /\
          allowable = ultimate * 0.9
    end /\
    (0 < Results.maxStress r ->
     Results.safetyFactor r = allowable / Results.maxStress r) /\
    (Results.maxStress r <= 0 -> Results.safetyFactor r = 0.0).

(** A callback that never raises and keeps the invariant [I]. *)
Definition preserves (I : World -> Prop) (cb : Z -> M unit) : Prop :=
  forall v w, I w -> exists w', cb v w = (Ok tt, w') /\ I w'.

Definition cb_preserves (I : World -> Prop) (progress_cb : option (Z -> M unit)) : Prop :=
  match progress_cb with
  | Some cb => preserves I cb
  | None => True
  end.

(** A state of the record before the terminal writes. *)
Definition running_state (job_id : string) (s : JobStatus.t) : Prop :=
  exists p, s = JobStatus.mk job_id "running" p None None /\ (p <= 99)%Z.

(** The rule of the progress throttle as the specification words it: the
    value reported for candidate [c] after [last].  [set_progress] computes
    [min (max c last) 99] instead. *)
Definition observe (last c : Z) : Z := Z.max last (Z.min c 99).

(** [follows_throttle cands obs]: each progress value of [obs] but the
    oldest one is [observe] of the value before it and of the candidate of
    that call.  Both lists are newest first. *)
Fixpoint follows_throttle (cands : list Z) (obs : list Z) : Prop :=
  match cands, obs with
  | [], [_] => True
  | c :: cands', p :: ((last :: _) as obs') =>
      p = observe last c /\ follows_throttle cands' obs'
  | _, _ => False
  end.

(** The invariant of the running phase. *)
Record Running (job_id : string) (w : World) : Prop := {
  running_job : job w = JobStatus.mk job_id "running" (last_progress w) None None;
  running_cap : (last_progress w <= 99)%Z;
  running_head : exists older, observable w = job w :: older;
  running_first : exists newer, observable w = (newer ++ [create_job job_id])%list;
  running_states : Forall (running_state job_id) (observable w);
  running_sorted : StronglySorted Z.ge (map JobStatus.progress (observable w));
  running_throttle :
    follows_throttle (candidates w) (map JobStatus.progress (observable w))
}.

(** The terminal writes of [_run_job]: status, then progress, then results. *)
Definition commit (r : Results.t) (w : World) : World :=
  let s1 := JobStatus.set_status "completed" (job w) in
  let s2 := JobStatus.set_progress 100 s1 in
  let s3 := JobStatus.set_results r s2 in
  mkWorld s3 (s3 :: s2 :: s1 :: observable w) (last_progress w) (last_tick w)
    (clock_reads w) (slept w) (candidates w).

(** The warning [_run_job] attaches to a fallback result. *)
Definition warning_text : string := "FEniCS unavailable, using fallback results.".

Section Parts.

Context {rng_state : Type}.
Variable Random : string -> rng_state.
Variable random : rng_state -> Q * rng_state.
Variable math_sin : Q -> Q.
Variable math_exp : Q -> result Q.
Variable math_pi : Q.
Variable dolfin : SimulationRequest.t -> Z -> DolfinRun.

(** What a fallback result is made of. *)
Record stub_parts (job_id : string) (payload : SimulationRequest.t)
    (r : Results.t) : Prop := {
  parts_curve :
    _build_stress_strain_curve Random random job_id payload None
    = Ok (Results.stressStrainCurve r);
  parts_first : Results.stressStrainCurve r <> [];
  parts_max :
    py_max_list (map CurvePoint.stress (Results.stressStrainCurve r))
    = Ok (Results.maxStress r);
  parts_min :
    py_min_list (map CurvePoint.stress (Results.stressStrainCurve r))
    = Ok (Results.minStress r);
  parts_avg :
    Results.avgStress r =
      py_sum (map CurvePoint.stress (Results.stressStrainCurve r))
      / py_len (map CurvePoint.stress (Results.stressStrainCurve r));
  parts_range :
    Results.stressRange r = Results.maxStress r - Results.minStress r;
  parts_max_strain :
    py_max_list (map CurvePoint.strain (Results.stressStrainCurve r))
    = Ok (Results.maxStrain r);
  parts_deformation : Results.maxDeformation r = Results.maxStrain r;
  parts_avg_strain :
    Results.avgStrain r =
      py_sum (map CurvePoint.strain (Results.stressStrainCurve r))
      / py_len (map CurvePoint.strain (Results.stressStrainCurve r));
  parts_series :
    forall w0,
      _build_time_series Random random math_sin math_exp math_pi job_id payload
        (Some (Results.maxStress r)) None None w0
      = (Ok (Results.timeSeriesData r), w0);
  parts_series_length : List.length (Results.timeSeriesData r) = 40%nat;
  parts_series_floored : Forall floored (Results.timeSeriesData r);
  parts_series_times :
    map TimePoint.time (Results.timeSeriesData r) =
      map (sample_time (py_or (SimulationRequest.duration payload) 10.0))
          (range points);
  parts_safety :
    exists allowable,
      _estimate_allowable_stress payload (Results.maxStress r) = Ok allowable /\
      Results.safetyFactor r =
        if Qltb 0 (Results.maxStress r)
        then allowable / Results.maxStress r
        else 0.0;
  parts_hotspots : Results.hotspots r = None;
  parts_source : Results.source r = "fallback"%string;
  parts_warning : Results.warning r = None
}.

(** What a solver-backed result is made of. *)
Record solver_parts (job_id : string) (payload : SimulationRequest.t)
    (r : Results.t) : Prop := {
  solved_fields :
    exists f,
      dolfin payload (_mesh_resolution payload) = DolfinFields f /\
      Results.maxStress r = FieldSummary.max_stress f /\
      Results.minStress r = FieldSummary.min_stress f /\
      Results.avgStress r = FieldSummary.avg_stress f /\
      Results.maxDeformation r = FieldSummary.max_deformation f /\
      Results.maxStrain r = FieldSummary.max_strain f /\
      Results.avgStrain r = FieldSummary.avg_strain f /\
      Results.hotspots r =
        Some [Hotspot.mk "max_stress" (FieldSummary.max_stress f)
                (FieldSummary.hotspot_location f)];
  solved_range :
    Results.stressRange r = Results.maxStress r - Results.minStress r;
  solved_curve :
    _build_stress_strain_curve Random random job_id payload
      (Some (Results.maxStress r)) = Ok (Results.stressStrainCurve r);
  solved_series :
    forall w0,
      _build_time_series Random random math_sin math_exp math_pi job_id payload
        (Some (Results.maxStress r)) None None w0
      = (Ok (Results.timeSeriesData r), w0);
  solved_series_length : List.length (Results.timeSeriesData r) = 40%nat;
  solved_series_floored : Forall floored (Results.timeSeriesData r);
  solved_safety :
    exists allowable,
      _estimate_allowable_stress payload (Results.maxStress r) = Ok allowable /\
      Results.safetyFactor r =
        if Qltb 0 (Results.maxStress r)
        then allowable / Results.maxStress r
        else 0.0;
  solved_source : Results.source r = "fenics"%string;
  solved_warning : Results.warning r = None
}.

(** What the fallback synthesizer hands back. *)
Definition stub_outcome (job_id : string) (payload : SimulationRequest.t)
    (res : result Results.t) : Prop :=
  match res with
  | Ok r =>
      series_defined math_exp payload = true /\ stub_parts job_id payload r
  | Raise e =>
      series_defined math_exp payload = false /\ exp_raises math_exp payload e
  end.

End Parts.

(** [load_factor] of [_build_stress_strain_curve]. *)
Definition load_factor_of (payload : SimulationRequest.t) : Q :=
  py_max 0.6
    (py_min 1.6
       (match SimulationRequest.appliedLoad payload with
        | Some v => v
        | None => 1000.0
        end / 1000.0)).

(** Every number the generator returns lies in the half-open unit
    interval, as those of [random.Random.random] do. *)
Definition unit_interval {rng_state : Type}
    (random : rng_state -> Q * rng_state) : Prop :=
  forall st, 0 <= fst (random st) /\ fst (random st) < 1.

(** The indices at which [_build_time_series] reports progress. *)
Definition reporting_indices : list Z :=
  filter (fun index => Z.eqb (index mod 4) 0) (range points).

(** The progress value reported at [index] for the range from [s] to [e]. *)
Definition interpolated (s e index : Z) : Z :=
  py_int (inject_Z s
          + inject_Z (e - s) * (inject_Z index / inject_Z (Z.max (points - 1) 1))).

(** A callback that returns and records its argument among the candidates,
    as [set_progress] does. *)
Definition records (cb : Z -> M unit) : Prop :=
  forall v w, exists w', cb v w = (Ok tt, w') /\ candidates w' = v :: candidates w.

(** The sample the loop of [_build_time_series] appends at [index] when
    the exponential returns [decay] and the generator [r1] and then [r2]. *)
Definition sample_point (math_sin : Q -> Q) (math_pi : Q)
    (duration frequency base amplitude : Q) (index : Z) (decay r1 r2 : Q)
    : TimePoint.t :=
  let time_value := sample_time duration index in
  TimePoint.mk time_value
    (py_max
       (base
        + amplitude
          * math_sin (2.0 * math_pi * frequency * time_value / duration)
          * decay
        + (-0.03 + (0.03 - -0.03) * r1) * amplitude)
       0.0)
    (py_max (time_value / duration * 0.2 + (-0.002 + (0.002 - -0.002) * r2)) 0.0).

(** The candidates the loop reports over [indices]: none without a range. *)
Definition reported (progress_range : option (Z * Z)) (indices : list Z) : list Z :=
  match progress_range with
  | Some (s, e) =>
      map (interpolated s e) (filter (fun index => Z.eqb (index mod 4) 0) indices)
  | None => []
  end.

(** The store after the submissions [requests], made in that order. *)
Definition submit_all (jobs : JobStore)
    (requests : list (string * SimulationRequest.t)) : JobStore :=
  fold_left
    (fun js request =>
       fst (fst (Endpoint.create_job js (fst request) (snd request))))
    requests jobs.

(** A progress value between the first checkpoint of [_run_job] and the
    last one of the result builders. *)
Definition checkpoint (c : Z) : Prop := (8 <= c <= 95)%Z.

(** [reports_within m]: whatever [m] returns or raises, the candidates it
    hands to the progress callback are checkpoints. *)
Definition reports_within {A : Type} (m : M A) : Prop :=
  forall w, exists res w' cs,
    m w = (res, w') /\
    candidates w' = (cs ++ candidates w)%list /\
    Forall checkpoint cs.

(** What a reader of the record can see of the progress: a value of the
    running phase, or the final 100 of a completed job. *)
Definition visible_progress (s : JobStatus.t) : Prop :=
  (JobStatus.status s = "running"%string /\ (5 <= JobStatus.progress s <= 95)%Z) \/
  (JobStatus.status s = "completed"%string /\
   ((5 <= JobStatus.progress s <= 95)%Z \/ JobStatus.progress s = 100%Z)).

(** ** Facts about the builtins *)

Lemma Qltb_true (a b : Q) : Qltb a b = true <-> a < b.
Proof.
  unfold Qltb. rewrite negb_true_iff. split; intro H.
  - apply Qnot_le_lt. intro Hle. apply Qle_bool_iff in Hle. congruence.
  - destruct (Qle_bool b a) eqn:E; [| reflexivity].
    apply Qle_bool_iff in E. exfalso. exact (Qlt_not_le _ _ H E).
Qed.

Lemma Qltb_false (a b : Q) : Qltb a b = false <-> b <= a.
Proof.
  unfold Qltb. rewrite negb_false_iff. apply Qle_bool_iff.
Qed.

Lemma py_max_cases (a b : Q) :
  (py_max a b = a /\ b <= a) \/ (py_max a b = b /\ a < b).
Proof.
  unfold py_max. destruct (Qltb a b) eqn:E.
  - right. split; [reflexivity | now apply Qltb_true].
  - left. split; [reflexivity | now apply Qltb_false].
Qed.

Lemma py_min_cases (a b : Q) :
  (py_min a b = a /\ a <= b) \/ (py_min a b = b /\ b < a).
Proof.
  unfold py_min. destruct (Qltb b a) eqn:E.
  - right. split; [reflexivity | now apply Qltb_true].
  - left. split; [reflexivity | now apply Qltb_false].
Qed.

Lemma py_max_lower_l (a b : Q) : a <= py_max a b.
Proof. destruct (py_max_cases a b) as [[-> H] | [-> H]]; lra. Qed.

Lemma py_max_lower_r (a b : Q) : b <= py_max a b.
Proof. destruct (py_max_cases a b) as [[-> H] | [-> H]]; lra. Qed.

Lemma py_min_upper_l (a b : Q) : py_min a b <= a.
Proof. destruct (py_min_cases a b) as [[-> H] | [-> H]]; lra. Qed.

Lemma py_min_upper_r (a b : Q) : py_min a b <= b.
Proof. destruct (py_min_cases a b) as [[-> H] | [-> H]]; lra. Qed.

(** [max] over a sequence is an upper bound of it and one of its members. *)
Lemma fold_py_max_upper (xs : list Q) (x : Q) :
  x <= fold_left py_max xs x /\ Forall (fun v => v <= fold_left py_max xs x) xs.
Proof.
  revert x. induction xs as [| y ys IH]; intro x; cbn [fold_left].
  - split; [lra | constructor].
  - destruct (IH (py_max x y)) as [H1 H2]. split.
    + pose proof (py_max_lower_l x y). lra.
    + constructor; [| exact H2]. pose proof (py_max_lower_r x y). lra.
Qed.

Lemma fold_py_max_member (xs : list Q) (x : Q) : In (fold_left py_max xs x) (x :: xs).
Proof.
  revert x. induction xs as [| y ys IH]; intro x; cbn [fold_left].
  - now left.
  - destruct (IH (py_max x y)) as [H | H].
    + destruct (py_max_cases x y) as [[E _] | [E _]].
      * left. etransitivity; [symmetry; exact E | exact H].
      * right. left. etransitivity; [symmetry; exact E | exact H].
    + right. right. exact H.
Qed.

Lemma fold_py_min_lower (xs : list Q) (x : Q) :
  fold_left py_min xs x <= x /\ Forall (fun v => fold_left py_min xs x <= v) xs.
Proof.
  revert x. induction xs as [| y ys IH]; intro x; cbn [fold_left].
  - split; [lra | constructor].
  - destruct (IH (py_min x y)) as [H1 H2]. split.
    + pose proof (py_min_upper_l x y). lra.
    + constructor; [| exact H2]. pose proof (py_min_upper_r x y). lra.
Qed.

Lemma fold_py_min_member (xs : list Q) (x : Q) : In (fold_left py_min xs x) (x :: xs).
Proof.
  revert x. induction xs as [| y ys IH]; intro x; cbn [fold_left].
  - now left.
  - destruct (IH (py_min x y)) as [H | H].
    + destruct (py_min_cases x y) as [[E _] | [E _]].
      * left. etransitivity; [symmetry; exact E | exact H].
      * right. left. etransitivity; [symmetry; exact E | exact H].
    + right. right. exact H.
Qed.

(** A sum lies between the length times a lower and an upper bound. *)
Lemma fold_Qplus_bounds (lo hi : Q) (xs : list Q) (acc : Q) :
  Forall (fun v => lo <= v /\ v <= hi) xs ->
  acc + lo * py_len xs <= fold_left Qplus xs acc /\
  fold_left Qplus xs acc <= acc + hi * py_len xs.
Proof.
  revert acc. induction xs as [| y ys IH]; intros acc Hall.
  - change (py_len (@nil Q)) with 0. cbn [fold_left]. split; lra.
  - inversion Hall as [| ? ? [Hlo Hhi] Hrest]; subst.
    destruct (IH (acc + y) Hrest) as [H1 H2].
    assert (Hlen : py_len (y :: ys) == py_len ys + 1).
    { unfold py_len. cbn [List.length]. rewrite Nat2Z.inj_succ.
      unfold Z.succ. rewrite inject_Z_plus. reflexivity. }
    cbn [fold_left]. rewrite Hlen. split; lra.
Qed.

Lemma py_len_pos {A : Type} (x : A) (xs : list A) : 0 < py_len (x :: xs).
Proof.
  unfold py_len. cbn [List.length]. rewrite Nat2Z.inj_succ.
  change 0 with (inject_Z 0). rewrite <- Zlt_Qlt. lia.
Qed.

Lemma py_div_ok (a b : Q) : ~ b == 0 -> py_div a b = Ok (a / b).
Proof.
  intro H. unfold py_div. destruct (Qeq_bool b 0) eqn:E; [| reflexivity].
  apply Qeq_bool_eq in E. contradiction.
Qed.

Lemma py_or_nonzero (x : option Q) (d : Q) : ~ d == 0 -> ~ py_or x d == 0.
Proof.
  intro Hd. unfold py_or. destruct x as [v |]; [| exact Hd].
  destruct (Qeq_bool v 0) eqn:E; [exact Hd |].
  now apply Qeq_bool_neq.
Qed.

(** The mean of a non-empty sequence lies between its bounds. *)
Lemma mean_bounds (lo hi : Q) (x : Q) (xs : list Q) :
  Forall (fun v => lo <= v /\ v <= hi) (x :: xs) ->
  lo <= py_sum (x :: xs) / py_len (x :: xs) /\
  py_sum (x :: xs) / py_len (x :: xs) <= hi.
Proof.
  intro Hall. pose proof (py_len_pos x xs) as Hpos.
  destruct (fold_Qplus_bounds lo hi (x :: xs) 0 Hall) as [H1 H2].
  fold (py_sum (x :: xs)) in H1, H2.
  set (n := py_len (x :: xs)) in *. set (s := py_sum (x :: xs)) in *.
  split.
  - apply Qle_shift_div_l; [exact Hpos | lra].
  - apply Qle_shift_div_r; [exact Hpos | lra].
Qed.

(** ** Running a computation of the job monad *)

Lemma bind_ok {A B : Type} (m : M A) (k : A -> M B) (w w1 : World) (a : A) :
  m w = (Ok a, w1) -> bind m k w = k a w1.
Proof. intro H. unfold bind. now rewrite H. Qed.

Lemma bind_raise {A B : Type} (m : M A) (k : A -> M B) (w w1 : World) (e : exn) :
  m w = (Raise e, w1) -> bind m k w = (Raise e, w1).
Proof. intro H. unfold bind. now rewrite H. Qed.

Lemma bind_lift_ok {A B : Type} (r : result A) (a : A) (k : A -> M B) (w : World) :
  r = Ok a -> bind (lift r) k w = k a w.
Proof. intros ->. reflexivity. Qed.

Lemma call_run (I : World -> Prop) (progress_cb : option (Z -> M unit)) (v : Z) (w : World) :
  cb_preserves I progress_cb -> I w ->
  exists w', call progress_cb v w = (Ok tt, w') /\ I w'.
Proof.
  intros Hcb Hw. destruct progress_cb as [cb |]; cbn [call].
  - exact (Hcb v w Hw).
  - exists w. split; [reflexivity | exact Hw].
Qed.

Lemma divisor_nonzero : ~ inject_Z (Z.max (points - 1) 1) == 0.
Proof. vm_compute. discriminate. Qed.

Lemma range_members (n index : Z) : In index (range n) -> (0 <= index < n)%Z.
Proof.
  unfold range. rewrite in_map_iff. intros (k & <- & Hk).
  apply in_seq in Hk. lia.
Qed.

Lemma decays_cons (math_exp : Q -> result Q) (damping duration : Q)
    (index : Z) (rest : list Z) :
  decays math_exp damping duration (index :: rest) =
    match math_exp (decay_argument damping duration index) with
    | Ok _ => decays math_exp damping duration rest
    | Raise _ => false
    end.
Proof.
  unfold decays. cbn [forallb].
  now destruct (math_exp (decay_argument damping duration index)).
Qed.

(** An index at which [math.exp] raises keeps the samples from being
    defined. *)
Lemma decays_false (math_exp : Q -> result Q) (damping duration : Q)
    (indices : list Z) (index : Z) (e : exn) :
  In index indices ->
  math_exp (decay_argument damping duration index) = Raise e ->
  decays math_exp damping duration indices = false.
Proof.
  intros Hin Hraise.
  destruct (decays math_exp damping duration indices) eqn:E; [| reflexivity].
  unfold decays in E. rewrite forallb_forall in E.
  specialize (E index Hin). rewrite Hraise in E. discriminate E.
Qed.

Lemma decays_true (math_exp : Q -> result Q) (damping duration : Q)
    (indices : list Z) :
  (forall index,
    In index indices ->
    exists y, math_exp (decay_argument damping duration index) = Ok y) ->
  decays math_exp damping duration indices = true.
Proof.
  intro H. unfold decays. apply forallb_forall. intros index Hin.
  destruct (H index Hin) as [y ->]. reflexivity.
Qed.

(** When [math.exp] returns on every argument up to [limit], it returns at
    each sample of a request whose damping ratio times its duration is at
    least [- limit]: the arguments lie between 0 and the opposite of that
    product. *)
Lemma series_defined_below (math_exp : Q -> result Q)
    (payload : SimulationRequest.t) (limit : Q) :
  0 <= limit ->
  (forall x, x <= limit -> exists y, math_exp x = Ok y) ->
  - py_or (SimulationRequest.dampingRatio payload) 0.05
    * py_or (SimulationRequest.duration payload) 10.0 <= limit ->
  series_defined math_exp payload = true.
Proof.
  intros Hlimit Hexp Hbound. unfold series_defined. apply decays_true.
  intros index Hin. apply Hexp. apply range_members in Hin.
  unfold decay_argument, sample_time.
  change (inject_Z (Z.max (points - 1) 1)) with 39.
  set (d := py_or (SimulationRequest.dampingRatio payload) 0.05) in *.
  set (u := py_or (SimulationRequest.duration payload) 10.0) in *.
  assert (H0 : 0 <= inject_Z index).
  { change 0 with (inject_Z 0). rewrite <- Zle_Qle. lia. }
  assert (H1 : inject_Z index <= 39).
  { change 39 with (inject_Z 39). rewrite <- Zle_Qle. unfold points in Hin. lia. }
  assert (Ht : 0 <= inject_Z index / 39 /\ inject_Z index / 39 <= 1).
  { split; [apply Qle_shift_div_l | apply Qle_shift_div_r]; lra. }
  assert (Harg : - d * (u * inject_Z index / 39) == - d * u * (inject_Z index / 39))
    by field.
  rewrite Harg.
  set (t := inject_Z index / 39) in *. set (a := - d * u) in *.
  destruct (Qlt_le_dec a 0); nra.
Qed.

Section TimeSeries.

Context {rng_state : Type}.
Variable Random : string -> rng_state.
Variable random : rng_state -> Q * rng_state.
Variable math_sin : Q -> Q.
Variable math_exp : Q -> result Q.
Variable math_pi : Q.

(** The loop returns one floored sample per index when [math.exp] returns
    at each of them, and raises what [math.exp] raises otherwise.  Whatever
    the callback does to the world, the outcome is the one of the run
    without a callback. *)
Lemma time_series_loop_run (I : World -> Prop)
    (duration frequency damping base amplitude : Q)
    (progress_cb : option (Z -> M unit)) (progress_range : option (Z * Z))
    (s e : Z) :
  cb_preserves I progress_cb -> ~ duration == 0 ->
  forall (indices : list Z) (rng : rng_state) (acc : list TimePoint.t) (w : World),
  I w ->
  exists out w',
    time_series_loop random math_sin math_exp math_pi indices rng
      duration frequency damping base amplitude progress_cb progress_range s e acc w
    = (appended acc out, w') /\ I w' /\
    (forall acc0 w0,
      time_series_loop random math_sin math_exp math_pi indices rng
        duration frequency damping base amplitude None None 0 0 acc0 w0
      = (appended acc0 out, w0)) /\
    match out with
    | Ok new =>
        decays math_exp damping duration indices = true /\
        List.length new = List.length indices /\
        Forall floored new /\
        map TimePoint.time new = map (sample_time duration) indices
    | Raise e =>
        decays math_exp damping duration indices = false /\
        exists index,
          In index indices /\
          math_exp (decay_argument damping duration index) = Raise e
    end.
Proof.
  intros Hcb Hd. induction indices as [| index rest IH]; intros rng acc w Hw.
  - exists (Ok []), w. cbn [appended]. rewrite app_nil_r. repeat split; auto.
    intros acc0 w0. now rewrite app_nil_r.
  - cbn [time_series_loop].
    rewrite (bind_lift_ok _ _ _ _ (py_div_ok _ _ divisor_nonzero)).
    rewrite (bind_lift_ok _ _ _ _ (py_div_ok _ _ Hd)).
    rewrite decays_cons.
    destruct (math_exp (decay_argument damping duration index))
      as [decay | e0] eqn:Eexp.
    + assert (Estep : math_exp (- damping
                                 * (duration * inject_Z index
                                    / inject_Z (Z.max (points - 1) 1)))
                      = Ok decay) by exact Eexp.
      rewrite (bind_lift_ok _ _ _ _ Estep).
      destruct (uniform random rng (-0.03) 0.03) as [u rng1] eqn:Eu.
      rewrite (bind_lift_ok _ _ _ _ (py_div_ok _ _ Hd)).
      destruct (uniform random rng1 (-0.002) 0.002) as [v rng2] eqn:Ev.
      match goal with
      | |- context [bind ?c _ w] =>
          assert (Hcall : exists w1, c w = (Ok tt, w1) /\ I w1)
      end.
      { destruct progress_cb as [cb |]; [| exists w; now split].
        destruct progress_range as [r |]; [| exists w; now split].
        destruct (Z.eqb (index mod 4) 0); [| exists w; now split].
        rewrite (bind_lift_ok _ _ _ _ (py_div_ok _ _ divisor_nonzero)).
        exact (Hcb _ w Hw). }
      destruct Hcall as (w1 & Hrun & Hw1).
      rewrite (bind_ok _ _ _ _ _ Hrun).
      match goal with
      | |- context [time_series_loop _ _ _ _ rest rng2 _ _ _ _ _ _ _ _ _ (acc ++ [?p]) w1] =>
          set (pt := p)
      end.
      destruct (IH rng2 (acc ++ [pt])%list w1 Hw1)
        as (out & w' & Hloop & Hw' & Hpure & Hout).
      exists (appended [pt] out), w'. split; [| split; [exact Hw' | split]].
      * rewrite Hloop. destruct out as [new | e1]; cbn [appended app];
          [now rewrite <- app_assoc | reflexivity].
      * intros acc0 w0.
        rewrite (bind_lift_ok _ _ _ _ (py_div_ok _ _ divisor_nonzero)).
        rewrite (bind_lift_ok _ _ _ _ (py_div_ok _ _ Hd)).
        rewrite (bind_lift_ok _ _ _ _ Estep).
        rewrite (bind_lift_ok _ _ _ _ (py_div_ok _ _ Hd)).
        unfold bind at 1, ret at 1. fold pt.
        rewrite Hpure. destruct out as [new | e1]; cbn [appended app];
          [now rewrite <- app_assoc | reflexivity].
      * destruct out as [new | e1]; cbn [appended app].
        -- destruct Hout as (Hdec & Hlen & Hfloor & Htimes).
           split; [exact Hdec |]. split; [cbn [List.length]; now rewrite Hlen |].
           split.
           ++ constructor; [| exact Hfloor].
              split; cbn [pt TimePoint.stress TimePoint.displacement];
                match goal with
                | |- 0 <= py_max ?x ?z => pose proof (py_max_lower_r x z) as Hz; lra
                end.
           ++ cbn [map]. now rewrite Htimes.
        -- destruct Hout as (Hdec & index' & Hin & Hraise).
           split; [exact Hdec |]. exists index'. split; [now right | exact Hraise].
    + assert (Estep : math_exp (- damping
                                 * (duration * inject_Z index
                                    / inject_Z (Z.max (points - 1) 1)))
                      = Raise e0) by exact Eexp.
      exists (Raise e0), w. cbn [appended].
      split; [now rewrite Estep |]. split; [exact Hw |]. split.
      * intros acc0 w0.
        rewrite (bind_lift_ok _ _ _ _ (py_div_ok _ _ divisor_nonzero)).
        rewrite (bind_lift_ok _ _ _ _ (py_div_ok _ _ Hd)).
        now rewrite Estep.
      * split; [reflexivity |]. exists index. split; [now left | exact Eexp].
Qed.

(** [_build_time_series] under a callback that keeps [I]. *)
Lemma build_time_series_run (I : World -> Prop) (job_id : string)
    (payload : SimulationRequest.t) (max_stress : option Q)
    (progress_cb : option (Z -> M unit)) (progress_range : option (Z * Z))
    (w : World) :
  cb_preserves I progress_cb -> I w ->
  exists res w',
    _build_time_series Random random math_sin math_exp math_pi
      job_id payload max_stress progress_cb progress_range w = (res, w') /\
    I w' /\
    (forall w0,
      _build_time_series Random random math_sin math_exp math_pi
        job_id payload max_stress None None w0 = (res, w0)) /\
    series_outcome math_exp payload res.
Proof.
  intros Hcb Hw. unfold _build_time_series.
  assert (Hd : ~ py_or (SimulationRequest.duration payload) 10.0 == 0).
  { apply py_or_nonzero. vm_compute. discriminate. }
  destruct progress_range as [[s e] |].
  - destruct (time_series_loop_run I _ (py_or (SimulationRequest.frequency payload) 1.0)
               (py_or (SimulationRequest.dampingRatio payload) 0.05)
               (py_or max_stress 100.0 * 0.35) (py_or max_stress 100.0 * 0.65)
               progress_cb (Some (s, e)) s e Hcb Hd (range points)
               (Random job_id) [] w Hw)
      as (out & w' & Hloop & Hw' & Hpure & Hout).
    exists out, w'. split; [| split; [exact Hw' | split]].
    + rewrite Hloop. now destruct out.
    + intro w0. rewrite Hpure. now destruct out.
    + destruct out; exact Hout.
  - destruct (time_series_loop_run I _ (py_or (SimulationRequest.frequency payload) 1.0)
               (py_or (SimulationRequest.dampingRatio payload) 0.05)
               (py_or max_stress 100.0 * 0.35) (py_or max_stress 100.0 * 0.65)
               progress_cb None 0%Z 0%Z Hcb Hd (range points)
               (Random job_id) [] w Hw)
      as (out & w' & Hloop & Hw' & Hpure & Hout).
    exists out, w'. split; [| split; [exact Hw' | split]].
    + rewrite Hloop. now destruct out.
    + intro w0. rewrite Hpure. now destruct out.
    + destruct out; exact Hout.
Qed.

(** The generator returns exactly when [math.exp] returns at each sample. *)
Lemma build_time_series_defined (I : World -> Prop) (job_id : string)
    (payload : SimulationRequest.t) (max_stress : option Q)
    (progress_cb : option (Z -> M unit)) (progress_range : option (Z * Z))
    (w : World) :
  cb_preserves I progress_cb -> I w ->
  series_defined math_exp payload = true ->
  exists ts w',
    _build_time_series Random random math_sin math_exp math_pi
      job_id payload max_stress progress_cb progress_range w = (Ok ts, w') /\
    I w' /\
    (forall w0,
      _build_time_series Random random math_sin math_exp math_pi
        job_id payload max_stress None None w0 = (Ok ts, w0)) /\
    List.length ts = 40%nat /\
    Forall floored ts /\
    map TimePoint.time ts =
      map (sample_time (py_or (SimulationRequest.duration payload) 10.0))
          (range points).
Proof.
  intros Hcb Hw Hdef.
  destruct (build_time_series_run I job_id payload max_stress progress_cb
              progress_range w Hcb Hw)
    as (res & w' & Hrun & Hw' & Hpure & Hout).
  destruct res as [ts | e]; cbn [series_outcome] in Hout.
  - destruct Hout as (_ & Hlen & Hfloor & Htimes).
    exists ts, w'. repeat split; assumption.
  - destruct Hout as [Hno _]. congruence.
Qed.

Lemma build_time_series_undefined (I : World -> Prop) (job_id : string)
    (payload : SimulationRequest.t) (max_stress : option Q)
    (progress_cb : option (Z -> M unit)) (progress_range : option (Z * Z))
    (w : World) :
  cb_preserves I progress_cb -> I w ->
  series_defined math_exp payload = false ->
  exists e w',
    _build_time_series Random random math_sin math_exp math_pi
      job_id payload max_stress progress_cb progress_range w = (Raise e, w') /\
    I w' /\
    (forall w0,
      _build_time_series Random random math_sin math_exp math_pi
        job_id payload max_stress None None w0 = (Raise e, w0)) /\
    exp_raises math_exp payload e.
Proof.
  intros Hcb Hw Hdef.
  destruct (build_time_series_run I job_id payload max_stress progress_cb
              progress_range w Hcb Hw)
    as (res & w' & Hrun & Hw' & Hpure & Hout).
  destruct res as [ts | e]; cbn [series_outcome] in Hout.
  - destruct Hout as [Hyes _]. congruence.
  - destruct Hout as (_ & Hindex).
    exists e, w'. split; [exact Hrun |]. split; [exact Hw' |].
    split; [exact Hpure | exact Hindex].
Qed.

(** Without a callback the world is left as it was. *)
Lemma build_time_series_quiet (job_id : string) (payload : SimulationRequest.t)
    (max_stress : option Q) (progress_range : option (Z * Z))
    (res : result (list TimePoint.t)) (w0 : World) :
  (forall w,
    _build_time_series Random random math_sin math_exp math_pi
      job_id payload max_stress None None w = (res, w)) ->
  _build_time_series Random random math_sin math_exp math_pi
    job_id payload max_stress None progress_range w0 = (res, w0).
Proof.
  intro Hpure.
  destruct (build_time_series_run (eq w0) job_id payload max_stress None
              progress_range w0 Logic.I eq_refl)
    as (res' & w' & Hrun & <- & Hpure' & _).
  rewrite Hrun. specialize (Hpure w0). rewrite Hpure' in Hpure.
  now inversion Hpure.
Qed.

(** The outcome of the generator does not depend on the baseline stress. *)
Lemma build_time_series_outcome (job_id : string) (payload : SimulationRequest.t)
    (max_stress : option Q) :
  exists res,
    (forall w0,
      _build_time_series Random random math_sin math_exp math_pi
        job_id payload max_stress None None w0 = (res, w0)) /\
    series_outcome math_exp payload res.
Proof.
  destruct (build_time_series_run (fun _ => True) job_id payload max_stress None
              None (world_of (create_job job_id)) Logic.I Logic.I)
    as (res & w' & _ & _ & Hpure & Hout).
  now exists res.
Qed.

End TimeSeries.

(** ** The generated curve and the fallback results *)

Lemma estimate_allowable_run (payload : SimulationRequest.t) (max_stress : Q) :
  exists allowable,
    _estimate_allowable_stress payload max_stress = Ok allowable /\
    match reference_curve payload with
    | [] => allowable = max_stress * 1.2
    | p :: ps =>
        allowable =
          fold_left py_max (map StressPoint.stress ps) (StressPoint.stress p) * 0.9
    end.
Proof.
  unfold _estimate_allowable_stress, reference_curve.
  destruct (Material.stressStrainCurve (SimulationRequest.material payload))
    as [| p ps]; eexists; split; reflexivity.
Qed.

Section Curve.

Context {rng_state : Type}.
Variable Random : string -> rng_state.
Variable random : rng_state -> Q * rng_state.

Lemma dense_curve_loop_run (stress_scale strain_scale : Q) (curve : list StressPoint.t) :
  forall (rng : rng_state) (acc : list CurvePoint.t),
  exists new,
    dense_curve_loop random curve rng stress_scale strain_scale acc = (acc ++ new)%list /\
    List.length new = List.length curve /\
    Forall (fun p => 0 <= CurvePoint.stress p) new /\
    map CurvePoint.strain new =
      map (fun p => StressPoint.strain p * strain_scale) curve.
Proof.
  induction curve as [| point rest IH]; intros rng acc.
  - exists []. rewrite app_nil_r. repeat split; auto.
  - cbn [dense_curve_loop].
    destruct (uniform random rng (-0.015) 0.015) as [u rng1].
    match goal with
    | |- context [dense_curve_loop _ _ _ _ _ (acc ++ [?p])] => set (pt := p)
    end.
    destruct (IH rng1 (acc ++ [pt])%list) as (new & Hloop & Hlen & Hpos & Hstrain).
    exists (pt :: new). repeat split.
    + rewrite Hloop. now rewrite <- app_assoc.
    + cbn [List.length]. now rewrite Hlen.
    + constructor; [| exact Hpos]. cbn [pt CurvePoint.stress].
      match goal with
      | |- 0 <= py_max ?z ?x => pose proof (py_max_lower_l z x) as Hz; lra
      end.
    + cbn [map pt CurvePoint.strain]. now rewrite Hstrain.
Qed.

(** Without a target stress the curve generator cannot raise; its curve has
    a first point and no negative stress. *)
Lemma build_curve_fallback (job_id : string) (payload : SimulationRequest.t) :
  exists c cs,
    _build_stress_strain_curve Random random job_id payload None = Ok (c :: cs) /\
    Forall (fun p => 0 <= CurvePoint.stress p) (c :: cs) /\
    match reference_curve payload with
    | [] => c :: cs = [CurvePoint.mk 0.0 0.0]
    | _ :: _ =>
        map CurvePoint.strain (c :: cs) =
          map (fun p => StressPoint.strain p * strain_scale_of payload)
              (reference_curve payload)
    end.
Proof.
  unfold _build_stress_strain_curve, reference_curve.
  destruct (Material.stressStrainCurve (SimulationRequest.material payload))
    as [| p ps] eqn:Ecurve.
  - exists (CurvePoint.mk 0.0 0.0), []. repeat split.
    constructor; [cbn; lra | constructor].
  - cbn [py_max_list map result_bind].
    match goal with
    | |- context [dense_curve_loop random ?c ?r ?a ?b []] =>
        destruct (dense_curve_loop_run a b c r []) as (new & Hloop & Hlen & Hpos & Hstrain)
    end.
    rewrite Hloop. cbn [app].
    destruct new as [| c cs]; [discriminate Hlen |].
    exists c, cs. repeat split; [exact Hpos | exact Hstrain].
Qed.

(** What the loop makes of one reference point, for the number [r] drawn. *)
Lemma dense_curve_loop_points (U : Q -> Prop) (stress_scale strain_scale : Q)
    (curve : list StressPoint.t) :
  (forall st, U (fst (random st))) ->
  forall (rng : rng_state) (acc : list CurvePoint.t),
  exists new,
    dense_curve_loop random curve rng stress_scale strain_scale acc
    = (acc ++ new)%list /\
    Forall2
      (fun point out =>
         exists r,
           U r /\
           out = CurvePoint.mk
                   (StressPoint.strain point * strain_scale)
                   (py_max 0.0
                      (StressPoint.stress point * stress_scale
                       + (-0.015 + (0.015 - -0.015) * r) * StressPoint.stress point)))
      curve new.
Proof.
  intro HU. induction curve as [| point rest IH]; intros rng acc.
  - exists []. rewrite app_nil_r. split; [reflexivity | constructor].
  - cbn [dense_curve_loop]. unfold uniform.
    pose proof (HU rng) as Hr.
    destruct (random rng) as [r rng1]. cbn [fst] in Hr.
    match goal with
    | |- context [dense_curve_loop _ _ _ _ _ (acc ++ [?p])] => set (pt := p)
    end.
    destruct (IH rng1 (acc ++ [pt])%list) as (new & Hloop & Hall).
    exists (pt :: new). split.
    + rewrite Hloop. now rewrite <- app_assoc.
    + constructor; [| exact Hall]. exists r. split; [exact Hr | reflexivity].
Qed.

(** The curve generator returns the loop's list, for the scale of its mode. *)
Lemma build_curve_cases (job_id : string) (payload : SimulationRequest.t)
    (max_stress : option Q) (p : StressPoint.t) (ps : list StressPoint.t) :
  reference_curve payload = p :: ps ->
  let top := fold_left py_max (map StressPoint.stress ps) (StressPoint.stress p) in
  let loop scale :=
    Ok (dense_curve_loop random (p :: ps) (Random (String.append job_id "_curve"))
          scale (strain_scale_of payload) []) in
  _build_stress_strain_curve Random random job_id payload max_stress =
    match max_stress with
    | Some v =>
        if Qeq_bool v 0 then loop (load_factor_of payload)
        else if Qeq_bool top 0 then Raise ZeroDivisionError
        else loop (v / top)
    | None => loop (load_factor_of payload)
    end.
Proof.
  intros Href top loop. unfold _build_stress_strain_curve.
  unfold reference_curve in Href. rewrite Href.
  cbv zeta. cbn [py_max_list map result_bind]. fold top.
  destruct max_stress as [v |]; [| reflexivity].
  destruct (Qeq_bool v 0); [reflexivity |].
  unfold py_div. destruct (Qeq_bool top 0); reflexivity.
Qed.

(** Without a target stress, the generated stress of a reference point of
    non-negative stress stays within 1.5 % of that stress around its
    product with the load factor. *)
Lemma build_curve_scaled (job_id : string) (payload : SimulationRequest.t) :
  unit_interval random ->
  reference_curve payload <> [] ->
  exists curve,
    _build_stress_strain_curve Random random job_id payload None = Ok curve /\
    Forall2
      (fun point out =>
         0 <= StressPoint.stress point ->
         (load_factor_of payload - 0.015) * StressPoint.stress point
           <= CurvePoint.stress out /\
         CurvePoint.stress out
           <= (load_factor_of payload + 0.015) * StressPoint.stress point)
      (reference_curve payload) curve.
Proof.
  intros Hunit Hne.
  assert (Hlow : 0.6 <= load_factor_of payload).
  { unfold load_factor_of. apply py_max_lower_l. }
  destruct (reference_curve payload) as [| p ps] eqn:Href; [contradiction |].
  rewrite (build_curve_cases job_id payload None p ps Href). cbv zeta.
  destruct (dense_curve_loop_points (fun r => 0 <= r /\ r < 1)
              (load_factor_of payload) (strain_scale_of payload) (p :: ps)
              Hunit (Random (String.append job_id "_curve")) [])
    as (new & Hloop & Hall).
  eexists. split; [reflexivity |]. rewrite Hloop. cbn [app].
  eapply Forall2_impl; [| exact Hall].
  intros point out (r & [Hr0 Hr1] & ->) Hs. cbn [CurvePoint.stress].
  set (s := StressPoint.stress point) in *.
  set (f := load_factor_of payload) in *.
  match goal with
  | |- context [py_max 0.0 ?x] =>
      destruct (py_max_cases 0.0 x) as [[-> Hx] | [-> Hx]]
  end; split; nra.
Qed.

End Curve.

Section Fallback.

Context {rng_state : Type}.
Variable Random : string -> rng_state.
Variable random : rng_state -> Q * rng_state.
Variable math_sin : Q -> Q.
Variable math_exp : Q -> result Q.
Variable math_pi : Q.

(** Once the curve and the time series are known, so is the result. *)
Lemma build_stub_results_eval (job_id : string) (payload : SimulationRequest.t)
    (c : CurvePoint.t) (cs : list CurvePoint.t) (ts : list TimePoint.t) :
  _build_stress_strain_curve Random random job_id payload None = Ok (c :: cs) ->
  exists r,
    (forall progress_cb w w',
      _build_time_series Random random math_sin math_exp math_pi job_id payload
        (Some (fold_left py_max (map CurvePoint.stress cs) (CurvePoint.stress c)))
        progress_cb (Some (70%Z, 95%Z)) w = (Ok ts, w') ->
      _build_stub_results Random random math_sin math_exp math_pi
        job_id payload progress_cb w = (Ok r, w')) /\
    Results.stressStrainCurve r = c :: cs /\
    Results.timeSeriesData r = ts /\
    Results.maxStress r = fold_left py_max (map CurvePoint.stress cs) (CurvePoint.stress c) /\
    Results.minStress r = fold_left py_min (map CurvePoint.stress cs) (CurvePoint.stress c) /\
    Results.avgStress r =
      py_sum (map CurvePoint.stress (c :: cs)) / py_len (map CurvePoint.stress (c :: cs)) /\
    Results.stressRange r = Results.maxStress r - Results.minStress r /\
    Results.maxStrain r = fold_left py_max (map CurvePoint.strain cs) (CurvePoint.strain c) /\
    Results.maxDeformation r = Results.maxStrain r /\
    Results.avgStrain r =
      py_sum (map CurvePoint.strain (c :: cs)) / py_len (map CurvePoint.strain (c :: cs)) /\
    (exists allowable,
      _estimate_allowable_stress payload (Results.maxStress r) = Ok allowable /\
      Results.safetyFactor r =
        if Qltb 0 (Results.maxStress r)
        then allowable / Results.maxStress r
        else 0.0) /\
    Results.hotspots r = None /\
    Results.source r = "fallback"%string /\
    Results.warning r = None.
Proof.
  intro Hcurve.
  set (stresses := map CurvePoint.stress (c :: cs)).
  set (strains := map CurvePoint.strain (c :: cs)).
  set (max_stress := fold_left py_max (map CurvePoint.stress cs) (CurvePoint.stress c)).
  assert (Hlen1 : ~ py_len stresses == 0).
  { pose proof (py_len_pos (CurvePoint.stress c) (map CurvePoint.stress cs)).
    unfold stresses. cbn [map]. lra. }
  assert (Hlen2 : ~ py_len strains == 0).
  { pose proof (py_len_pos (CurvePoint.strain c) (map CurvePoint.strain cs)).
    unfold strains. cbn [map]. lra. }
  destruct (estimate_allowable_run payload max_stress) as (allowable & Hallow & _).
  assert (Hsafety : exists sf,
            (forall w,
              (if Qltb 0 max_stress
               then lift (py_div allowable max_stress)
               else ret 0.0) w = (Ok sf, w)) /\
            sf = if Qltb 0 max_stress then allowable / max_stress else 0.0).
  { destruct (Qltb 0 max_stress) eqn:Epos.
    - apply Qltb_true in Epos. eexists. split; [| reflexivity].
      intro w. unfold lift. rewrite py_div_ok; [reflexivity | lra].
    - eexists. split; [intro w |]; reflexivity. }
  destruct Hsafety as (sf & Hsf & Esf).
  eexists. split.
  - intros progress_cb w w' Hts. unfold _build_stub_results.
    rewrite (bind_lift_ok _ _ _ _ Hcurve).
    cbn [py_list_or py_max_list py_min_list map].
    rewrite (bind_lift_ok _ _ _ _ eq_refl).
    rewrite (bind_lift_ok _ _ _ _ eq_refl).
    rewrite (bind_lift_ok _ _ _ _ (py_div_ok _ _ Hlen1)).
    rewrite (bind_ok _ _ _ _ _ Hts).
    rewrite (bind_lift_ok _ _ _ _ Hallow).
    rewrite (bind_ok _ _ _ _ _ (Hsf w')).
    rewrite (bind_lift_ok _ _ _ _ eq_refl).
    rewrite (bind_lift_ok _ _ _ _ eq_refl).
    rewrite (bind_lift_ok _ _ _ _ (py_div_ok _ _ Hlen2)).
    reflexivity.
  - cbn. repeat split; try reflexivity.
    exists allowable. split; [exact Hallow | exact Esf].
Qed.

(** When the time series raises, so does the synthesizer. *)
Lemma build_stub_results_raise (job_id : string) (payload : SimulationRequest.t)
    (c : CurvePoint.t) (cs : list CurvePoint.t) (e : exn)
    (progress_cb : option (Z -> M unit)) (w w' : World) :
  _build_stress_strain_curve Random random job_id payload None = Ok (c :: cs) ->
  _build_time_series Random random math_sin math_exp math_pi job_id payload
    (Some (fold_left py_max (map CurvePoint.stress cs) (CurvePoint.stress c)))
    progress_cb (Some (70%Z, 95%Z)) w = (Raise e, w') ->
  _build_stub_results Random random math_sin math_exp math_pi
    job_id payload progress_cb w = (Raise e, w').
Proof.
  intros Hcurve Hts. unfold _build_stub_results.
  assert (Hlen1 : ~ py_len (map CurvePoint.stress (c :: cs)) == 0).
  { pose proof (py_len_pos (CurvePoint.stress c) (map CurvePoint.stress cs)).
    cbn [map]. lra. }
  rewrite (bind_lift_ok _ _ _ _ Hcurve).
  cbn [py_list_or py_max_list py_min_list map].
  rewrite (bind_lift_ok _ _ _ _ eq_refl).
  rewrite (bind_lift_ok _ _ _ _ eq_refl).
  rewrite (bind_lift_ok _ _ _ _ (py_div_ok _ _ Hlen1)).
  now rewrite (bind_raise _ _ _ _ _ Hts).
Qed.

(** Under every callback that keeps an invariant [_build_stub_results]
    returns when [math.exp] returns at each sample and raises what
    [math.exp] raises otherwise; the outcome is the one of the run without
    a callback. *)
Lemma build_stub_results_run (I : World -> Prop) (job_id : string)
    (payload : SimulationRequest.t) (progress_cb : option (Z -> M unit))
    (w : World) :
  cb_preserves I progress_cb -> I w ->
  exists res w',
    _build_stub_results Random random math_sin math_exp math_pi
      job_id payload progress_cb w = (res, w') /\
    I w' /\
    (forall w0,
      _build_stub_results Random random math_sin math_exp math_pi
        job_id payload None w0 = (res, w0)) /\
    stub_outcome Random random math_sin math_exp math_pi job_id payload res.
Proof.
  intros Hcb Hw.
  destruct (build_curve_fallback Random random job_id payload)
    as (c & cs & Hcurve & _ & _).
  set (max_stress := fold_left py_max (map CurvePoint.stress cs) (CurvePoint.stress c)).
  destruct (build_time_series_run Random random math_sin math_exp math_pi I
              job_id payload (Some max_stress) progress_cb (Some (70%Z, 95%Z))
              w Hcb Hw)
    as (out & w' & Hts & Hw' & Hpure & Hout).
  destruct out as [ts | e]; cbn [series_outcome] in Hout.
  - destruct Hout as (Hdef & Hlen & Hfloor & Htimes).
    destruct (build_stub_results_eval job_id payload c cs ts Hcurve)
      as (r & Heval & Ec & Ets & Emax & Emin & Eavg & Erange & Estrain & Edef
          & Eavgs & Hsafety & Ehot & Esrc & Ewarn).
    exists (Ok r), w'. split; [exact (Heval _ _ _ Hts) |]. split; [exact Hw' |].
    split.
    + intro w0. apply Heval.
      apply build_time_series_quiet. exact Hpure.
    + split; [exact Hdef |].
      constructor; rewrite ?Ec, ?Ets, ?Emax; auto.
      * discriminate.
      * cbn [map py_min_list]. now rewrite Emin.
      * now rewrite Erange, Emax.
      * cbn [map py_max_list]. now rewrite Estrain.
      * rewrite <- Emax. exact Hsafety.
  - exists (Raise e), w'.
    split; [exact (build_stub_results_raise job_id payload c cs e _ _ _ Hcurve Hts) |].
    split; [exact Hw' |]. split; [| exact Hout].
    intro w0. apply (build_stub_results_raise job_id payload c cs e); [exact Hcurve |].
    apply build_time_series_quiet. exact Hpure.
Qed.

(** The synthesizer returns when [math.exp] returns at each sample. *)
Lemma build_stub_results_defined (I : World -> Prop) (job_id : string)
    (payload : SimulationRequest.t) (progress_cb : option (Z -> M unit))
    (w : World) :
  cb_preserves I progress_cb -> I w ->
  series_defined math_exp payload = true ->
  exists r w',
    _build_stub_results Random random math_sin math_exp math_pi
      job_id payload progress_cb w = (Ok r, w') /\
    I w' /\
    (forall w0,
      _build_stub_results Random random math_sin math_exp math_pi
        job_id payload None w0 = (Ok r, w0)) /\
    stub_parts Random random math_sin math_exp math_pi job_id payload r.
Proof.
  intros Hcb Hw Hdef.
  destruct (build_stub_results_run I job_id payload progress_cb w Hcb Hw)
    as (res & w' & Hrun & Hw' & Hpure & Hout).
  destruct res as [r | e]; cbn [stub_outcome] in Hout.
  - exists r, w'. split; [exact Hrun |]. split; [exact Hw' |].
    split; [exact Hpure | apply Hout].
  - destruct Hout as [Hno _]. congruence.
Qed.

(** It raises what [math.exp] raises otherwise. *)
Lemma build_stub_results_undefined (I : World -> Prop) (job_id : string)
    (payload : SimulationRequest.t) (progress_cb : option (Z -> M unit))
    (w : World) :
  cb_preserves I progress_cb -> I w ->
  series_defined math_exp payload = false ->
  exists e w',
    _build_stub_results Random random math_sin math_exp math_pi
      job_id payload progress_cb w = (Raise e, w') /\
    I w' /\
    (forall w0,
      _build_stub_results Random random math_sin math_exp math_pi
        job_id payload None w0 = (Raise e, w0)) /\
    exp_raises math_exp payload e.
Proof.
  intros Hcb Hw Hdef.
  destruct (build_stub_results_run I job_id payload progress_cb w Hcb Hw)
    as (res & w' & Hrun & Hw' & Hpure & Hout).
  destruct res as [r | e]; cbn [stub_outcome] in Hout.
  - destruct Hout as [Hyes _]. congruence.
  - exists e, w'. split; [exact Hrun |]. split; [exact Hw' |].
    split; [exact Hpure | apply Hout].
Qed.

End Fallback.

(** ** The running phase of a job *)

Lemma set_progress_run (clock : nat -> Q) (value : Z) (w : World) :
  exists naps,
    set_progress clock value w =
    (Ok tt,
     let s := JobStatus.set_progress (Z.min (Z.max value (last_progress w)) 99) (job w) in
     mkWorld s (s :: observable w) (Z.min (Z.max value (last_progress w)) 99)
       (clock (S (clock_reads w))) (S (S (clock_reads w))) naps
       (value :: candidates w)).
Proof.
  unfold set_progress, bind, log_candidate, read, monotonic, mutate,
    set_last_progress, set_last_tick. cbn.
  destruct (Qltb (clock (clock_reads w) - last_tick w) min_tick_seconds);
    cbn; eexists; reflexivity.
Qed.

Lemma set_progress_preserves (clock : nat -> Q) (job_id : string) :
  preserves (Running job_id) (set_progress clock).
Proof.
  intros v w [Hjob Hcap [older Hhead] [newer Hfirst] Hstates Hsorted Hthrottle].
  destruct (set_progress_run clock v w) as [naps Hrun].
  rewrite Hrun. eexists. split; [reflexivity |].
  set (p := Z.min (Z.max v (last_progress w)) 99).
  assert (Hp : JobStatus.set_progress p (job w)
               = JobStatus.mk job_id "running" p None None).
  { rewrite Hjob. reflexivity. }
  constructor; cbn [job observable last_progress candidates]; fold p.
  - exact Hp.
  - unfold p. lia.
  - eexists. reflexivity.
  - exists (JobStatus.set_progress p (job w) :: newer). rewrite Hfirst. reflexivity.
  - constructor; [| exact Hstates]. exists p. split; [exact Hp | unfold p; lia].
  - cbn [map]. constructor; [exact Hsorted |].
    rewrite Hp. cbn [JobStatus.progress].
    rewrite Hhead in Hsorted. cbn [map] in Hsorted.
    apply StronglySorted_inv in Hsorted. destruct Hsorted as [_ Hge].
    rewrite Hhead. cbn [map]. rewrite Hjob in *. cbn [JobStatus.progress] in *.
    constructor; [unfold p; lia |].
    eapply Forall_impl; [| exact Hge]. cbn. intros a Ha. unfold p. lia.
  - rewrite Hp. rewrite Hhead in *. cbn [map] in *.
    rewrite Hjob in *. cbn [JobStatus.progress follows_throttle] in *.
    split; [| exact Hthrottle]. unfold observe, p. lia.
Qed.

(** ** The solver path and the runner *)

Lemma bind_ret {A B : Type} (a : A) (k : A -> M B) (w : World) :
  bind (ret a) k w = k a w.
Proof. reflexivity. Qed.

Lemma bind_lift_raise {A B : Type} (e : exn) (k : A -> M B) (w : World) :
  bind (lift (Raise e)) k w = (Raise e, w).
Proof. reflexivity. Qed.

Ltac raised_in w Hw :=
  rewrite bind_lift_raise; eexists; exists w;
  split; [reflexivity |]; split; [exact Hw |]; split; [| exact Logic.I];
  intro; cbn [call]; rewrite ?bind_ret;
  try match goal with H : _ = Raise _ |- _ => rewrite H end;
  reflexivity.

Ltac call_step Hcb Hw :=
  match goal with
  | |- context [bind (call ?cb ?v) _ ?w] =>
      let w1 := fresh "w" in
      let Hrun := fresh "Hrun" in
      let Hw1 := fresh "Hw" in
      destruct (call_run _ cb v w Hcb Hw) as (w1 & Hrun & Hw1);
      rewrite (bind_ok _ _ _ _ _ Hrun); clear Hrun
  end.

Section Solver.

Context {rng_state : Type}.
Variable Random : string -> rng_state.
Variable random : rng_state -> Q * rng_state.
Variable math_sin : Q -> Q.
Variable math_exp : Q -> result Q.
Variable math_pi : Q.
Variable dolfin : SimulationRequest.t -> Z -> DolfinRun.

(** The solver path either raises or returns a solver-backed result; the
    callback's invariant holds afterwards in both cases, and the outcome is
    the one of the run without a callback. *)
Lemma solve_with_fenics_run (I : World -> Prop) (job_id : string)
    (payload : SimulationRequest.t) (progress_cb : option (Z -> M unit))
    (w : World) :
  cb_preserves I progress_cb -> I w ->
  exists res w',
    _solve_with_fenics Random random math_sin math_exp math_pi dolfin
      job_id payload progress_cb w = (res, w') /\
    I w' /\
    (forall w0,
      _solve_with_fenics Random random math_sin math_exp math_pi dolfin
        job_id payload None w0 = (res, w0)) /\
    match res with
    | Ok r =>
        series_defined math_exp payload = true /\
        solver_parts Random random math_sin math_exp math_pi dolfin job_id payload r
    | Raise _ => True
    end.
Proof.
  intros Hcb Hw. unfold _solve_with_fenics.
  destruct (dolfin payload (_mesh_resolution payload)) as [k e | f] eqn:Ed.
  - unfold dolfin_stage, dolfin_fields.
    destruct (Nat.eqb k 0) eqn:E0;
      [raised_in w Hw |].
    rewrite bind_ret. call_step Hcb Hw.
    destruct (Nat.eqb k 1) eqn:E1;
      [raised_in w0 Hw0 |].
    rewrite bind_ret. call_step Hcb Hw0.
    destruct (Nat.eqb k 2) eqn:E2;
      [raised_in w1 Hw1 |].
    rewrite bind_ret. call_step Hcb Hw1.
    destruct (Nat.eqb k 3) eqn:E3;
      [raised_in w2 Hw2 |].
    rewrite bind_ret. call_step Hcb Hw2.
    raised_in w3 Hw3.
  - unfold dolfin_stage, dolfin_fields.
    rewrite bind_ret. call_step Hcb Hw.
    rewrite bind_ret. call_step Hcb Hw0.
    rewrite bind_ret. call_step Hcb Hw1.
    rewrite bind_ret. call_step Hcb Hw2.
    rewrite bind_ret. call_step Hcb Hw3.
    destruct (_build_stress_strain_curve Random random job_id payload
                (Some (FieldSummary.max_stress f))) as [curve | e] eqn:Ecurve;
      [| raised_in w4 Hw4].
    rewrite (bind_lift_ok _ _ _ _ eq_refl).
    destruct (build_time_series_run Random random math_sin math_exp math_pi I
                job_id payload (Some (FieldSummary.max_stress f)) progress_cb
                (Some (80%Z, 95%Z)) w4 Hcb Hw4)
      as (out & w5 & Hts & Hw5 & Hpure & Hout).
    destruct out as [ts | e]; cbn [series_outcome] in Hout.
    2: { rewrite (bind_raise _ _ _ _ _ Hts).
         exists (Raise e), w5. split; [reflexivity |]. split; [exact Hw5 |].
         split; [| exact Logic.I].
         intro v0. cbn [call]. rewrite !bind_ret.
         rewrite (bind_lift_ok _ _ _ _ Ecurve).
         now rewrite (bind_raise _ _ _ _ _
                        (build_time_series_quiet Random random math_sin math_exp
                           math_pi job_id payload _ (Some (80%Z, 95%Z)) _ v0 Hpure)). }
    destruct Hout as (Hdef & Hlen & Hfloor & _).
    rewrite (bind_ok _ _ _ _ _ Hts). call_step Hcb Hw5.
    destruct (estimate_allowable_run payload (FieldSummary.max_stress f))
      as (allowable & Hallow & _).
    rewrite (bind_lift_ok _ _ _ _ Hallow).
    assert (Hsafety : exists sf,
              (forall w,
                (if Qltb 0 (FieldSummary.max_stress f)
                 then lift (py_div allowable (FieldSummary.max_stress f))
                 else ret 0.0) w = (Ok sf, w)) /\
              sf = if Qltb 0 (FieldSummary.max_stress f)
                   then allowable / FieldSummary.max_stress f else 0.0).
    { destruct (Qltb 0 (FieldSummary.max_stress f)) eqn:Epos.
      - apply Qltb_true in Epos. eexists. split; [| reflexivity].
        intro w7. unfold lift. rewrite py_div_ok; [reflexivity | lra].
      - eexists. split; [intro w7 |]; reflexivity. }
    destruct Hsafety as (sf & Hsf & Esf).
    rewrite (bind_ok _ _ _ _ _ (Hsf w6)).
    eexists. exists w6. split; [reflexivity |]. split; [exact Hw6 |]. split.
    + intro v0. cbn [call]. rewrite !bind_ret.
      rewrite (bind_lift_ok _ _ _ _ Ecurve).
      rewrite (bind_ok _ _ _ _ _
                 (build_time_series_quiet Random random math_sin math_exp math_pi
                    job_id payload _ (Some (80%Z, 95%Z)) (Ok ts) v0 Hpure)).
      rewrite bind_ret.
      rewrite (bind_lift_ok _ _ _ _ Hallow).
      rewrite (bind_ok _ _ _ _ _ (Hsf v0)).
      reflexivity.
    + split; [exact Hdef |].
      constructor; cbn; try reflexivity; auto.
      * exists f. now repeat split.
      * exists allowable. split; [exact Hallow | exact Esf].
Qed.

End Solver.

Section Runner.

Context {rng_state : Type}.
Variable Random : string -> rng_state.
Variable random : rng_state -> Q * rng_state.
Variable math_sin : Q -> Q.
Variable math_exp : Q -> result Q.
Variable math_pi : Q.
Variable time_monotonic : nat -> Q.
Variable dolfin : SimulationRequest.t -> Z -> DolfinRun.

Lemma submitted_running (job_id : string) :
  Running job_id
    (mkWorld (create_job job_id) [create_job job_id] 5 (time_monotonic 0) 1 [] []).
Proof.
  constructor; cbn.
  - reflexivity.
  - lia.
  - now exists [].
  - now exists [].
  - constructor; [| constructor]. exists 5%Z. split; [reflexivity | lia].
  - constructor; constructor.
  - exact I.
Qed.

(** The run of a job.  The solver path is tried under the throttle; when
    [math.exp] returns at each sample the job ends with the terminal writes
    of the solver's result or of the fallback result, and otherwise the
    exception of [math.exp] leaves [_run_job] from the fallback, the record
    being as the throttle left it. *)
Lemma run_job_run (job_id : string) (payload : SimulationRequest.t) :
  exists w_call res w_ret w_run,
    Running job_id w_call /\
    _solve_with_fenics Random random math_sin math_exp math_pi dolfin
      job_id payload (Some (set_progress time_monotonic)) w_call = (res, w_ret) /\
    (forall w0,
      _solve_with_fenics Random random math_sin math_exp math_pi dolfin
        job_id payload None w0 = (res, w0)) /\
    Running job_id w_run /\
    if series_defined math_exp payload
    then
      exists r,
        _run_job Random random math_sin math_exp math_pi time_monotonic dolfin
          job_id payload (submitted job_id) = (Ok tt, commit r w_run) /\
        match res with
        | Ok r' =>
            r = r' /\ w_run = w_ret /\
            solver_parts Random random math_sin math_exp math_pi dolfin
              job_id payload r
        | Raise _ =>
            exists r0,
              (forall w0,
                _build_stub_results Random random math_sin math_exp math_pi
                  job_id payload None w0 = (Ok r0, w0)) /\
              stub_parts Random random math_sin math_exp math_pi job_id payload r0 /\
              r = Results.set_warning warning_text r0
        end
    else
      exists e e0,
        _run_job Random random math_sin math_exp math_pi time_monotonic dolfin
          job_id payload (submitted job_id) = (Raise e, w_run) /\
        res = Raise e0 /\
        (forall w0,
          _build_stub_results Random random math_sin math_exp math_pi
            job_id payload None w0 = (Raise e, w0)) /\
        exp_raises math_exp payload e.
Proof.
  unfold _run_job.
  do 4 (erewrite bind_ok by reflexivity).
  match goal with
  | |- context [try_except _ _ ?w] =>
      assert (Hw0 : Running job_id w) by exact (submitted_running job_id);
      set (w0 := w) in *; clearbody w0
  end.
  destruct (set_progress_preserves time_monotonic job_id 8%Z w0 Hw0)
    as (w_call & Hstart & Hcall).
  destruct (solve_with_fenics_run Random random math_sin math_exp math_pi dolfin
              (Running job_id) job_id payload (Some (set_progress time_monotonic))
              w_call (set_progress_preserves time_monotonic job_id) Hcall)
    as (res & w_ret & Hsolve & Hret & Hpure & Hres).
  exists w_call, res, w_ret.
  unfold try_except. rewrite (bind_ok _ _ _ _ _ Hstart).
  destruct res as [r | e0].
  - rewrite (bind_ok _ _ _ _ _ Hsolve).
    destruct Hres as [Hdef Hparts]. rewrite Hdef.
    exists w_ret.
    split; [exact Hcall |]. split; [exact Hsolve |]. split; [exact Hpure |].
    split; [exact Hret |]. exists r. split; [reflexivity |].
    split; [reflexivity |]. split; [reflexivity | exact Hparts].
  - rewrite (bind_raise _ _ _ _ _ Hsolve).
    destruct (set_progress_preserves time_monotonic job_id 70%Z w_ret Hret)
      as (w_fall & Hseventy & Hfall).
    rewrite (bind_ok _ _ _ _ _ Hseventy).
    destruct (build_stub_results_run Random random math_sin math_exp math_pi
                (Running job_id) job_id payload (Some (set_progress time_monotonic))
                w_fall (set_progress_preserves time_monotonic job_id) Hfall)
      as (out & w_run & Hstub & Hrun & Hquiet & Hout).
    exists w_run.
    split; [exact Hcall |]. split; [exact Hsolve |]. split; [exact Hpure |].
    split; [exact Hrun |].
    destruct out as [r0 | e]; cbn [stub_outcome] in Hout;
      destruct Hout as [Hdef Hparts]; rewrite Hdef.
    + rewrite (bind_ok _ _ _ _ _ Hstub).
      exists (Results.set_warning warning_text r0). split; [reflexivity |].
      exists r0. split; [exact Hquiet |]. split; [exact Hparts | reflexivity].
    + rewrite (bind_raise _ _ _ _ _ Hstub).
      exists e, e0. split; [reflexivity |]. split; [reflexivity |].
      split; [exact Hquiet | exact Hparts].
Qed.

End Runner.

(** ** Chronological order *)

Lemma StronglySorted_snoc {A : Type} (R : A -> A -> Prop) (l : list A) (a : A) :
  StronglySorted R l -> Forall (fun x => R x a) l ->
  StronglySorted R (l ++ [a]).
Proof.
  induction 1 as [| x l Hl IH Hx]; intro Hall; cbn [app].
  - constructor; constructor.
  - inversion Hall as [| ? ? Hxa Hrest]; subst.
    constructor; [exact (IH Hrest) |].
    apply Forall_app. split; [exact Hx | constructor; [exact Hxa | constructor]].
Qed.

(** A list that never increases reads, from its end, as one that never
    decreases. *)
Lemma never_decreasing_from_oldest (l : list Z) :
  StronglySorted Z.ge l -> StronglySorted Z.le (rev l).
Proof.
  induction 1 as [| x l Hl IH Hx]; cbn [rev].
  - constructor.
  - apply StronglySorted_snoc; [exact IH |].
    apply Forall_rev. eapply Forall_impl; [| exact Hx].
    cbn. intros a Ha. lia.
Qed.

Lemma set_progress_total (clock : nat -> Q) :
  preserves (fun _ => True) (set_progress clock).
Proof.
  intros v w _. destruct (set_progress_run clock v w) as [naps Hrun].
  rewrite Hrun. eexists. split; [reflexivity | exact I].
Qed.

(** ** The job lifecycle: claims C1, C2 and C4 *)

Section Lifecycle.

Context {rng_state : Type}.
Variable Random : string -> rng_state.
Variable random : rng_state -> Q * rng_state.
Variable math_sin : Q -> Q.
Variable math_exp : Q -> result Q.
Variable math_pi : Q.
Variable time_monotonic : nat -> Q.
Variable dolfin : SimulationRequest.t -> Z -> DolfinRun.

(** C1, as the code has it.  When [math.exp] returns at each sample of the
    request, [_run_job] returns and leaves the record with status completed,
    progress 100 and the results set; the terminal transition is three
    writes, status first, then progress, then results, so the record passes
    through two states that are completed and still carry no results; every
    state before the status flip is running and carries no results.  When
    [math.exp] raises at a sample, its exception leaves [_run_job], no
    terminal write is made and every state of the record is running without
    results.  [math.exp] returns at each sample when the opposite of the
    damping ratio times the duration is an argument up to which it
    returns. *)
Theorem terminal_writes_order (job_id : string) (payload : SimulationRequest.t) :
  (series_defined math_exp payload = true ->
   exists w r p before,
     _run_job Random random math_sin math_exp math_pi time_monotonic dolfin
       job_id payload (submitted job_id) = (Ok tt, w) /\
     job w = JobStatus.mk job_id "completed" 100 (Some r) None /\
     observable w =
       JobStatus.mk job_id "completed" 100 (Some r) None
       :: JobStatus.mk job_id "completed" 100 None None
       :: JobStatus.mk job_id "completed" p None None
       :: before /\
     Forall (fun s => JobStatus.status s = "running"%string
                      /\ JobStatus.results s = None) before) /\
  (series_defined math_exp payload = false ->
   exists e w,
     _run_job Random random math_sin math_exp math_pi time_monotonic dolfin
       job_id payload (submitted job_id) = (Raise e, w) /\
     exp_raises math_exp payload e /\
     Forall (fun s => JobStatus.status s = "running"%string
                      /\ JobStatus.results s = None) (observable w)) /\
  (forall limit,
    0 <= limit ->
    (forall x, x <= limit -> exists y, math_exp x = Ok y) ->
    - py_or (SimulationRequest.dampingRatio payload) 0.05
      * py_or (SimulationRequest.duration payload) 10.0 <= limit ->
    series_defined math_exp payload = true).
Proof.
  destruct (run_job_run Random random math_sin math_exp math_pi time_monotonic
              dolfin job_id payload)
    as (w_call & res & w_ret & w_run & _ & _ & _ & Hrun & Hjob).
  destruct Hrun as [Hrec _ _ _ Hstates _ _].
  assert (Hbefore : Forall (fun s => JobStatus.status s = "running"%string
                                     /\ JobStatus.results s = None)
                      (observable w_run)).
  { eapply Forall_impl; [| exact Hstates].
    intros s (p & -> & _). split; reflexivity. }
  split; [| split].
  - intro Hdef. rewrite Hdef in Hjob. destruct Hjob as (r & Hjob & _).
    exists (commit r w_run), r, (last_progress w_run), (observable w_run).
    split; [exact Hjob |]. unfold commit. cbn [job observable].
    rewrite Hrec. cbn. repeat split. exact Hbefore.
  - intro Hdef. rewrite Hdef in Hjob. destruct Hjob as (e & e0 & Hjob & _ & _ & Hexp).
    exists e, w_run. split; [exact Hjob |]. split; [exact Hexp | exact Hbefore].
  - intros limit. apply series_defined_below.
Qed.

(** C2, as the code has it.  The outcome [res] of the solver path is the
    same in every world, with or without the callback.  When [math.exp]
    returns at each sample of the request, [_run_job] returns and ends with
    status completed, progress 100, no error and a result: when the solver
    path raises, the fallback one, tagged fallback, with the non-empty
    warning; when it returns, the solver's, tagged fenics, without a
    warning.  When [math.exp] raises at a sample, the solver path raises,
    the fallback raises the exception of [math.exp] from the handler, and
    that exception leaves [_run_job] with the record still running and
    without results.  In both cases no state of the record carries an error
    or a status other than running and completed. *)
Theorem run_job_completes (job_id : string) (payload : SimulationRequest.t) :
  exists res,
    (forall w0,
      _solve_with_fenics Random random math_sin math_exp math_pi dolfin
        job_id payload None w0 = (res, w0)) /\
    (exists w_call w_ret,
      _solve_with_fenics Random random math_sin math_exp math_pi dolfin
        job_id payload (Some (set_progress time_monotonic)) w_call
      = (res, w_ret)) /\
    (series_defined math_exp payload = true ->
     exists w r,
       _run_job Random random math_sin math_exp math_pi time_monotonic dolfin
         job_id payload (submitted job_id) = (Ok tt, w) /\
       job w = JobStatus.mk job_id "completed" 100 (Some r) None /\
       match res with
       | Raise _ =>
           Results.source r = "fallback"%string /\
           exists text, Results.warning r = Some text /\ text <> ""%string
       | Ok r' =>
           r = r' /\ Results.source r = "fenics"%string /\ Results.warning r = None
       end) /\
    (series_defined math_exp payload = false ->
     exists e e0 w p,
       _run_job Random random math_sin math_exp math_pi time_monotonic dolfin
         job_id payload (submitted job_id) = (Raise e, w) /\
       res = Raise e0 /\
       (forall w0,
         _build_stub_results Random random math_sin math_exp math_pi
           job_id payload None w0 = (Raise e, w0)) /\
       exp_raises math_exp payload e /\
       job w = JobStatus.mk job_id "running" p None None) /\
    (exists out w,
      _run_job Random random math_sin math_exp math_pi time_monotonic dolfin
        job_id payload (submitted job_id) = (out, w) /\
      Forall (fun s => JobStatus.error s = None /\
                       (JobStatus.status s = "running"%string \/
                        JobStatus.status s = "completed"%string))
        (observable w)) /\
    (forall limit,
      0 <= limit ->
      (forall x, x <= limit -> exists y, math_exp x = Ok y) ->
      - py_or (SimulationRequest.dampingRatio payload) 0.05
        * py_or (SimulationRequest.duration payload) 10.0 <= limit ->
      series_defined math_exp payload = true).
Proof.
  destruct (run_job_run Random random math_sin math_exp math_pi time_monotonic
              dolfin job_id payload)
    as (w_call & res & w_ret & w_run & _ & Hsolve & Hpure & Hrun & Hjob).
  destruct Hrun as [Hrec _ _ _ Hstates _ _].
  assert (Hseen : Forall (fun s => JobStatus.error s = None /\
                                   (JobStatus.status s = "running"%string \/
                                    JobStatus.status s = "completed"%string))
                    (observable w_run)).
  { eapply Forall_impl; [| exact Hstates].
    intros s (p & -> & _). split; [reflexivity | now left]. }
  exists res.
  split; [exact Hpure |]. split; [now exists w_call, w_ret |].
  split; [| split; [| split]].
  - intro Hdef. rewrite Hdef in Hjob. destruct Hjob as (r & Hjob & Hres).
    exists (commit r w_run), r. split; [exact Hjob |]. split.
    + unfold commit. cbn [job]. rewrite Hrec. reflexivity.
    + destruct res as [r' | e].
      * destruct Hres as (-> & _ & Hparts).
        split; [reflexivity |]. split; [apply Hparts | apply Hparts].
      * destruct Hres as (r0 & _ & Hparts & ->). split.
        -- cbn. apply Hparts.
        -- exists warning_text. split; [reflexivity | discriminate].
  - intro Hdef. rewrite Hdef in Hjob.
    destruct Hjob as (e & e0 & Hjob & Hres & Hstub & Hexp).
    exists e, e0, w_run, (last_progress w_run).
    split; [exact Hjob |]. split; [exact Hres |]. split; [exact Hstub |].
    split; [exact Hexp | exact Hrec].
  - destruct (series_defined math_exp payload).
    + destruct Hjob as (r & Hjob & _).
      exists (Ok tt), (commit r w_run). split; [exact Hjob |].
      unfold commit. cbn [observable]. rewrite Hrec.
      repeat (constructor; [split; [reflexivity | now right] |]).
      exact Hseen.
    + destruct Hjob as (e & e0 & Hjob & _).
      exists (Raise e), w_run. split; [exact Hjob | exact Hseen].
  - intros limit. apply series_defined_below.
Qed.

(** C4.  Over the lifecycle of a job, whether [_run_job] returns or an
    exception leaves it, the states of its record, read from the oldest,
    carry progress values that never decrease.  The states of the running
    phase start with the one of [create_job], stay at or below 99, and
    follow the throttle's rule: each value is [max last (min candidate 99)]
    for the value before it and the candidate of that call.  When the job
    returns, the status flip keeps the last of these values, and only the
    terminal write after it sets 100; when an exception leaves the job, the
    record has only the states of the running phase. *)
Theorem progress_monotone_capped (job_id : string) (payload : SimulationRequest.t) :
  exists out w running,
    _run_job Random random math_sin math_exp math_pi time_monotonic dolfin
      job_id payload (submitted job_id) = (out, w) /\
    StronglySorted Z.le (map JobStatus.progress (rev (observable w))) /\
    (exists newer, running = (newer ++ [create_job job_id])%list) /\
    Forall (fun s => JobStatus.status s = "running"%string
                     /\ (JobStatus.progress s <= 99)%Z) running /\
    follows_throttle (candidates w) (map JobStatus.progress running) /\
    match out with
    | Ok _ =>
        exists r flipped,
          observable w =
            JobStatus.set_results r (JobStatus.set_progress 100 flipped)
            :: JobStatus.set_progress 100 flipped
            :: flipped
            :: running /\
          JobStatus.status flipped = "completed"%string /\
          (JobStatus.progress flipped <= 99)%Z /\
          JobStatus.progress (job w) = 100%Z
    | Raise _ =>
        observable w = running /\
        JobStatus.status (job w) = "running"%string /\
        (JobStatus.progress (job w) <= 99)%Z
    end /\
    (series_defined math_exp payload = true <-> out = Ok tt).
Proof.
  destruct (run_job_run Random random math_sin math_exp math_pi time_monotonic
              dolfin job_id payload)
    as (w_call & res & w_ret & w_run & _ & _ & _ & Hrun & Hjob).
  destruct Hrun as [Hrec Hcap [older Hhead] Hfirst Hstates Hsorted Hthrottle].
  assert (Hrunning : Forall (fun s => JobStatus.status s = "running"%string
                                      /\ (JobStatus.progress s <= 99)%Z)
                       (observable w_run)).
  { eapply Forall_impl; [| exact Hstates].
    intros s (p & -> & Hp). split; [reflexivity | exact Hp]. }
  destruct (series_defined math_exp payload).
  - destruct Hjob as (r & Hjob & _).
    exists (Ok tt), (commit r w_run), (observable w_run).
    split; [exact Hjob |]. unfold commit. cbn [job observable candidates].
    split.
    + rewrite map_rev. apply never_decreasing_from_oldest.
      cbn [map]. rewrite Hrec. cbn [JobStatus.progress JobStatus.set_results
        JobStatus.set_progress JobStatus.set_status].
      assert (Hall : Forall (fun a => (a <= 99)%Z)
                       (map JobStatus.progress (observable w_run))).
      { apply Forall_map. eapply Forall_impl; [| exact Hstates].
        intros s (p & -> & Hp). exact Hp. }
      assert (Hbelow : Forall (Z.ge (last_progress w_run))
                         (map JobStatus.progress (observable w_run))).
      { rewrite Hhead in Hsorted |- *. cbn [map] in *.
        apply StronglySorted_inv in Hsorted. destruct Hsorted as [_ Hge].
        rewrite Hrec in *. cbn [JobStatus.progress] in *.
        constructor; [lia | exact Hge]. }
      repeat constructor; try lia; try exact Hsorted; try exact Hbelow;
        (eapply Forall_impl; [| exact Hall]; cbn; intros; lia).
    + split; [exact Hfirst |]. split; [exact Hrunning |].
      split; [exact Hthrottle |]. split; [| now split].
      exists r, (JobStatus.set_status "completed" (job w_run)).
      split; [reflexivity |]. rewrite Hrec. cbn. repeat split. exact Hcap.
  - destruct Hjob as (e & e0 & Hjob & _).
    exists (Raise e), w_run, (observable w_run).
    split; [exact Hjob |]. split.
    + rewrite map_rev. apply never_decreasing_from_oldest. exact Hsorted.
    + split; [exact Hfirst |]. split; [exact Hrunning |].
      split; [exact Hthrottle |]. split.
      * split; [reflexivity |]. rewrite Hrec. cbn. split; [reflexivity | exact Hcap].
      * split; discriminate.
Qed.

End Lifecycle.

(** ** The synthesised results: claims C3 and C5 to C8 *)

Lemma length_append (s1 s2 : string) :
  String.length (String.append s1 s2) = (String.length s1 + String.length s2)%nat.
Proof.
  induction s1 as [| a s1 IH]; cbn [String.append String.length].
  - reflexivity.
  - now rewrite IH.
Qed.

(** The two seeds of a job are different strings. *)
Lemma curve_seed_differs (job_id : string) : String.append job_id "_curve" <> job_id.
Proof.
  intro H. apply (f_equal String.length) in H.
  rewrite length_append in H. cbn in H. lia.
Qed.

Lemma py_max_list_greatest (xs : list Q) (m : Q) :
  py_max_list xs = Ok m -> greatest m xs.
Proof.
  destruct xs as [| x rest]; [discriminate |].
  cbn [py_max_list]. intro H. injection H as <-. split.
  - apply fold_py_max_member.
  - destruct (fold_py_max_upper rest x) as [H1 H2]. constructor; assumption.
Qed.

Lemma py_min_list_least (xs : list Q) (m : Q) :
  py_min_list xs = Ok m -> least m xs.
Proof.
  destruct xs as [| x rest]; [discriminate |].
  cbn [py_min_list]. intro H. injection H as <-. split.
  - apply fold_py_min_member.
  - destruct (fold_py_min_lower rest x) as [H1 H2]. constructor; assumption.
Qed.

Lemma safety_rule_holds (payload : SimulationRequest.t) (r : Results.t) :
  (exists allowable,
    _estimate_allowable_stress payload (Results.maxStress r) = Ok allowable /\
    Results.safetyFactor r =
      if Qltb 0 (Results.maxStress r)
      then allowable / Results.maxStress r
      else 0.0) ->
  safety_rule payload r.
Proof.
  intros (allowable & Hallow & Hsf). exists allowable. split; [| split].
  - unfold _estimate_allowable_stress in Hallow. unfold reference_curve.
    destruct (Material.stressStrainCurve (SimulationRequest.material payload))
      as [| p ps].
    + now injection Hallow as <-.
    + destruct (py_max_list (map StressPoint.stress (p :: ps))) as [u | e] eqn:Emax;
        [| discriminate].
      cbn [result_bind] in Hallow. injection Hallow as <-.
      exists u. split; [now apply py_max_list_greatest | reflexivity].
  - intro Hpos. apply Qltb_true in Hpos. now rewrite Hpos in Hsf.
  - intro Hneg. apply Qltb_false in Hneg. now rewrite Hneg in Hsf.
Qed.

Section Synthesis.

Context {rng_state : Type}.
Variable Random : string -> rng_state.
Variable random : rng_state -> Q * rng_state.
Variable math_sin : Q -> Q.
Variable math_exp : Q -> result Q.
Variable math_pi : Q.

(** Whatever the target stress, a curve that is returned has no negative
    stress. *)
Lemma build_curve_floored (job_id : string) (payload : SimulationRequest.t)
    (max_stress : option Q) (curve : list CurvePoint.t) :
  _build_stress_strain_curve Random random job_id payload max_stress = Ok curve ->
  Forall (fun p => 0 <= CurvePoint.stress p) curve.
Proof.
  unfold _build_stress_strain_curve.
  destruct (Material.stressStrainCurve (SimulationRequest.material payload))
    as [| p ps].
  - intro H. injection H as <-. constructor; [cbn; lra | constructor].
  - cbv zeta. cbn [py_max_list result_bind map]. intro H.
    assert (Hloop : exists stress_scale strain_scale rng,
              curve = dense_curve_loop random (p :: ps) rng stress_scale strain_scale []).
    { destruct max_stress as [v |]; [destruct (Qeq_bool v 0) |].
      - cbn [result_bind] in H. injection H as <-. now do 3 eexists.
      - unfold py_div in H. destruct (Qeq_bool _ 0); [discriminate |].
        cbn [result_bind] in H. injection H as <-. now do 3 eexists.
      - cbn [result_bind] in H. injection H as <-. now do 3 eexists. }
    destruct Hloop as (stress_scale & strain_scale & rng & ->).
    destruct (dense_curve_loop_run random stress_scale strain_scale (p :: ps) rng [])
      as (new & Hloop & _ & Hpos & _).
    rewrite Hloop. exact Hpos.
Qed.

(** C3.  The fallback path is deterministic: under two clocks and from two
    worlds, the fallback synthesizer has one and the same outcome for a job
    identifier and a request; when [math.exp] returns at each sample it
    returns one and the same result, hence the same curve and the same time
    series.  The curve generator reads the random generator only at the
    seed made of the job identifier and the suffix, the time-series
    generator only at the job identifier, and the two seeds differ. *)
Theorem fallback_deterministic (job_id : string) (payload : SimulationRequest.t)
    (clock1 clock2 : nat -> Q) (w1 w2 : World) :
  (exists res1 res2 w1' w2',
    _build_stub_results Random random math_sin math_exp math_pi job_id payload
      (Some (set_progress clock1)) w1 = (res1, w1') /\
    _build_stub_results Random random math_sin math_exp math_pi job_id payload
      (Some (set_progress clock2)) w2 = (res2, w2') /\
    res1 = res2 /\
    (series_defined math_exp payload = true ->
     exists r1 r2,
       res1 = Ok r1 /\ res2 = Ok r2 /\
       r1 = r2 /\
       Results.stressStrainCurve r1 = Results.stressStrainCurve r2 /\
       Results.timeSeriesData r1 = Results.timeSeriesData r2)) /\
  (forall (Random' : string -> rng_state) (max_stress : option Q),
    Random' (String.append job_id "_curve") = Random (String.append job_id "_curve") ->
    _build_stress_strain_curve Random' random job_id payload max_stress
    = _build_stress_strain_curve Random random job_id payload max_stress) /\
  (forall (Random' : string -> rng_state) (max_stress : option Q)
          (progress_cb : option (Z -> M unit)) (progress_range : option (Z * Z)),
    Random' job_id = Random job_id ->
    _build_time_series Random' random math_sin math_exp math_pi job_id payload
      max_stress progress_cb progress_range
    = _build_time_series Random random math_sin math_exp math_pi job_id payload
        max_stress progress_cb progress_range) /\
  String.append job_id "_curve" <> job_id.
Proof.
  split; [| split; [| split]].
  - destruct (build_stub_results_run Random random math_sin math_exp math_pi
                (fun _ => True) job_id payload (Some (set_progress clock1)) w1
                (set_progress_total clock1) I)
      as (res1 & w1' & Hrun1 & _ & Hquiet1 & Hout).
    destruct (build_stub_results_run Random random math_sin math_exp math_pi
                (fun _ => True) job_id payload (Some (set_progress clock2)) w2
                (set_progress_total clock2) I)
      as (res2 & w2' & Hrun2 & _ & Hquiet2 & _).
    assert (E : res1 = res2).
    { specialize (Hquiet1 w1). rewrite (Hquiet2 w1) in Hquiet1.
      now injection Hquiet1. }
    exists res1, res2, w1', w2'. subst res2.
    split; [exact Hrun1 |]. split; [exact Hrun2 |]. split; [reflexivity |].
    intro Hdef. destruct res1 as [r | e]; cbn [stub_outcome] in Hout.
    + exists r, r. repeat split.
    + destruct Hout as [Hno _]. congruence.
  - intros Random' max_stress Hseed. unfold _build_stress_strain_curve.
    now rewrite Hseed.
  - intros Random' max_stress progress_cb progress_range Hseed.
    unfold _build_time_series. now rewrite Hseed.
  - apply curve_seed_differs.
Qed.

(** C5, as the code has it.  When [math.exp] returns at each sample of the
    request, the fallback synthesizer returns, and in its result minStress
    <= avgStress <= maxStress and stressRange is maxStress minus minStress;
    the three scalars are the least element, the mean and the greatest
    element of the stresses of the curve of the result, which is the curve
    the curve generator returns without a target stress and is never empty.
    When [math.exp] raises at a sample, the synthesizer raises that
    exception and returns nothing. *)
Theorem fallback_stress_bounds (job_id : string) (payload : SimulationRequest.t)
    (clock : nat -> Q) (w : World) :
  (series_defined math_exp payload = true ->
   exists r w',
     _build_stub_results Random random math_sin math_exp math_pi job_id payload
       (Some (set_progress clock)) w = (Ok r, w') /\
     _build_stress_strain_curve Random random job_id payload None
     = Ok (Results.stressStrainCurve r) /\
     Results.stressStrainCurve r <> [] /\
     greatest (Results.maxStress r)
       (map CurvePoint.stress (Results.stressStrainCurve r)) /\
     least (Results.minStress r)
       (map CurvePoint.stress (Results.stressStrainCurve r)) /\
     Results.avgStress r ==
       py_sum (map CurvePoint.stress (Results.stressStrainCurve r))
       / py_len (Results.stressStrainCurve r) /\
     Results.minStress r <= Results.avgStress r /\
     Results.avgStress r <= Results.maxStress r /\
     Results.stressRange r == Results.maxStress r - Results.minStress r) /\
  (series_defined math_exp payload = false ->
   exists e w',
     _build_stub_results Random random math_sin math_exp math_pi job_id payload
       (Some (set_progress clock)) w = (Raise e, w') /\
     exp_raises math_exp payload e) /\
  (forall limit,
    0 <= limit ->
    (forall x, x <= limit -> exists y, math_exp x = Ok y) ->
    - py_or (SimulationRequest.dampingRatio payload) 0.05
      * py_or (SimulationRequest.duration payload) 10.0 <= limit ->
    series_defined math_exp payload = true).
Proof.
  split; [| split; [| intros limit; apply series_defined_below]].
  2: { intro Hdef.
       destruct (build_stub_results_undefined Random random math_sin math_exp
                   math_pi (fun _ => True) job_id payload
                   (Some (set_progress clock)) w (set_progress_total clock) I Hdef)
         as (e & w' & Hrun & _ & _ & Hexp).
       now exists e, w'. }
  intro Hdef.
  destruct (build_stub_results_defined Random random math_sin math_exp math_pi
              (fun _ => True) job_id payload (Some (set_progress clock)) w
              (set_progress_total clock) I Hdef)
    as (r & w' & Hrun & _ & _ & Hparts).
  exists r, w'. split; [exact Hrun |].
  destruct Hparts as [Hcurve Hne Hmax Hmin Havg Hrange _ _ _ _ _ _ _ _ _ _ _].
  pose proof (py_max_list_greatest _ _ Hmax) as Hgreatest.
  pose proof (py_min_list_least _ _ Hmin) as Hleast.
  split; [exact Hcurve |].
  split; [exact Hne |]. split; [exact Hgreatest |]. split; [exact Hleast |].
  destruct (Results.stressStrainCurve r) as [| c cs]; [contradiction |].
  assert (Hbetween : Forall (fun v => Results.minStress r <= v
                                       /\ v <= Results.maxStress r)
                       (map CurvePoint.stress (c :: cs))).
  { destruct Hgreatest as [_ Hup]. destruct Hleast as [_ Hlow].
    rewrite Forall_forall in *. intros v Hv. split; auto. }
  cbn [map] in Hbetween.
  destruct (mean_bounds _ _ _ _ Hbetween) as [Hlo Hhi].
  rewrite Havg, Hrange. cbn [map].
  assert (Elen : py_len (CurvePoint.stress c :: map CurvePoint.stress cs)
                 = py_len (c :: cs)).
  { unfold py_len. cbn [List.length]. now rewrite length_map. }
  rewrite <- Elen. repeat split; try assumption; reflexivity.
Qed.

End Synthesis.

Lemma greatest_unique (m m' : Q) (xs : list Q) :
  greatest m xs -> greatest m' xs -> m == m'.
Proof.
  intros [Hin Hup] [Hin' Hup']. rewrite Forall_forall in Hup, Hup'.
  apply Qle_antisym; auto.
Qed.

Lemma greatest_nonneg (m : Q) (xs : list Q) :
  Forall (fun v => 0 <= v) xs -> greatest m xs -> 0 <= m.
Proof.
  intros Hall [Hin _]. rewrite Forall_forall in Hall. auto.
Qed.

Lemma least_nonneg (m : Q) (xs : list Q) :
  Forall (fun v => 0 <= v) xs -> least m xs -> 0 <= m.
Proof.
  intros Hall [Hin _]. rewrite Forall_forall in Hall. auto.
Qed.

(** The mean of a non-empty sequence of non-negative numbers. *)
Lemma mean_nonneg (xs : list Q) :
  xs <> [] -> Forall (fun v => 0 <= v) xs -> 0 <= py_sum xs / py_len xs.
Proof.
  intros Hne Hall. destruct xs as [| x rest]; [contradiction |].
  destruct (py_max_list_greatest (x :: rest) _ eq_refl) as [_ Hup].
  assert (Hbetween : Forall (fun v => 0 <= v /\ v <= fold_left py_max rest x)
                       (x :: rest)).
  { rewrite Forall_forall in *. intros v Hv. split; auto. }
  exact (proj1 (mean_bounds _ _ _ _ Hbetween)).
Qed.

Section Payloads.

Context {rng_state : Type}.
Variable Random : string -> rng_state.
Variable random : rng_state -> Q * rng_state.
Variable math_sin : Q -> Q.
Variable math_exp : Q -> result Q.
Variable math_pi : Q.
Variable dolfin : SimulationRequest.t -> Z -> DolfinRun.

(** C6, as the code has it.  In a fallback result, which the synthesizer
    returns when [math.exp] returns at each sample, the stresses of the
    curve, the stresses and displacements of the time series and the three
    stress scalars are non-negative: the code floors them at zero.  Strains
    are not floored: the strains of the curve are those of the reference
    curve times [1 + 0.2 * (dampingRatio or 0.05)], or the single strain 0
    when the reference curve is empty, and they, maxStrain, avgStrain and
    maxDeformation are non-negative when the reference strains and that
    factor are.  In a solver-backed result the stresses of the curve and the
    stresses and displacements of the time series are non-negative. *)
Theorem synthesized_values_floored (job_id : string)
    (payload : SimulationRequest.t) (clock : nat -> Q) (w : World) :
  (series_defined math_exp payload = true ->
   exists r w',
     _build_stub_results Random random math_sin math_exp math_pi job_id payload
       (Some (set_progress clock)) w = (Ok r, w') /\
     Forall (fun p => 0 <= CurvePoint.stress p) (Results.stressStrainCurve r) /\
     Forall floored (Results.timeSeriesData r) /\
     0 <= Results.minStress r /\
     0 <= Results.avgStress r /\
     0 <= Results.maxStress r /\
     match reference_curve payload with
     | [] => Results.stressStrainCurve r = [CurvePoint.mk 0.0 0.0]
     | _ :: _ =>
         map CurvePoint.strain (Results.stressStrainCurve r) =
           map (fun p =>
                  StressPoint.strain p
                  * (1.0 + py_or (SimulationRequest.dampingRatio payload) 0.05 * 0.2))
               (reference_curve payload)
     end /\
     (Forall (fun p => 0 <= StressPoint.strain p) (reference_curve payload) ->
      0 <= 1.0 + py_or (SimulationRequest.dampingRatio payload) 0.05 * 0.2 ->
      Forall (fun p => 0 <= CurvePoint.strain p) (Results.stressStrainCurve r) /\
      0 <= Results.maxStrain r /\
      0 <= Results.avgStrain r /\
      0 <= Results.maxDeformation r)) /\
  match fst (_solve_with_fenics Random random math_sin math_exp math_pi dolfin
               job_id payload (Some (set_progress clock)) w) with
  | Ok r =>
      Forall (fun p => 0 <= CurvePoint.stress p) (Results.stressStrainCurve r) /\
      Forall floored (Results.timeSeriesData r)
  | Raise _ => True
  end.
Proof.
  split.
  - intro Hdef.
    destruct (build_stub_results_defined Random random math_sin math_exp math_pi
                (fun _ => True) job_id payload (Some (set_progress clock)) w
                (set_progress_total clock) I Hdef)
      as (r & w' & Hrun & _ & _ & Hparts).
    exists r, w'. split; [exact Hrun |].
    destruct Hparts as [Hcurve Hne Hmax Hmin Havg _ Hmaxs Hdef' Havgs _ _ Hfloor _ _ _ _ _].
    pose proof (build_curve_floored Random random _ _ _ _ Hcurve) as Hpos.
    assert (Hstresses : Forall (fun v => 0 <= v)
                          (map CurvePoint.stress (Results.stressStrainCurve r))).
    { apply Forall_map. exact Hpos. }
    assert (Hne' : map CurvePoint.stress (Results.stressStrainCurve r) <> []).
    { destruct (Results.stressStrainCurve r); [contradiction | discriminate]. }
    split; [exact Hpos |]. split; [exact Hfloor |].
    split; [exact (least_nonneg _ _ Hstresses (py_min_list_least _ _ Hmin)) |].
    split; [rewrite Havg; exact (mean_nonneg _ Hne' Hstresses) |].
    split; [exact (greatest_nonneg _ _ Hstresses (py_max_list_greatest _ _ Hmax)) |].
    destruct (build_curve_fallback Random random job_id payload)
      as (c & cs & Hcurve' & _ & Hshape).
    rewrite Hcurve in Hcurve'. injection Hcurve' as Ecurve.
    change (1.0 + py_or (SimulationRequest.dampingRatio payload) 0.05 * 0.2)
      with (strain_scale_of payload).
    split.
    { rewrite Ecurve. destruct (reference_curve payload); exact Hshape. }
    intros Href Hscale.
    assert (Hstrains : Forall (fun v => 0 <= v)
                         (map CurvePoint.strain (Results.stressStrainCurve r))).
    { rewrite Ecurve.
      destruct (reference_curve payload) as [| p ps] eqn:Eref.
      - rewrite Hshape. cbn. constructor; [lra | constructor].
      - rewrite Hshape. apply Forall_map.
        eapply Forall_impl; [| exact Href].
        cbn. intros a Ha. apply Qmult_le_0_compat; assumption. }
    assert (Hne'' : map CurvePoint.strain (Results.stressStrainCurve r) <> []).
    { destruct (Results.stressStrainCurve r); [contradiction | discriminate]. }
    pose proof (greatest_nonneg _ _ Hstrains (py_max_list_greatest _ _ Hmaxs)) as Hms.
    split; [exact (proj1 (Forall_map _ _ _) Hstrains) |].
    split; [exact Hms |].
    split; [rewrite Havgs; exact (mean_nonneg _ Hne'' Hstrains) |].
    now rewrite Hdef'.
  - destruct (solve_with_fenics_run Random random math_sin math_exp math_pi dolfin
                (fun _ => True) job_id payload (Some (set_progress clock)) w
                (set_progress_total clock) I)
      as (res & w' & Hrun & _ & _ & Hres).
    rewrite Hrun. cbn [fst]. destruct res as [r | e]; [| exact I].
    destruct Hres as [_ [_ _ Hcurve _ _ Hfloor _ _ _]].
    split; [exact (build_curve_floored Random random _ _ _ _ Hcurve) | exact Hfloor].
Qed.

(** C7.  In a fallback result, which the synthesizer returns when
    [math.exp] returns at each sample, and in a solver-backed result alike,
    allowableStress is 0.9 times the greatest stress of the reference curve
    when that curve is not empty and 1.2 times maxStress otherwise, and
    safetyFactor is allowableStress / maxStress when maxStress > 0 and 0
    otherwise.  With a greatest reference stress of 500 and a maxStress of
    250, allowableStress is 450 and the quotient 1.8. *)
Theorem safety_factor_rule (job_id : string) (payload : SimulationRequest.t)
    (clock : nat -> Q) (w : World) :
  (series_defined math_exp payload = true ->
   exists r w',
     _build_stub_results Random random math_sin math_exp math_pi job_id payload
       (Some (set_progress clock)) w = (Ok r, w') /\
     safety_rule payload r) /\
  match fst (_build_stub_results Random random math_sin math_exp math_pi
               job_id payload (Some (set_progress clock)) w) with
  | Ok r => safety_rule payload r
  | Raise _ => series_defined math_exp payload = false
  end /\
  match fst (_solve_with_fenics Random random math_sin math_exp math_pi dolfin
               job_id payload (Some (set_progress clock)) w) with
  | Ok r => safety_rule payload r
  | Raise _ => True
  end /\
  (forall ultimate max_stress,
    greatest ultimate (map StressPoint.stress (reference_curve payload)) ->
    ultimate == 500 -> max_stress == 250 ->
    exists allowable,
      _estimate_allowable_stress payload max_stress = Ok allowable /\
      allowable == 450 /\
      allowable / max_stress == 1.8).
Proof.
  split; [| split; [| split]].
  - intro Hdef.
    destruct (build_stub_results_defined Random random math_sin math_exp math_pi
                (fun _ => True) job_id payload (Some (set_progress clock)) w
                (set_progress_total clock) I Hdef)
      as (r & w' & Hrun & _ & _ & Hparts).
    exists r, w'. split; [exact Hrun |].
    apply safety_rule_holds. apply Hparts.
  - destruct (build_stub_results_run Random random math_sin math_exp math_pi
                (fun _ => True) job_id payload (Some (set_progress clock)) w
                (set_progress_total clock) I)
      as (res & w' & Hrun & _ & _ & Hout).
    rewrite Hrun. cbn [fst]. destruct res as [r | e]; cbn [stub_outcome] in Hout.
    + apply safety_rule_holds. apply Hout.
    + apply Hout.
  - destruct (solve_with_fenics_run Random random math_sin math_exp math_pi dolfin
                (fun _ => True) job_id payload (Some (set_progress clock)) w
                (set_progress_total clock) I)
      as (res & w' & Hrun & _ & _ & Hres).
    rewrite Hrun. cbn [fst]. destruct res as [r | e]; [| exact I].
    apply safety_rule_holds. apply Hres.
  - intros ultimate max_stress Hgreatest Hu Hm.
    destruct (estimate_allowable_run payload max_stress) as (allowable & Hallow & Hshape).
    exists allowable. split; [exact Hallow |].
    destruct (reference_curve payload) as [| p ps] eqn:Eref.
    + destruct Hgreatest as [[] _].
    + assert (Hfold : greatest (fold_left py_max (map StressPoint.stress ps)
                                  (StressPoint.stress p))
                        (map StressPoint.stress (p :: ps))).
      { now apply py_max_list_greatest. }
      pose proof (greatest_unique _ _ _ Hfold Hgreatest) as Esame.
      rewrite Hshape, Esame, Hu, Hm. split; reflexivity.
Qed.

(** C8.  With an empty reference curve the curve generator returns exactly
    the single point of strain 0 and stress 0, whatever the target stress,
    and the fallback synthesizer, which returns when [math.exp] returns at
    each sample, returns without dividing by zero a result with that curve
    whose maxStress, minStress, avgStress and safetyFactor are 0; it raises
    no [ZeroDivisionError] in any case. *)
Theorem empty_curve_degenerate (job_id : string) (payload : SimulationRequest.t)
    (clock : nat -> Q) (w : World) :
  reference_curve payload = [] ->
  (forall max_stress,
    _build_stress_strain_curve Random random job_id payload max_stress
    = Ok [CurvePoint.mk 0.0 0.0]) /\
  (series_defined math_exp payload = true ->
   exists r w',
     _build_stub_results Random random math_sin math_exp math_pi job_id payload
       (Some (set_progress clock)) w = (Ok r, w') /\
     Results.stressStrainCurve r = [CurvePoint.mk 0.0 0.0] /\
     Results.maxStress r == 0 /\
     Results.minStress r == 0 /\
     Results.avgStress r == 0 /\
     Results.safetyFactor r == 0) /\
  (forall e w',
    _build_stub_results Random random math_sin math_exp math_pi job_id payload
      (Some (set_progress clock)) w = (Raise e, w') ->
    exp_raises math_exp payload e).
Proof.
  intro Hempty.
  assert (Hgen : forall max_stress,
            _build_stress_strain_curve Random random job_id payload max_stress
            = Ok [CurvePoint.mk 0.0 0.0]).
  { intro max_stress. unfold _build_stress_strain_curve.
    unfold reference_curve in Hempty. now rewrite Hempty. }
  split; [exact Hgen |]. split.
  2: { intros e w' Hraise.
       destruct (build_stub_results_run Random random math_sin math_exp math_pi
                   (fun _ => True) job_id payload (Some (set_progress clock)) w
                   (set_progress_total clock) I)
         as (res & w1 & Hrun & _ & _ & Hout).
       rewrite Hrun in Hraise. injection Hraise as -> _. apply Hout. }
  intro Hdef.
  destruct (build_stub_results_defined Random random math_sin math_exp math_pi
              (fun _ => True) job_id payload (Some (set_progress clock)) w
              (set_progress_total clock) I Hdef)
    as (r & w' & Hrun & _ & _ & Hparts).
  exists r, w'. split; [exact Hrun |].
  destruct Hparts as [Hcurve _ Hmax Hmin Havg _ _ _ _ _ _ _ _ Hsafety _ _ _].
  rewrite Hgen in Hcurve. injection Hcurve as Ecurve.
  rewrite <- Ecurve in Hmax, Hmin, Havg.
  cbn in Hmax, Hmin. injection Hmax as Emax. injection Hmin as Emin.
  destruct Hsafety as (allowable & _ & Hsf).
  rewrite <- Emax in Hsf.
  split; [now symmetry |]. rewrite <- Emax, <- Emin, Havg, Hsf.
  repeat split; reflexivity.
Qed.

End Payloads.

(** ** The time series and the optional inputs: claims C9 and C10 *)

Lemma py_or_zero (z d : Q) : z == 0 -> py_or (Some z) d = d.
Proof.
  intro Hz. unfold py_or. now rewrite (Qeq_eq_bool _ _ Hz).
Qed.

Lemma nth_error_range (n : Z) (i : nat) :
  (i < Z.to_nat n)%nat -> nth_error (range n) i = Some (Z.of_nat i).
Proof.
  intro Hi. unfold range. rewrite nth_error_map, nth_error_seq.
  apply Nat.ltb_lt in Hi. now rewrite Hi.
Qed.

Section Series.

Context {rng_state : Type}.
Variable Random : string -> rng_state.
Variable random : rng_state -> Q * rng_state.
Variable math_sin : Q -> Q.
Variable math_exp : Q -> result Q.
Variable math_pi : Q.

(** C9, as the code has it.  When [math.exp] returns at each sample of the
    request, the time-series generator returns 40 samples; sample [i] has
    time [duration * i / 39], so the first has time 0 and the last the
    duration, and no stress or displacement is negative.  When [math.exp]
    raises at a sample, the generator raises that exception and returns
    nothing.  [math.exp] returns at each sample when the opposite of the
    damping ratio times the duration is an argument up to which it returns:
    so for duration 10, frequency 1, damping ratio 0.05 and baseline stress
    100, where it is taken at non-positive arguments only, the generator
    returns 40 samples, the first time is 0 and the last is 10. *)
Theorem time_series_shape (job_id : string) (payload : SimulationRequest.t)
    (max_stress : option Q) (clock : nat -> Q)
    (progress_range : option (Z * Z)) (w : World) :
  (series_defined math_exp payload = true ->
   exists ts w' first last,
     _build_time_series Random random math_sin math_exp math_pi job_id payload
       max_stress (Some (set_progress clock)) progress_range w = (Ok ts, w') /\
     List.length ts = 40%nat /\
     (forall i p,
       nth_error ts i = Some p ->
       TimePoint.time p ==
         py_or (SimulationRequest.duration payload) 10.0
         * inject_Z (Z.of_nat i) / 39) /\
     nth_error ts 0 = Some first /\
     nth_error ts 39 = Some last /\
     TimePoint.time first == 0 /\
     TimePoint.time last == py_or (SimulationRequest.duration payload) 10.0 /\
     Forall floored ts) /\
  (series_defined math_exp payload = false ->
   exists e w',
     _build_time_series Random random math_sin math_exp math_pi job_id payload
       max_stress (Some (set_progress clock)) progress_range w = (Raise e, w') /\
     exp_raises math_exp payload e) /\
  (forall limit,
    0 <= limit ->
    (forall x, x <= limit -> exists y, math_exp x = Ok y) ->
    - py_or (SimulationRequest.dampingRatio payload) 0.05
      * py_or (SimulationRequest.duration payload) 10.0 <= limit ->
    series_defined math_exp payload = true) /\
  ((forall x, x <= 0 -> exists y, math_exp x = Ok y) ->
   exists ts w' first last,
     _build_time_series Random random math_sin math_exp math_pi job_id
       Demo.vibration (Some 100.0) (Some (set_progress clock)) progress_range w
     = (Ok ts, w') /\
     List.length ts = 40%nat /\
     nth_error ts 0 = Some first /\
     nth_error ts 39 = Some last /\
     TimePoint.time first == 0 /\
     TimePoint.time last == 10 /\
     Forall floored ts).
Proof.
  assert (Hgen : forall payload' max_stress',
    series_defined math_exp payload' = true ->
    exists ts w' first last,
      _build_time_series Random random math_sin math_exp math_pi job_id payload'
        max_stress' (Some (set_progress clock)) progress_range w = (Ok ts, w') /\
      List.length ts = 40%nat /\
      (forall i p,
        nth_error ts i = Some p ->
        TimePoint.time p ==
          py_or (SimulationRequest.duration payload') 10.0
          * inject_Z (Z.of_nat i) / 39) /\
      nth_error ts 0 = Some first /\
      nth_error ts 39 = Some last /\
      TimePoint.time first == 0 /\
      TimePoint.time last == py_or (SimulationRequest.duration payload') 10.0 /\
      Forall floored ts).
  { intros payload' max_stress' Hdef.
    destruct (build_time_series_defined Random random math_sin math_exp math_pi
                (fun _ => True) job_id payload' max_stress'
                (Some (set_progress clock)) progress_range w
                (set_progress_total clock) I Hdef)
      as (ts & w' & Hrun & _ & _ & Hlen & Hfloor & Htimes).
    set (d := py_or (SimulationRequest.duration payload') 10.0) in *.
    assert (Hnth : forall i p,
              nth_error ts i = Some p ->
              TimePoint.time p == d * inject_Z (Z.of_nat i) / 39).
    { intros i p Hp.
      assert (Hi : (i < 40)%nat).
      { rewrite <- Hlen. apply nth_error_Some. congruence. }
      pose proof (map_nth_error TimePoint.time i ts Hp) as Hmap.
      rewrite Htimes, nth_error_map, (nth_error_range points i Hi) in Hmap.
      cbn [option_map] in Hmap. injection Hmap as Hmap.
      rewrite <- Hmap. unfold sample_time. reflexivity. }
    destruct (nth_error ts 0) as [first |] eqn:E0;
      [| apply nth_error_None in E0; rewrite Hlen in E0; lia].
    destruct (nth_error ts 39) as [last |] eqn:E39;
      [| apply nth_error_None in E39; rewrite Hlen in E39; lia].
    exists ts, w', first, last. split; [exact Hrun |]. split; [exact Hlen |].
    split; [exact Hnth |]. split; [exact E0 |]. split; [exact E39 |].
    split; [| split; [| exact Hfloor]].
    - rewrite (Hnth 0%nat first E0). cbn [Z.of_nat].
      change (inject_Z 0) with 0. field.
    - rewrite (Hnth 39%nat last E39).
      change (inject_Z (Z.of_nat 39)) with 39. field. }
  split; [apply Hgen |]. split; [| split].
  - intro Hdef.
    destruct (build_time_series_undefined Random random math_sin math_exp math_pi
                (fun _ => True) job_id payload max_stress
                (Some (set_progress clock)) progress_range w
                (set_progress_total clock) I Hdef)
      as (e & w' & Hrun & _ & _ & Hexp).
    now exists e, w'.
  - intros limit. apply series_defined_below.
  - intro Hexp.
    assert (Hdef : series_defined math_exp Demo.vibration = true).
    { apply (series_defined_below math_exp Demo.vibration 0);
        [lra | exact Hexp | vm_compute; discriminate]. }
    destruct (Hgen Demo.vibration (Some 100.0) Hdef)
      as (ts & w' & first & last & Hrun & Hlen & _ & E0 & E39 & Hfirst & Hlast & Hfloor).
    exists ts, w', first, last. repeat split; try assumption.
    rewrite Hlast. reflexivity.
Qed.

(** C10.  A zero duration, frequency or damping ratio is treated like an
    absent one, and an absent one like the default 10, 1 or 0.05: in the
    time series, in the strain scaling of the curve and in the mesh
    resolution.  An absent applied load is treated like 1000, but a zero
    applied load is used as zero.  With the default duration it gives the
    mesh resolution 7 where the absent load gives 8.  In the curve
    generator it gives the load factor 0.6, as does a load of 600: with
    numbers drawn from the unit interval and no target stress, the stresses
    generated from non-negative reference stresses are at most 61.5 % of
    them under a zero load and at least 98.5 % of them under an absent
    one. *)
Theorem zero_is_absent (job_id : string) (payload : SimulationRequest.t)
    (z : Q) (max_stress : option Q) (progress_cb : option (Z -> M unit))
    (progress_range : option (Z * Z)) :
  z == 0 ->
  let series p :=
    _build_time_series Random random math_sin math_exp math_pi job_id p
      max_stress progress_cb progress_range in
  let curve p := _build_stress_strain_curve Random random job_id p max_stress in
  (series (with_duration (Some z) payload) = series (with_duration None payload) /\
   series (with_duration None payload) = series (with_duration (Some 10.0) payload)) /\
  (series (with_frequency (Some z) payload) = series (with_frequency None payload) /\
   series (with_frequency None payload) = series (with_frequency (Some 1.0) payload)) /\
  (series (with_dampingRatio (Some z) payload)
     = series (with_dampingRatio None payload) /\
   series (with_dampingRatio None payload)
     = series (with_dampingRatio (Some 0.05) payload)) /\
  (curve (with_dampingRatio (Some z) payload)
     = curve (with_dampingRatio None payload) /\
   curve (with_dampingRatio None payload)
     = curve (with_dampingRatio (Some 0.05) payload)) /\
  (_mesh_resolution (with_duration (Some z) payload)
     = _mesh_resolution (with_duration None payload) /\
   _mesh_resolution (with_duration None payload)
     = _mesh_resolution (with_duration (Some 10.0) payload)) /\
  (curve (with_appliedLoad None payload)
     = curve (with_appliedLoad (Some 1000.0) payload) /\
   _mesh_resolution (with_appliedLoad None payload)
     = _mesh_resolution (with_appliedLoad (Some 1000.0) payload)) /\
  (_mesh_resolution (with_appliedLoad (Some 0.0) (with_duration None payload)) = 7%Z /\
   _mesh_resolution (with_appliedLoad None (with_duration None payload)) = 8%Z) /\
  curve (with_appliedLoad (Some 0.0) payload)
    = curve (with_appliedLoad (Some 600.0) payload) /\
  (unit_interval random ->
   reference_curve payload <> [] ->
   exists zero absent,
     _build_stress_strain_curve Random random job_id
       (with_appliedLoad (Some 0.0) payload) None = Ok zero /\
     _build_stress_strain_curve Random random job_id
       (with_appliedLoad None payload) None = Ok absent /\
     Forall2
       (fun point out =>
          0 <= StressPoint.stress point ->
          CurvePoint.stress out <= 0.615 * StressPoint.stress point)
       (reference_curve payload) zero /\
     Forall2
       (fun point out =>
          0 <= StressPoint.stress point ->
          0.985 * StressPoint.stress point <= CurvePoint.stress out)
       (reference_curve payload) absent).
Proof.
  intros Hz series curve.
  assert (Hloads : unit_interval random ->
    reference_curve payload <> [] ->
    exists zero absent,
      _build_stress_strain_curve Random random job_id
        (with_appliedLoad (Some 0.0) payload) None = Ok zero /\
      _build_stress_strain_curve Random random job_id
        (with_appliedLoad None payload) None = Ok absent /\
      Forall2
        (fun point out =>
           0 <= StressPoint.stress point ->
           CurvePoint.stress out <= 0.615 * StressPoint.stress point)
        (reference_curve payload) zero /\
      Forall2
        (fun point out =>
           0 <= StressPoint.stress point ->
           0.985 * StressPoint.stress point <= CurvePoint.stress out)
        (reference_curve payload) absent).
  { intros Hunit Hne.
    destruct (build_curve_scaled Random random job_id
                (with_appliedLoad (Some 0.0) payload) Hunit Hne)
      as (zero & Hzero & Hlow).
    destruct (build_curve_scaled Random random job_id
                (with_appliedLoad None payload) Hunit Hne)
      as (absent & Habsent & Hhigh).
    exists zero, absent. split; [exact Hzero |]. split; [exact Habsent |].
    change (reference_curve (with_appliedLoad (Some 0.0) payload))
      with (reference_curve payload) in Hlow.
    change (reference_curve (with_appliedLoad None payload))
      with (reference_curve payload) in Hhigh.
    change (load_factor_of (with_appliedLoad (Some 0.0) payload)) with 0.6 in Hlow.
    change (load_factor_of (with_appliedLoad None payload))
      with (1000.0 / 1000.0) in Hhigh.
    split.
    - eapply Forall2_impl; [| exact Hlow].
      intros point out H Hs. destruct (H Hs) as [_ Hup].
      set (v := StressPoint.stress point) in *. lra.
    - eapply Forall2_impl; [| exact Hhigh].
      intros point out H Hs. destruct (H Hs) as [Hdown _].
      assert (E : 1000.0 / 1000.0 == 1) by reflexivity.
      rewrite E in Hdown.
      set (v := StressPoint.stress point) in *. lra. }
  unfold series, curve.
  unfold _build_time_series, _build_stress_strain_curve, _mesh_resolution,
    with_duration, with_frequency, with_dampingRatio, with_appliedLoad in *.
  cbn [SimulationRequest.duration SimulationRequest.frequency
       SimulationRequest.dampingRatio SimulationRequest.appliedLoad
       SimulationRequest.material] in *.
  rewrite !(py_or_zero z _ Hz).
  repeat split; try reflexivity. exact Hloads.
Qed.

End Series.

(** ** The code on concrete inputs *)

Lemma demo_random_unit_interval : unit_interval Demo.random.
Proof.
  intro st. unfold Demo.random. cbn [fst].
  pose proof (Z.mod_pos_bound (st * 1103515245 + 12345) 2147483648 eq_refl) as H.
  unfold Qle, Qlt. cbn [Qnum Qden]. lia.
Qed.

(** The demonstration exponential returns up to its limit, and so at each
    sample of the requests that damp. *)
Lemma demo_exp_returns (x : Q) :
  x <= Demo.exp_limit -> exists y, Demo.exp x = Ok y.
Proof.
  intro Hx. unfold Demo.exp.
  destruct (Qltb Demo.exp_limit x) eqn:E; [| now eexists].
  apply Qltb_true in E. lra.
Qed.

Lemma steel_series_defined : series_defined Demo.exp Demo.request = true.
Proof. vm_compute. reflexivity. Qed.

Lemma bare_series_defined : series_defined Demo.exp Demo.bare = true.
Proof. vm_compute. reflexivity. Qed.

Lemma vibration_series_defined : series_defined Demo.exp Demo.vibration = true.
Proof. vm_compute. reflexivity. Qed.

Lemma slack_series_defined : series_defined Demo.exp Demo.slack = true.
Proof. vm_compute. reflexivity. Qed.

Lemma overdamped_series_undefined :
  series_defined Demo.exp Demo.overdamped = false.
Proof. vm_compute. reflexivity. Qed.

(** The progress values of a job whose solver cannot be imported, oldest
    first. *)
Example fallback_progress_trace :
  map JobStatus.progress
    (rev (observable (snd (Demo.run Demo.solver_fails Demo.request))))
  = [5; 8; 70; 70; 72; 75; 77; 80; 82; 85; 87; 90; 93; 93; 100; 100]%Z.
Proof. vm_compute. reflexivity. Qed.

(** The progress values of a job whose solve succeeds, oldest first. *)
Example solver_progress_trace :
  map JobStatus.progress
    (rev (observable (snd (Demo.run Demo.solver_succeeds Demo.request))))
  = [5; 8; 12; 35; 55; 70; 80; 80; 81; 83; 84; 86; 87; 89; 90; 92; 93; 95;
     95; 100; 100]%Z.
Proof. vm_compute. reflexivity. Qed.

Example mesh_resolution_values :
  _mesh_resolution Demo.request = 8%Z /\
  _mesh_resolution (with_appliedLoad (Some 9000.0) Demo.bare) = 12%Z /\
  _mesh_resolution (with_appliedLoad (Some (-9000.0)) Demo.bare) = 6%Z.
Proof. vm_compute. repeat split. Qed.

(** The throttle does not let a late, smaller candidate lower the value. *)
Example throttle_keeps_the_larger :
  candidates (snd (Demo.run Demo.solver_succeeds Demo.request))
  = [95; 93; 92; 90; 89; 87; 86; 84; 83; 81; 80; 80; 70; 55; 35; 12; 8]%Z.
Proof. vm_compute. reflexivity. Qed.

(** C1, counterexample.  In the run of a job whose solver cannot be
    imported the record goes through a state that is completed and has no
    results: the status is written before the results. *)
Lemma completed_before_results :
  exists s,
    In s (observable (snd (Demo.run Demo.solver_fails Demo.request))) /\
    JobStatus.status s = "completed"%string /\
    JobStatus.results s = None.
Proof.
  exists (JobStatus.mk "job-1" "completed" 93 None None).
  split; [| split; reflexivity].
  vm_compute. right. right. left. reflexivity.
Qed.

(** C2, counterexample.  The result of a job whose solve succeeds carries
    the source tag fenics, which is neither solver nor fallback.  And for
    the steel request with a damping ratio of -100, whose solver cannot be
    imported, the fallback raises [OverflowError] in the handler, at sample
    28, where the exponential is taken above its limit: the exception
    leaves [_run_job] and the record stays running at progress 85, without
    results and without error. *)
Lemma fenics_tag_and_stuck_job :
  (exists r,
     JobStatus.results (job (snd (Demo.run Demo.solver_succeeds Demo.request)))
     = Some r /\
     Results.source r = "fenics"%string /\
     String.eqb (Results.source r) "solver" = false /\
     String.eqb (Results.source r) "fallback" = false) /\
  (exists w,
     Demo.run Demo.solver_fails Demo.overdamped = (Raise OverflowError, w) /\
     job w = JobStatus.mk "job-1" "running" 85 None None /\
     fst (_build_stub_results Demo.Random Demo.random Demo.sin Demo.exp Demo.pi
            "job-1" Demo.overdamped None (submitted "job-1"))
     = Raise OverflowError /\
     Demo.exp_limit < decay_argument (-100.0) 10.0 28).
Proof.
  split.
  - eexists. split; [vm_compute; reflexivity |]. repeat split.
  - eexists. split; [vm_compute; reflexivity |].
    repeat split; vm_compute; reflexivity.
Qed.

(** The progress values of a job with a damping ratio of -100 whose solver
    cannot be imported, oldest first: the fallback reports the samples 0 to
    24 and raises at sample 28. *)
Example overdamped_progress_trace :
  Demo.run Demo.solver_fails Demo.overdamped
  = (Raise OverflowError, snd (Demo.run Demo.solver_fails Demo.overdamped)) /\
  map JobStatus.progress
    (rev (observable (snd (Demo.run Demo.solver_fails Demo.overdamped))))
  = [5; 8; 70; 70; 72; 75; 77; 80; 82; 85]%Z /\
  job (snd (Demo.run Demo.solver_fails Demo.overdamped))
  = JobStatus.mk "job-1" "running" 85 None None.
Proof. vm_compute. repeat split. Qed.

(** C1, witness: the steel request, at each sample of which the
    exponential returns, and the same request with a damping ratio of
    -100, for which it raises. *)
Lemma steel_job_terminal_writes :
  (exists w r p before,
     Demo.run Demo.solver_fails Demo.request = (Ok tt, w) /\
     job w = JobStatus.mk "job-1" "completed" 100 (Some r) None /\
     observable w =
       JobStatus.mk "job-1" "completed" 100 (Some r) None
       :: JobStatus.mk "job-1" "completed" 100 None None
       :: JobStatus.mk "job-1" "completed" p None None
       :: before /\
     Forall (fun s => JobStatus.status s = "running"%string
                      /\ JobStatus.results s = None) before) /\
  (exists e w,
     Demo.run Demo.solver_fails Demo.overdamped = (Raise e, w) /\
     exp_raises Demo.exp Demo.overdamped e /\
     Forall (fun s => JobStatus.status s = "running"%string
                      /\ JobStatus.results s = None) (observable w)).
Proof.
  split.
  - exact (proj1 (terminal_writes_order Demo.Random Demo.random Demo.sin Demo.exp
                    Demo.pi Demo.clock Demo.solver_fails "job-1" Demo.request)
             steel_series_defined).
  - exact (proj1 (proj2 (terminal_writes_order Demo.Random Demo.random Demo.sin
                           Demo.exp Demo.pi Demo.clock Demo.solver_fails "job-1"
                           Demo.overdamped))
             overdamped_series_undefined).
Defined.

(** C2, witness: the steel request, at each sample of which the
    exponential returns, completes with the fallback result; with a damping
    ratio of -100 the fallback raises and the record stays running. *)
Lemma steel_job_completes :
  (exists w r,
     Demo.run Demo.solver_fails Demo.request = (Ok tt, w) /\
     job w = JobStatus.mk "job-1" "completed" 100 (Some r) None) /\
  (exists e w p,
     Demo.run Demo.solver_fails Demo.overdamped = (Raise e, w) /\
     exp_raises Demo.exp Demo.overdamped e /\
     job w = JobStatus.mk "job-1" "running" p None None).
Proof.
  split.
  - destruct (run_job_completes Demo.Random Demo.random Demo.sin Demo.exp Demo.pi
                Demo.clock Demo.solver_fails "job-1" Demo.request)
      as (res & _ & _ & Hdef & _).
    destruct (Hdef steel_series_defined) as (w & r & Hrun & Hjob & _).
    exists w, r. split; [exact Hrun | exact Hjob].
  - destruct (run_job_completes Demo.Random Demo.random Demo.sin Demo.exp Demo.pi
                Demo.clock Demo.solver_fails "job-1" Demo.overdamped)
      as (res & _ & _ & _ & Hundef & _).
    destruct (Hundef overdamped_series_undefined)
      as (e & e0 & w & p & Hrun & _ & _ & Hexp & Hjob).
    exists e, w, p. split; [exact Hrun |]. split; [exact Hexp | exact Hjob].
Defined.

(** C3, witness: the steel request has one fallback result under two
    clocks. *)
Lemma steel_fallback_deterministic :
  exists r w1 w2,
    _build_stub_results Demo.Random Demo.random Demo.sin Demo.exp Demo.pi
      "job-1" Demo.request (Some (set_progress Demo.clock)) (submitted "job-1")
    = (Ok r, w1) /\
    _build_stub_results Demo.Random Demo.random Demo.sin Demo.exp Demo.pi
      "job-1" Demo.request (Some (set_progress Demo.fast_clock))
      (submitted "job-2") = (Ok r, w2).
Proof.
  destruct (proj1 (fallback_deterministic Demo.Random Demo.random Demo.sin
                     Demo.exp Demo.pi "job-1" Demo.request Demo.clock
                     Demo.fast_clock (submitted "job-1") (submitted "job-2")))
    as (res1 & res2 & w1 & w2 & Hrun1 & Hrun2 & Hsame & Hdef).
  destruct (Hdef steel_series_defined) as (r1 & r2 & -> & -> & <- & _).
  exists r1, w1, w2. split; [exact Hrun1 | exact Hrun2].
Defined.

(** C5, counterexample.  For the steel request with a damping ratio of
    -100 and the default duration of 10, the exponential is taken at
    28000 / 39, about 717.9, at sample 28: it raises [OverflowError] there,
    having returned at the samples before, and the fallback synthesizer
    raises that exception instead of returning. *)
Lemma overdamped_fallback_raises :
  exists w',
    _build_stub_results Demo.Random Demo.random Demo.sin Demo.exp Demo.pi
      "job-1" Demo.overdamped (Some (set_progress Demo.clock))
      (submitted "job-1") = (Raise OverflowError, w') /\
    decay_argument (-100.0) 10.0 28 == 28000 / 39 /\
    Demo.exp_limit < decay_argument (-100.0) 10.0 28 /\
    Demo.exp (decay_argument (-100.0) 10.0 28) = Raise OverflowError /\
    decays Demo.exp (-100.0) 10.0 (range 28) = true.
Proof.
  eexists. split; [vm_compute; reflexivity |].
  repeat split; vm_compute; reflexivity.
Qed.

(** C5, witness: the steel request. *)
Lemma steel_fallback_bounds :
  exists r w',
    _build_stub_results Demo.Random Demo.random Demo.sin Demo.exp Demo.pi
      "job-1" Demo.request (Some (set_progress Demo.clock)) (submitted "job-1")
    = (Ok r, w') /\
    Results.minStress r <= Results.avgStress r /\
    Results.avgStress r <= Results.maxStress r /\
    Results.stressRange r == Results.maxStress r - Results.minStress r.
Proof.
  destruct (proj1 (fallback_stress_bounds Demo.Random Demo.random Demo.sin
                     Demo.exp Demo.pi "job-1" Demo.request Demo.clock
                     (submitted "job-1")) steel_series_defined)
    as (r & w' & Hrun & _ & _ & _ & _ & _ & Hlow & Hhigh & Hrange).
  exists r, w'. repeat split; assumption.
Defined.

(** C6, counterexample.  A reference curve with a point of negative strain
    gives a fallback result whose maxStrain, avgStrain, maxDeformation and
    curve strain are negative. *)
Lemma negative_strain_reported :
  exists r w,
    _build_stub_results Demo.Random Demo.random Demo.sin Demo.exp Demo.pi
      "job-1" Demo.compressed (Some (set_progress Demo.clock))
      (submitted "job-1") = (Ok r, w) /\
    Results.maxStrain r < 0 /\
    Results.avgStrain r < 0 /\
    Results.maxDeformation r < 0 /\
    Exists (fun p => CurvePoint.strain p < 0) (Results.stressStrainCurve r).
Proof.
  eexists. eexists. split; [vm_compute; reflexivity |].
  repeat split; try (vm_compute; reflexivity).
  constructor. vm_compute. reflexivity.
Qed.

(** C6, witness: the reference strains of the steel curve are not negative,
    and neither are the strains of the result, which are 1.01 times the
    reference strains. *)
Lemma steel_strains_nonnegative :
  exists r w',
    _build_stub_results Demo.Random Demo.random Demo.sin Demo.exp Demo.pi
      "job-1" Demo.request (Some (set_progress Demo.clock))
      (submitted "job-1") = (Ok r, w') /\
    map CurvePoint.strain (Results.stressStrainCurve r) =
      map (fun p => StressPoint.strain p * (1.0 + 0.05 * 0.2)) Demo.steel_curve /\
    Forall (fun p => 0 <= CurvePoint.strain p) (Results.stressStrainCurve r) /\
    0 <= Results.maxStrain r /\
    0 <= Results.avgStrain r /\
    0 <= Results.maxDeformation r.
Proof.
  destruct (proj1 (synthesized_values_floored Demo.Random Demo.random Demo.sin
                     Demo.exp Demo.pi Demo.solver_fails "job-1" Demo.request
                     Demo.clock (submitted "job-1")) steel_series_defined)
    as (r & w' & Hrun & _ & _ & _ & _ & _ & Hshape & Hstrain).
  exists r, w'. split; [exact Hrun |]. split; [exact Hshape |]. apply Hstrain.
  - repeat constructor; vm_compute; discriminate.
  - vm_compute. discriminate.
Defined.

(** C7, witness: the steel curve has the greatest stress 500, and with a
    maxStress of 250 the allowable stress is 450 and the safety factor 1.8. *)
Lemma steel_safety_factor :
  exists allowable,
    _estimate_allowable_stress Demo.request 250 = Ok allowable /\
    allowable == 450 /\
    allowable / 250 == 1.8.
Proof.
  destruct (safety_factor_rule Demo.Random Demo.random Demo.sin Demo.exp Demo.pi
              Demo.solver_succeeds "job-1" Demo.request Demo.clock
              (submitted "job-1"))
    as (_ & _ & _ & Hrule).
  apply (Hrule 500.0 250).
  - split.
    + right. right. right. left. reflexivity.
    + repeat constructor; vm_compute; discriminate.
  - reflexivity.
  - reflexivity.
Defined.

(** C8, witness: a request without a reference curve. *)
Lemma bare_request_degenerate :
  reference_curve Demo.bare = [] /\
  exists r w',
    _build_stub_results Demo.Random Demo.random Demo.sin Demo.exp Demo.pi
      "job-1" Demo.bare (Some (set_progress Demo.clock)) (submitted "job-1")
    = (Ok r, w') /\
    Results.stressStrainCurve r = [CurvePoint.mk 0.0 0.0] /\
    Results.maxStress r == 0 /\
    Results.minStress r == 0 /\
    Results.avgStress r == 0 /\
    Results.safetyFactor r == 0.
Proof.
  split; [reflexivity |].
  exact (proj1 (proj2 (empty_curve_degenerate Demo.Random Demo.random Demo.sin
                         Demo.exp Demo.pi "job-1" Demo.bare Demo.clock
                         (submitted "job-1") eq_refl))
           bare_series_defined).
Defined.

(** C9, counterexample.  For the steel request with a damping ratio of
    -100 the time-series generator raises [OverflowError] and returns no
    sample: at sample 28 the exponential is taken at 28000 / 39, above its
    limit. *)
Lemma overdamped_series_raises :
  exists w',
    _build_time_series Demo.Random Demo.random Demo.sin Demo.exp Demo.pi "job-1"
      Demo.overdamped None (Some (set_progress Demo.clock)) None
      (submitted "job-1") = (Raise OverflowError, w') /\
    Demo.exp_limit < decay_argument (-100.0) 10.0 28 /\
    Demo.exp (decay_argument (-100.0) 10.0 28) = Raise OverflowError.
Proof.
  eexists. split; [vm_compute; reflexivity |].
  split; vm_compute; reflexivity.
Qed.

(** C9, witness: the vibration request, with the default baseline. *)
Lemma vibration_series_shape :
  exists ts w' first last,
    _build_time_series Demo.Random Demo.random Demo.sin Demo.exp Demo.pi "job-1"
      Demo.vibration (Some 100.0) (Some (set_progress Demo.clock))
      (Some (70%Z, 95%Z)) (submitted "job-1") = (Ok ts, w') /\
    List.length ts = 40%nat /\
    nth_error ts 0 = Some first /\
    nth_error ts 39 = Some last /\
    TimePoint.time first == 0 /\
    TimePoint.time last == 10 /\
    Forall floored ts.
Proof.
  apply (proj2 (proj2 (proj2 (time_series_shape Demo.Random Demo.random Demo.sin
                                Demo.exp Demo.pi "job-1" Demo.vibration
                                (Some 100.0) Demo.clock (Some (70%Z, 95%Z))
                                (submitted "job-1"))))).
  intros x Hx. apply demo_exp_returns. unfold Demo.exp_limit. lra.
Defined.

(** C10, witness: an explicit zero duration, and a zero load on the steel
    request. *)
Lemma zero_duration_is_default :
  0.0 == 0 /\
  _mesh_resolution (with_duration (Some 0.0) Demo.request)
  = _mesh_resolution (with_duration (Some 10.0) Demo.request) /\
  _build_time_series Demo.Random Demo.random Demo.sin Demo.exp Demo.pi "job-1"
    (with_duration (Some 0.0) Demo.request) None None None
  = _build_time_series Demo.Random Demo.random Demo.sin Demo.exp Demo.pi "job-1"
      (with_duration None Demo.request) None None None /\
  exists zero absent,
    _build_stress_strain_curve Demo.Random Demo.random "job-1"
      (with_appliedLoad (Some 0.0) Demo.request) None = Ok zero /\
    _build_stress_strain_curve Demo.Random Demo.random "job-1"
      (with_appliedLoad None Demo.request) None = Ok absent /\
    Forall2
      (fun point out =>
         0 <= StressPoint.stress point ->
         CurvePoint.stress out <= 0.615 * StressPoint.stress point)
      Demo.steel_curve zero /\
    Forall2
      (fun point out =>
         0 <= StressPoint.stress point ->
         0.985 * StressPoint.stress point <= CurvePoint.stress out)
      Demo.steel_curve absent.
Proof.
  assert (Hz : 0.0 == 0) by reflexivity.
  pose proof (zero_is_absent Demo.Random Demo.random Demo.sin Demo.exp Demo.pi
                "job-1" Demo.request 0.0 None None None Hz) as H.
  cbv zeta in H.
  destruct H as ((Hseries & _) & _ & _ & _ & (Hmesh1 & Hmesh2) & _ & _ & _ & Hloads).
  split; [exact Hz |]. split; [now rewrite Hmesh1 |]. split; [exact Hseries |].
  apply Hloads; [exact demo_random_unit_interval | discriminate].
Defined.

(** ** Further properties of the code *)

(** *** The mesh resolution *)

Lemma py_int_floor (x : Q) : (0 <= Qnum x)%Z -> py_int x = Qfloor x.
Proof.
  destruct x as [n d]. cbn [Qnum]. intro Hn. unfold py_int. cbn [Qnum Qden Qfloor].
  apply Z.quot_div_nonneg; lia.
Qed.

Lemma py_int_ceiling (x : Q) : (Qnum x <= 0)%Z -> py_int x = Qceiling x.
Proof.
  destruct x as [n d]. cbn [Qnum]. intro Hn.
  unfold py_int, Qceiling, Qopp. cbn [Qnum Qden Qfloor].
  rewrite <- (Z.quot_div_nonneg (- n) (Z.pos d)) by lia.
  rewrite Z.quot_opp_l by lia. lia.
Qed.

Lemma Qnum_nonneg (x : Q) : (0 <= Qnum x)%Z <-> 0 <= x.
Proof. unfold Qle. cbn. lia. Qed.

(** [int] never decreases along the order of the floats. *)
Lemma py_int_mono (x y : Q) : x <= y -> (py_int x <= py_int y)%Z.
Proof.
  intro Hxy.
  destruct (Z_le_gt_dec 0 (Qnum x)) as [Hx | Hx];
    destruct (Z_le_gt_dec 0 (Qnum y)) as [Hy | Hy].
  - rewrite !py_int_floor by assumption. now apply Qfloor_resp_le.
  - apply Qnum_nonneg in Hx.
    assert (Hy' : ~ 0 <= y) by (rewrite <- Qnum_nonneg; lia).
    exfalso. apply Hy'. lra.
  - rewrite (py_int_ceiling x) by lia. rewrite (py_int_floor y) by assumption.
    assert (Hx' : x <= 0).
    { apply Qnot_lt_le. intro H0. apply Qlt_le_weak, Qnum_nonneg in H0.
      unfold Qlt in *. lia. }
    apply Qnum_nonneg in Hy.
    pose proof (Qceiling_resp_le _ _ Hx') as H1.
    pose proof (Qfloor_resp_le _ _ Hy) as H2.
    cbn in H1, H2. lia.
  - rewrite !py_int_ceiling by lia. now apply Qceiling_resp_le.
Qed.

Lemma py_int_inject (k : Z) : py_int (inject_Z k) = k.
Proof. unfold py_int. cbn. apply Z.quot_1_r. Qed.

Lemma py_min_mono_r (a x y : Q) : x <= y -> py_min a x <= py_min a y.
Proof.
  intro Hxy.
  destruct (py_min_cases a x) as [[-> H1] | [-> H1]];
    destruct (py_min_cases a y) as [[-> H2] | [-> H2]]; lra.
Qed.

(** X1.  The mesh resolution lies between 6 and 12 for every request: the
    inner [min(6, ...)] caps the sum at 12, so the outer cap of 14 is never
    the one that applies. *)
Theorem mesh_resolution_bounds (payload : SimulationRequest.t) :
  (6 <= _mesh_resolution payload <= 12)%Z.
Proof.
  unfold _mesh_resolution.
  match goal with
  | |- context [py_int (py_min 6 ?x)] =>
      pose proof (py_int_mono _ _ (py_min_upper_l 6 x)) as Hcap
  end.
  change (py_int 6) with 6%Z in Hcap. lia.
Qed.

(** X2.  The mesh resolution never decreases when the applied load grows,
    nor when a non-zero duration grows. *)
Theorem mesh_resolution_monotone (payload : SimulationRequest.t) (lo hi : Q) :
  lo <= hi ->
  (_mesh_resolution (with_appliedLoad (Some lo) payload)
   <= _mesh_resolution (with_appliedLoad (Some hi) payload))%Z /\
  (~ lo == 0 -> ~ hi == 0 ->
   (_mesh_resolution (with_duration (Some lo) payload)
    <= _mesh_resolution (with_duration (Some hi) payload))%Z).
Proof.
  intro Hle. split.
  - unfold _mesh_resolution, with_appliedLoad.
    cbn [SimulationRequest.appliedLoad SimulationRequest.duration].
    match goal with
    | |- (Z.max 6 (Z.min 14 (6 + py_int (py_min 6 ?x)))
          <= Z.max 6 (Z.min 14 (6 + py_int (py_min 6 ?y))))%Z =>
        assert (Hxy : x <= y) by (unfold Qdiv; apply Qplus_le_l;
          apply Qmult_le_compat_r; [exact Hle | vm_compute; discriminate]);
        pose proof (py_int_mono _ _ (py_min_mono_r 6 x y Hxy))
    end.
    lia.
  - intros Hlo Hhi. unfold _mesh_resolution, with_duration.
    cbn [SimulationRequest.appliedLoad SimulationRequest.duration].
    unfold py_or.
    destruct (Qeq_bool lo 0) eqn:Elo; [apply Qeq_bool_eq in Elo; contradiction |].
    destruct (Qeq_bool hi 0) eqn:Ehi; [apply Qeq_bool_eq in Ehi; contradiction |].
    match goal with
    | |- (Z.max 6 (Z.min 14 (6 + py_int (py_min 6 ?x)))
          <= Z.max 6 (Z.min 14 (6 + py_int (py_min 6 ?y))))%Z =>
        assert (Hxy : x <= y) by (unfold Qdiv; apply Qplus_le_r;
          apply Qmult_le_compat_r; [exact Hle | vm_compute; discriminate]);
        pose proof (py_int_mono _ _ (py_min_mono_r 6 x y Hxy))
    end.
    lia.
Qed.

(** X2, witness: a heavier load on the steel beam. *)
Lemma heavier_load_finer_mesh :
  1200.0 <= 3200.0 /\
  Z.le (_mesh_resolution (with_appliedLoad (Some 1200.0) Demo.request))
       (_mesh_resolution (with_appliedLoad (Some 3200.0) Demo.request)).
Proof.
  assert (H : 1200.0 <= 3200.0) by (vm_compute; discriminate).
  split; [exact H |].
  exact (proj1 (mesh_resolution_monotone Demo.request 1200.0 3200.0 H)).
Defined.

(** *** The curve generator *)

Section CurveFacts.

Context {rng_state : Type}.
Variable Random : string -> rng_state.
Variable random : rng_state -> Q * rng_state.

(** X3.  Whatever the target stress, a curve generated from a reference
    curve that is not empty has one point per reference point, in the same
    order, and the strain of each is the reference strain times
    [1 + 0.2 * dampingRatio]. *)
Theorem curve_keeps_the_reference_points (job_id : string)
    (payload : SimulationRequest.t) (max_stress : option Q)
    (curve : list CurvePoint.t) :
  reference_curve payload <> [] ->
  _build_stress_strain_curve Random random job_id payload max_stress = Ok curve ->
  List.length curve = List.length (reference_curve payload) /\
  map CurvePoint.strain curve =
    map (fun p => StressPoint.strain p * strain_scale_of payload)
        (reference_curve payload).
Proof.
  intros Hne Hrun.
  destruct (reference_curve payload) as [| p ps] eqn:Href; [contradiction |].
  rewrite (build_curve_cases Random random job_id payload max_stress p ps Href) in Hrun.
  cbv zeta in Hrun.
  assert (Hloop : exists scale,
            curve = dense_curve_loop random (p :: ps)
                      (Random (String.append job_id "_curve")) scale
                      (strain_scale_of payload) []).
  { destruct max_stress as [v |];
      [destruct (Qeq_bool v 0);
        [| destruct (Qeq_bool _ 0); [discriminate |]] |];
      injection Hrun as <-; eexists; reflexivity. }
  destruct Hloop as (scale & ->).
  destruct (dense_curve_loop_run random scale (strain_scale_of payload) (p :: ps)
              (Random (String.append job_id "_curve")) [])
    as (new & Hloop & Hlen & _ & Hstrain).
  rewrite Hloop. cbn [app]. split; assumption.
Qed.

(** X4.  The curve generator raises exactly when the reference curve is not
    empty, a non-zero target stress is given and the greatest reference
    stress is zero; the exception is then [ZeroDivisionError], and it
    raises no other. *)
Theorem curve_zero_division (job_id : string) (payload : SimulationRequest.t)
    (max_stress : option Q) :
  (_build_stress_strain_curve Random random job_id payload max_stress
   = Raise ZeroDivisionError
   <->
   (exists v, max_stress = Some v /\ ~ v == 0) /\
   (exists top,
     greatest top (map StressPoint.stress (reference_curve payload)) /\
     top == 0)) /\
  (forall e,
    _build_stress_strain_curve Random random job_id payload max_stress = Raise e ->
    e = ZeroDivisionError).
Proof.
  destruct (reference_curve payload) as [| p ps] eqn:Href.
  - assert (Hrun : _build_stress_strain_curve Random random job_id payload max_stress
                   = Ok [CurvePoint.mk 0.0 0.0]).
    { unfold _build_stress_strain_curve. unfold reference_curve in Href.
      now rewrite Href. }
    rewrite Hrun. split; [split |]; try discriminate.
    intros (_ & top & [[] _] & _).
  - rewrite (build_curve_cases Random random job_id payload max_stress p ps Href). cbv zeta.
    set (top := fold_left py_max (map StressPoint.stress ps) (StressPoint.stress p)).
    assert (Htop : greatest top (map StressPoint.stress (p :: ps))).
    { now apply py_max_list_greatest. }
    split; [split |].
    + intro Hraise. destruct max_stress as [v |]; [| discriminate].
      destruct (Qeq_bool v 0) eqn:Ev; [discriminate |].
      destruct (Qeq_bool top 0) eqn:Et; [| discriminate].
      split.
      * exists v. split; [reflexivity | now apply Qeq_bool_neq].
      * exists top. split; [exact Htop | now apply Qeq_bool_eq].
    + intros ((v & -> & Hv) & top' & Hgreatest & Hzero).
      destruct (Qeq_bool v 0) eqn:Ev; [apply Qeq_bool_eq in Ev; contradiction |].
      assert (Et : Qeq_bool top 0 = true).
      { apply Qeq_eq_bool. rewrite (greatest_unique _ _ _ Htop Hgreatest).
        exact Hzero. }
      now rewrite Et.
    + intros e Hraise. destruct max_stress as [v |]; [| discriminate].
      destruct (Qeq_bool v 0); [discriminate |].
      destruct (Qeq_bool top 0); [| discriminate].
      now injection Hraise as <-.
Qed.

(** X6.  With numbers drawn from the unit interval and no target stress,
    the generated stress of a reference point of non-negative stress [s]
    lies between [(f - 0.015) * s] and [(f + 0.015) * s] for the load factor
    [f], which lies between 0.6 and 1.6: the curve keeps within 58.5 % and
    161.5 % of the reference. *)
Theorem fallback_curve_band (job_id : string) (payload : SimulationRequest.t) :
  unit_interval random ->
  reference_curve payload <> [] ->
  exists curve,
    _build_stress_strain_curve Random random job_id payload None = Ok curve /\
    0.6 <= load_factor_of payload /\
    load_factor_of payload <= 1.6 /\
    Forall2
      (fun point out =>
         0 <= StressPoint.stress point ->
         (load_factor_of payload - 0.015) * StressPoint.stress point
           <= CurvePoint.stress out /\
         CurvePoint.stress out
           <= (load_factor_of payload + 0.015) * StressPoint.stress point /\
         0.585 * StressPoint.stress point <= CurvePoint.stress out /\
         CurvePoint.stress out <= 1.615 * StressPoint.stress point)
      (reference_curve payload) curve.
Proof.
  intros Hunit Hne.
  destruct (reference_curve payload) as [| p ps] eqn:Href; [contradiction |].
  rewrite (build_curve_cases Random random job_id payload None p ps Href). cbv zeta.
  assert (Hlow : 0.6 <= load_factor_of payload).
  { unfold load_factor_of. apply py_max_lower_l. }
  assert (Hhigh : load_factor_of payload <= 1.6).
  { unfold load_factor_of.
    match goal with
    | |- py_max 0.6 (py_min 1.6 ?x) <= _ =>
        pose proof (py_min_upper_l 1.6 x);
        destruct (py_max_cases 0.6 (py_min 1.6 x)) as [[-> _] | [-> _]]; lra
    end. }
  destruct (dense_curve_loop_points random (fun r => 0 <= r /\ r < 1)
              (load_factor_of payload) (strain_scale_of payload) (p :: ps)
              Hunit (Random (String.append job_id "_curve")) [])
    as (new & Hloop & Hall).
  eexists. split; [reflexivity |]. rewrite Hloop. cbn [app].
  split; [exact Hlow |]. split; [exact Hhigh |].
  eapply Forall2_impl; [| exact Hall].
  intros point out (r & [Hr0 Hr1] & ->) Hs. cbn [CurvePoint.stress].
  set (s := StressPoint.stress point) in *.
  set (f := load_factor_of payload) in *.
  match goal with
  | |- context [py_max 0.0 ?x] =>
      destruct (py_max_cases 0.0 x) as [[-> Hx] | [-> Hx]]
  end; repeat split; nra.
Qed.

End CurveFacts.

(** X3, witness: the steel curve with a target stress of 250. *)
Lemma steel_curve_keeps_its_points :
  exists curve,
    _build_stress_strain_curve Demo.Random Demo.random "job-1" Demo.request
      (Some 250.0) = Ok curve /\
    List.length curve = 4%nat /\
    map CurvePoint.strain curve =
      map (fun p => StressPoint.strain p * strain_scale_of Demo.request)
          Demo.steel_curve.
Proof.
  destruct (_build_stress_strain_curve Demo.Random Demo.random "job-1"
              Demo.request (Some 250.0)) as [curve | e] eqn:Hrun;
    [| vm_compute in Hrun; discriminate Hrun].
  exists curve. split; [reflexivity |].
  apply (curve_keeps_the_reference_points Demo.Random Demo.random "job-1"
           Demo.request (Some 250.0) curve).
  - discriminate.
  - exact Hrun.
Defined.

(** X6, witness: the steel curve under the demonstration generator. *)
Lemma steel_curve_in_band :
  exists curve,
    _build_stress_strain_curve Demo.Random Demo.random "job-1" Demo.request None
    = Ok curve /\
    Forall2
      (fun point out =>
         0 <= StressPoint.stress point ->
         0.585 * StressPoint.stress point <= CurvePoint.stress out /\
         CurvePoint.stress out <= 1.615 * StressPoint.stress point)
      Demo.steel_curve curve.
Proof.
  destruct (fallback_curve_band Demo.Random Demo.random "job-1" Demo.request
              demo_random_unit_interval)
    as (curve & Hrun & _ & _ & Hall).
  - discriminate.
  - exists curve. split; [exact Hrun |].
    eapply Forall2_impl; [| exact Hall].
    cbn beta. intros point out H Hs. apply H. exact Hs.
Defined.

(** *** The runner on the edges of the solver path *)

Section RunnerFacts.

Context {rng_state : Type}.
Variable Random : string -> rng_state.
Variable random : rng_state -> Q * rng_state.
Variable math_sin : Q -> Q.
Variable math_exp : Q -> result Q.
Variable math_pi : Q.
Variable time_monotonic : nat -> Q.
Variable dolfin : SimulationRequest.t -> Z -> DolfinRun.

(** X5.  When the solve itself succeeds with a non-zero maximum stress but
    the reference curve has the greatest stress zero, the
    [ZeroDivisionError] of the curve scaling is caught like a solver
    failure: the fallback runs, and when [math.exp] returns at each sample
    the job completes with the fallback result and its warning. *)
Theorem zero_reference_stress_falls_back (job_id : string)
    (payload : SimulationRequest.t) (f : FieldSummary.t) (top : Q) :
  dolfin payload (_mesh_resolution payload) = DolfinFields f ->
  ~ FieldSummary.max_stress f == 0 ->
  greatest top (map StressPoint.stress (reference_curve payload)) ->
  top == 0 ->
  series_defined math_exp payload = true ->
  (forall w0,
    _solve_with_fenics Random random math_sin math_exp math_pi dolfin
      job_id payload None w0 = (Raise ZeroDivisionError, w0)) /\
  exists w r,
    _run_job Random random math_sin math_exp math_pi time_monotonic dolfin
      job_id payload (submitted job_id) = (Ok tt, w) /\
    job w = JobStatus.mk job_id "completed" 100 (Some r) None /\
    Results.source r = "fallback"%string /\
    Results.warning r = Some warning_text /\
    Results.hotspots r = None.
Proof.
  intros Hdolfin Hmax Hgreatest Hzero Hdef.
  assert (Hraise : forall w0,
            _solve_with_fenics Random random math_sin math_exp math_pi dolfin
              job_id payload None w0 = (Raise ZeroDivisionError, w0)).
  { intro w0. unfold _solve_with_fenics. rewrite Hdolfin.
    cbn [dolfin_stage dolfin_fields call]. rewrite !bind_ret.
    destruct (reference_curve payload) as [| p ps] eqn:Href;
      [destruct Hgreatest as [[] _] |].
    rewrite (build_curve_cases Random random job_id payload _ p ps Href).
    cbv zeta.
    destruct (Qeq_bool (FieldSummary.max_stress f) 0) eqn:Ev;
      [apply Qeq_bool_eq in Ev; contradiction |].
    assert (Et : Qeq_bool (fold_left py_max (map StressPoint.stress ps)
                             (StressPoint.stress p)) 0 = true).
    { apply Qeq_eq_bool.
      rewrite (greatest_unique _ _ _
                 (py_max_list_greatest (map StressPoint.stress (p :: ps)) _ eq_refl)
                 Hgreatest).
      exact Hzero. }
    rewrite Et. reflexivity. }
  split; [exact Hraise |].
  destruct (run_job_run Random random math_sin math_exp math_pi time_monotonic
              dolfin job_id payload)
    as (w_call & res & w_ret & w_run & _ & _ & Hpure & Hrun & Hjob).
  rewrite Hdef in Hjob. destruct Hjob as (r & Hjob & Hres).
  specialize (Hpure (submitted job_id)). rewrite Hraise in Hpure.
  injection Hpure as <-.
  destruct Hres as (r0 & _ & Hparts & ->).
  destruct Hrun as [Hrec _ _ _ _ _ _].
  exists (commit (Results.set_warning warning_text r0) w_run),
    (Results.set_warning warning_text r0).
  split; [exact Hjob |]. split.
  - unfold commit. cbn [job]. rewrite Hrec. reflexivity.
  - cbn. repeat split; apply Hparts.
Qed.

(** X14.  The result of a completed job, which every job is when
    [math.exp] returns at each sample, lists hot spots exactly when the
    solver path returned: then it has one hot spot, of type max_stress,
    whose value is the maxStress of the result; a fallback result has no
    hotspots entry. *)
Theorem hotspots_only_from_the_solver (job_id : string)
    (payload : SimulationRequest.t) :
  series_defined math_exp payload = true ->
  exists res w r,
    (forall w0,
      _solve_with_fenics Random random math_sin math_exp math_pi dolfin
        job_id payload None w0 = (res, w0)) /\
    _run_job Random random math_sin math_exp math_pi time_monotonic dolfin
      job_id payload (submitted job_id) = (Ok tt, w) /\
    JobStatus.results (job w) = Some r /\
    match res with
    | Raise _ => Results.hotspots r = None
    | Ok _ =>
        exists location,
          Results.hotspots r
          = Some [Hotspot.mk "max_stress" (Results.maxStress r) location]
    end.
Proof.
  intro Hdef.
  destruct (run_job_run Random random math_sin math_exp math_pi time_monotonic
              dolfin job_id payload)
    as (w_call & res & w_ret & w_run & _ & _ & Hpure & _ & Hjob).
  rewrite Hdef in Hjob. destruct Hjob as (r & Hjob & Hres).
  exists res, (commit r w_run), r.
  split; [exact Hpure |]. split; [exact Hjob |]. split; [reflexivity |].
  destruct res as [r' | e].
  - destruct Hres as (_ & _ & Hparts).
    destruct Hparts as [(f & _ & Emax & _ & _ & _ & _ & _ & Ehot) _ _ _ _ _ _ _ _].
    exists (FieldSummary.hotspot_location f). now rewrite Ehot, Emax.
  - destruct Hres as (r0 & _ & Hparts & ->). cbn. apply Hparts.
Qed.

End RunnerFacts.

(** X5, witness: the solve succeeds on a material whose reference curve
    carries no stress. *)
Lemma slack_material_falls_back :
  exists w r,
    Demo.run Demo.solver_succeeds Demo.slack = (Ok tt, w) /\
    job w = JobStatus.mk "job-1" "completed" 100 (Some r) None /\
    Results.source r = "fallback"%string /\
    Results.warning r = Some warning_text /\
    Results.hotspots r = None.
Proof.
  apply (zero_reference_stress_falls_back Demo.Random Demo.random Demo.sin
           Demo.exp Demo.pi Demo.clock Demo.solver_succeeds "job-1" Demo.slack
           Demo.fields 0.0).
  - reflexivity.
  - vm_compute. discriminate.
  - split; [now left | repeat constructor; vm_compute; discriminate].
  - reflexivity.
  - exact slack_series_defined.
Defined.

(** X14, witness: the steel request with a solve that succeeds has one hot
    spot. *)
Lemma steel_job_hotspot :
  exists w r location,
    _run_job Demo.Random Demo.random Demo.sin Demo.exp Demo.pi Demo.clock
      Demo.solver_succeeds "job-1" Demo.request (submitted "job-1")
    = (Ok tt, w) /\
    JobStatus.results (job w) = Some r /\
    Results.hotspots r
    = Some [Hotspot.mk "max_stress" (Results.maxStress r) location].
Proof.
  destruct (hotspots_only_from_the_solver Demo.Random Demo.random Demo.sin
              Demo.exp Demo.pi Demo.clock Demo.solver_succeeds "job-1"
              Demo.request steel_series_defined)
    as (res & w & r & Hpure & Hrun & Hres & Hhot).
  specialize (Hpure (submitted "job-1")).
  destruct res as [r' | e].
  - destruct Hhot as [location Hhot]. exists w, r, location.
    split; [exact Hrun |]. split; [exact Hres | exact Hhot].
  - exfalso. apply (f_equal fst) in Hpure. vm_compute in Hpure. discriminate Hpure.
Defined.

(** *** The time-series generator *)

Lemma set_progress_records (clock : nat -> Q) : records (set_progress clock).
Proof.
  intros v w. destruct (set_progress_run clock v w) as [naps Hrun].
  rewrite Hrun. eexists. split; reflexivity.
Qed.

(** Between the ends of a range the interpolated value stays within them
    and never decreases with the index. *)
Lemma interpolated_bounds (s e index : Z) :
  (s <= e)%Z -> (0 <= index < points)%Z ->
  (s <= interpolated s e index <= e)%Z.
Proof.
  intros Hse Hindex. unfold interpolated.
  change (inject_Z (Z.max (points - 1) 1)) with 39.
  assert (H0 : 0 <= inject_Z index).
  { change 0 with (inject_Z 0). rewrite <- Zle_Qle. lia. }
  assert (H1 : inject_Z index <= 39).
  { change 39 with (inject_Z 39). rewrite <- Zle_Qle. unfold points in Hindex. lia. }
  assert (Hd : 0 <= inject_Z (e - s)).
  { change 0 with (inject_Z 0). rewrite <- Zle_Qle. lia. }
  assert (Hsum : inject_Z s + inject_Z (e - s) == inject_Z e).
  { rewrite <- inject_Z_plus. apply inject_Z_injective. lia. }
  assert (Ht : 0 <= inject_Z index / 39 /\ inject_Z index / 39 <= 1).
  { split; [apply Qle_shift_div_l | apply Qle_shift_div_r]; lra. }
  set (t := inject_Z index / 39) in *. set (d := inject_Z (e - s)) in *.
  assert (Hlow : inject_Z s <= inject_Z s + d * t) by nra.
  assert (Hhigh : inject_Z s + d * t <= inject_Z e) by nra.
  pose proof (py_int_mono _ _ Hlow) as Ha.
  pose proof (py_int_mono _ _ Hhigh) as Hb.
  rewrite py_int_inject in Ha, Hb. lia.
Qed.

Lemma interpolated_monotone (s e i j : Z) :
  (s <= e)%Z -> (i <= j)%Z -> (interpolated s e i <= interpolated s e j)%Z.
Proof.
  intros Hse Hij. unfold interpolated. apply py_int_mono.
  change (inject_Z (Z.max (points - 1) 1)) with 39.
  assert (Hd : 0 <= inject_Z (e - s)).
  { change 0 with (inject_Z 0). rewrite <- Zle_Qle. lia. }
  assert (Hq : inject_Z i / 39 <= inject_Z j / 39).
  { unfold Qdiv. apply Qmult_le_compat_r; [| vm_compute; discriminate].
    rewrite <- Zle_Qle. exact Hij. }
  set (a := inject_Z i / 39) in *. set (b := inject_Z j / 39) in *.
  set (d := inject_Z (e - s)) in *. nra.
Qed.

Lemma range_sorted (n : Z) : StronglySorted Z.le (range n).
Proof.
  unfold range. generalize 0%nat.
  induction (Z.to_nat n) as [| k IH]; intro a; cbn [seq map].
  - constructor.
  - constructor; [apply IH |].
    apply Forall_map. apply Forall_forall. intros i Hi.
    apply in_seq in Hi. lia.
Qed.

Lemma StronglySorted_prefix {A : Type} (R : A -> A -> Prop) (l1 l2 : list A) :
  StronglySorted R (l1 ++ l2) -> StronglySorted R l1.
Proof.
  induction l1 as [| a l1 IH]; cbn [app]; intro H.
  - constructor.
  - apply StronglySorted_inv in H. destruct H as [Hrest Hall].
    constructor; [exact (IH Hrest) |].
    apply Forall_app in Hall. apply Hall.
Qed.

Lemma StronglySorted_filter {A : Type} (R : A -> A -> Prop) (f : A -> bool)
    (l : list A) :
  StronglySorted R l -> StronglySorted R (filter f l).
Proof.
  induction 1 as [| a l Hl IH Ha]; cbn [filter].
  - constructor.
  - destruct (f a); [| exact IH].
    constructor; [exact IH |].
    rewrite Forall_forall in *. intros x Hx. apply filter_In in Hx. now apply Ha.
Qed.

Section SeriesFacts.

Context {rng_state : Type}.
Variable Random : string -> rng_state.
Variable random : rng_state -> Q * rng_state.
Variable math_sin : Q -> Q.
Variable math_exp : Q -> result Q.
Variable math_pi : Q.

(** The candidates a recording callback receives from the loop: those of
    the indices [done] it gets through, which are all of them unless
    [math.exp] raises at the index after them. *)
Lemma time_series_loop_reports (cb : Z -> M unit)
    (duration frequency damping base amplitude : Q)
    (progress_range : option (Z * Z)) (s e : Z) :
  records cb -> ~ duration == 0 ->
  match progress_range with
  | Some r => r = (s, e)
  | None => True
  end ->
  forall (indices : list Z) (rng : rng_state) (acc : list TimePoint.t) (w : World),
  exists res w' done,
    time_series_loop random math_sin math_exp math_pi indices rng
      duration frequency damping base amplitude (Some cb) progress_range s e acc w
    = (res, w') /\
    candidates w' = (rev (reported progress_range done) ++ candidates w)%list /\
    match res with
    | Ok _ => done = indices
    | Raise e0 =>
        exists index rest,
          indices = (done ++ index :: rest)%list /\
          math_exp (decay_argument damping duration index) = Raise e0
    end.
Proof.
  intros Hcb Hd Hrange.
  induction indices as [| index rest IH]; intros rng acc w.
  - exists (Ok acc), w, []. split; [reflexivity |]. split; [| reflexivity].
    destruct progress_range as [[s' e'] |]; reflexivity.
  - cbn [time_series_loop].
    rewrite (bind_lift_ok _ _ _ _ (py_div_ok _ _ divisor_nonzero)).
    rewrite (bind_lift_ok _ _ _ _ (py_div_ok _ _ Hd)).
    destruct (math_exp (decay_argument damping duration index))
      as [decay | e0] eqn:Eexp.
    + assert (Estep : math_exp (- damping
                                 * (duration * inject_Z index
                                    / inject_Z (Z.max (points - 1) 1)))
                      = Ok decay) by exact Eexp.
      rewrite (bind_lift_ok _ _ _ _ Estep).
      destruct (uniform random rng (-0.03) 0.03) as [u rng1].
      rewrite (bind_lift_ok _ _ _ _ (py_div_ok _ _ Hd)).
      destruct (uniform random rng1 (-0.002) 0.002) as [v rng2].
      assert (Hnext : forall w1 a,
                candidates w1
                = (rev (reported progress_range [index]) ++ candidates w)%list ->
                exists res w' done,
                  time_series_loop random math_sin math_exp math_pi rest rng2
                    duration frequency damping base amplitude (Some cb)
                    progress_range s e a w1 = (res, w') /\
                  candidates w'
                  = (rev (reported progress_range done) ++ candidates w)%list /\
                  match res with
                  | Ok _ => done = index :: rest
                  | Raise e1 =>
                      exists index' rest',
                        index :: rest = (done ++ index' :: rest')%list /\
                        math_exp (decay_argument damping duration index')
                        = Raise e1
                  end).
      { intros w1 a Hlog.
        destruct (IH rng2 a w1) as (res & w' & done & Hloop & Hcands & Hres).
        exists res, w', (index :: done). split; [exact Hloop |]. split.
        - rewrite Hcands, Hlog.
          destruct progress_range as [[s' e'] |]; [| reflexivity].
          unfold reported. cbn [filter].
          destruct (Z.eqb (index mod 4) 0); cbn [map rev app];
            [now rewrite <- app_assoc | reflexivity].
        - destruct res as [ts | e1]; [now rewrite Hres |].
          destruct Hres as (index' & rest' & -> & Hraise).
          now exists index', rest'. }
      destruct progress_range as [r |].
      * subst r. unfold reported in Hnext. cbn [filter] in Hnext.
        destruct (Z.eqb (index mod 4) 0).
        -- match goal with
           | |- context [bind ?c _ w] =>
               assert (Hcall : exists w1,
                         c w = (Ok tt, w1) /\
                         candidates w1 = interpolated s e index :: candidates w)
           end.
           { rewrite (bind_lift_ok _ _ _ _ (py_div_ok _ _ divisor_nonzero)).
             exact (Hcb _ w). }
           destruct Hcall as (w1 & Hrun & Hlog).
           rewrite (bind_ok _ _ _ _ _ Hrun). apply Hnext. exact Hlog.
        -- rewrite bind_ret. apply Hnext. reflexivity.
      * rewrite bind_ret. apply Hnext. reflexivity.
    + assert (Estep : math_exp (- damping
                                 * (duration * inject_Z index
                                    / inject_Z (Z.max (points - 1) 1)))
                      = Raise e0) by exact Eexp.
      exists (Raise e0), w, []. split; [now rewrite Estep |]. split.
      * destruct progress_range as [[s' e'] |]; reflexivity.
      * exists index, rest. split; [reflexivity | exact Eexp].
Qed.

(** Without a callback the loop appends [sample_point] of each index, for
    the value of the exponential and two numbers the generator returned. *)
Lemma time_series_loop_points (U : Q -> Prop)
    (duration frequency damping base amplitude : Q) :
  (forall st, U (fst (random st))) -> ~ duration == 0 ->
  forall (indices : list Z) (rng : rng_state),
  decays math_exp damping duration indices = true ->
  exists new,
    (forall acc w0,
      time_series_loop random math_sin math_exp math_pi indices rng
        duration frequency damping base amplitude None None 0 0 acc w0
      = (Ok (acc ++ new), w0)) /\
    Forall2
      (fun index p =>
         exists decay r1 r2,
           math_exp (decay_argument damping duration index) = Ok decay /\
           U r1 /\ U r2 /\
           p = sample_point math_sin math_pi
                 duration frequency base amplitude index decay r1 r2)
      indices new.
Proof.
  intros HU Hd. induction indices as [| index rest IH]; intros rng Hdec.
  - exists []. split; [| constructor].
    intros acc w0. now rewrite app_nil_r.
  - rewrite decays_cons in Hdec.
    destruct (math_exp (decay_argument damping duration index))
      as [decay | e0] eqn:Eexp; [| discriminate Hdec].
    assert (Estep : math_exp (- damping
                               * (duration * inject_Z index
                                  / inject_Z (Z.max (points - 1) 1)))
                    = Ok decay) by exact Eexp.
    unfold uniform in *.
    pose proof (HU rng) as Hr1.
    destruct (random rng) as [r1 rng1] eqn:E1. cbn [fst] in Hr1.
    pose proof (HU rng1) as Hr2.
    destruct (random rng1) as [r2 rng2] eqn:E2. cbn [fst] in Hr2.
    destruct (IH rng2 Hdec) as (new & Hpure & Hall).
    exists (sample_point math_sin math_pi
              duration frequency base amplitude index decay r1 r2 :: new).
    split.
    + intros acc w0. cbn [time_series_loop].
      rewrite (bind_lift_ok _ _ _ _ (py_div_ok _ _ divisor_nonzero)).
      rewrite (bind_lift_ok _ _ _ _ (py_div_ok _ _ Hd)).
      rewrite (bind_lift_ok _ _ _ _ Estep).
      unfold uniform. rewrite E1.
      rewrite (bind_lift_ok _ _ _ _ (py_div_ok _ _ Hd)).
      rewrite E2. rewrite bind_ret. rewrite Hpure.
      rewrite <- app_assoc. reflexivity.
    + constructor; [| exact Hall]. exists decay, r1, r2. repeat split; assumption.
Qed.

(** The samples of a returned time series, index by index. *)
Lemma build_time_series_points (U : Q -> Prop) (job_id : string)
    (payload : SimulationRequest.t) (max_stress : option Q)
    (ts : list TimePoint.t) :
  (forall st, U (fst (random st))) ->
  (forall w0,
    _build_time_series Random random math_sin math_exp math_pi job_id payload
      max_stress None None w0 = (Ok ts, w0)) ->
  Forall2
    (fun index p =>
       exists decay r1 r2,
         math_exp
           (decay_argument (py_or (SimulationRequest.dampingRatio payload) 0.05)
              (py_or (SimulationRequest.duration payload) 10.0) index)
         = Ok decay /\
         U r1 /\ U r2 /\
         p = sample_point math_sin math_pi
               (py_or (SimulationRequest.duration payload) 10.0)
               (py_or (SimulationRequest.frequency payload) 1.0)
               (py_or max_stress 100.0 * 0.35)
               (py_or max_stress 100.0 * 0.65) index decay r1 r2)
    (range points) ts.
Proof.
  intros HU Hpure.
  assert (Hd : ~ py_or (SimulationRequest.duration payload) 10.0 == 0).
  { apply py_or_nonzero. vm_compute. discriminate. }
  assert (Hdef : series_defined math_exp payload = true).
  { destruct (build_time_series_outcome Random random math_sin math_exp math_pi
                job_id payload max_stress) as (res & Hres & Hout).
    specialize (Hres (world_of (create_job job_id))).
    rewrite (Hpure (world_of (create_job job_id))) in Hres.
    injection Hres as <-. apply Hout. }
  destruct (time_series_loop_points U _
              (py_or (SimulationRequest.frequency payload) 1.0)
              (py_or (SimulationRequest.dampingRatio payload) 0.05)
              (py_or max_stress 100.0 * 0.35) (py_or max_stress 100.0 * 0.65)
              HU Hd (range points) (Random job_id) Hdef)
    as (new & Hloop & Hall).
  specialize (Hpure (world_of (create_job job_id))).
  unfold _build_time_series in Hpure. rewrite (Hloop []) in Hpure.
  cbn [app] in Hpure. injection Hpure as <-. exact Hall.
Qed.

End SeriesFacts.

Lemma Forall2_with_members {A B : Type} (P : A -> B -> Prop) (l1 : list A) (l2 : list B) :
  Forall2 P l1 l2 -> Forall2 (fun a b => In a l1 /\ P a b) l1 l2.
Proof.
  induction 1 as [| a b l1 l2 Hab Hrest IH].
  - constructor.
  - constructor; [split; [now left | exact Hab] |].
    eapply Forall2_impl; [| exact IH].
    cbn. intros x y [Hin Hxy]. split; [now right | exact Hxy].
Qed.

Lemma Forall2_right {A B : Type} (P : B -> Prop) (l1 : list A) (l2 : list B) :
  Forall2 (fun _ b => P b) l1 l2 -> Forall P l2.
Proof. induction 1; constructor; assumption. Qed.

Lemma StronglySorted_map_monotone (f : Z -> Z) (l : list Z) :
  (forall i j, (i <= j)%Z -> (f i <= f j)%Z) ->
  StronglySorted Z.le l -> StronglySorted Z.le (map f l).
Proof.
  intros Hf. induction 1 as [| a l Hl IH Ha]; cbn [map].
  - constructor.
  - constructor; [exact IH |]. apply Forall_map.
    eapply Forall_impl; [| exact Ha]. cbn. intros b Hab. now apply Hf.
Qed.

Lemma sample_ratio (duration : Q) (index : Z) :
  ~ duration == 0 ->
  sample_time duration index / duration == inject_Z index / 39.
Proof.
  intro Hd. unfold sample_time.
  change (inject_Z (Z.max (points - 1) 1)) with 39. field. exact Hd.
Qed.

Section SeriesProperties.

Context {rng_state : Type}.
Variable Random : string -> rng_state.
Variable random : rng_state -> Q * rng_state.
Variable math_sin : Q -> Q.
Variable math_exp : Q -> result Q.
Variable math_pi : Q.

(** The candidates a recording callback receives from the generator. *)
Lemma build_time_series_reports (cb : Z -> M unit) (job_id : string)
    (payload : SimulationRequest.t) (max_stress : option Q)
    (progress_range : option (Z * Z)) (w : World) :
  records cb ->
  exists res w' done,
    _build_time_series Random random math_sin math_exp math_pi job_id payload
      max_stress (Some cb) progress_range w = (res, w') /\
    candidates w'
    = (rev (reported progress_range done) ++ candidates w)%list /\
    match res with
    | Ok _ => done = range points
    | Raise e0 =>
        exists index rest,
          range points = (done ++ index :: rest)%list /\
          math_exp
            (decay_argument (py_or (SimulationRequest.dampingRatio payload) 0.05)
               (py_or (SimulationRequest.duration payload) 10.0) index)
          = Raise e0
    end.
Proof.
  intro Hcb.
  assert (Hd : ~ py_or (SimulationRequest.duration payload) 10.0 == 0).
  { apply py_or_nonzero. vm_compute. discriminate. }
  unfold _build_time_series.
  destruct progress_range as [[s e] |].
  - apply time_series_loop_reports; [exact Hcb | exact Hd | reflexivity].
  - apply time_series_loop_reports; [exact Hcb | exact Hd | exact I].
Qed.

(** X7.  Given the throttle as callback and a range from [s] to [e], the
    time-series generator reports progress at the samples 0, 4, 8, ... of
    those it gets through, in that order, each time with the integer part
    of [s + (e - s) * index / 39]; when [s <= e] these candidates lie
    between [s] and [e] and never decrease.  When [math.exp] returns at
    each sample the generator gets through all forty and reports ten
    times, at the samples 0, 4, ..., 36; when [math.exp] raises, it stops
    before the first sample at which it does.  Without a range it reports
    nothing, whatever the callback. *)
Theorem series_progress_reports (job_id : string) (payload : SimulationRequest.t)
    (max_stress : option Q) (clock : nat -> Q) (s e : Z) (w : World) :
  exists res w' done res0 w0,
    _build_time_series Random random math_sin math_exp math_pi job_id payload
      max_stress (Some (set_progress clock)) (Some (s, e)) w = (res, w') /\
    candidates w'
    = (rev (map (interpolated s e)
              (filter (fun index => Z.eqb (index mod 4) 0) done))
       ++ candidates w)%list /\
    (exists rest, range points = (done ++ rest)%list) /\
    (series_defined math_exp payload = true ->
     (exists ts, res = Ok ts) /\
     done = range points /\
     filter (fun index => Z.eqb (index mod 4) 0) done
     = [0; 4; 8; 12; 16; 20; 24; 28; 32; 36]%Z) /\
    (series_defined math_exp payload = false ->
     exists e0 index rest,
       res = Raise e0 /\
       range points = (done ++ index :: rest)%list /\
       math_exp
         (decay_argument (py_or (SimulationRequest.dampingRatio payload) 0.05)
            (py_or (SimulationRequest.duration payload) 10.0) index)
       = Raise e0) /\
    ((s <= e)%Z ->
     Forall (fun c => (s <= c <= e)%Z)
       (map (interpolated s e)
          (filter (fun index => Z.eqb (index mod 4) 0) done)) /\
     StronglySorted Z.le
       (map (interpolated s e)
          (filter (fun index => Z.eqb (index mod 4) 0) done))) /\
    _build_time_series Random random math_sin math_exp math_pi job_id payload
      max_stress (Some (set_progress clock)) None w = (res0, w0) /\
    candidates w0 = candidates w.
Proof.
  destruct (build_time_series_reports (set_progress clock) job_id payload
              max_stress (Some (s, e)) w (set_progress_records clock))
    as (res & w' & done & Hrun & Hcands & Hres).
  destruct (build_time_series_reports (set_progress clock) job_id payload
              max_stress None w (set_progress_records clock))
    as (res0 & w0 & done0 & Hrun0 & Hcands0 & _).
  destruct (build_time_series_run Random random math_sin math_exp math_pi
              (fun _ => True) job_id payload max_stress
              (Some (set_progress clock)) (Some (s, e)) w
              (set_progress_total clock) I)
    as (res' & w'' & Hrun' & _ & _ & Hout).
  rewrite Hrun in Hrun'. injection Hrun' as <- _.
  cbn [reported rev app] in Hcands0. unfold reported in Hcands.
  assert (Hprefix : exists rest, range points = (done ++ rest)%list).
  { destruct res as [ts | e0].
    - exists []. now rewrite Hres, app_nil_r.
    - destruct Hres as (index & rest & Hsplit & _). now exists (index :: rest). }
  exists res, w', done, res0, w0.
  split; [exact Hrun |]. split; [exact Hcands |]. split; [exact Hprefix |].
  split; [| split; [| split; [| split; [exact Hrun0 | exact Hcands0]]]].
  - intro Hdef. destruct res as [ts | e0]; cbn [series_outcome] in Hout.
    + split; [now exists ts |]. split; [exact Hres |]. now rewrite Hres.
    + destruct Hout as [Hno _]. congruence.
  - intro Hdef. destruct res as [ts | e0]; cbn [series_outcome] in Hout.
    + destruct Hout as [Hyes _]. congruence.
    + destruct Hres as (index & rest & Hsplit & Hraise).
      now exists e0, index, rest.
  - intro Hse. destruct Hprefix as [rest Hsplit]. split.
    + apply Forall_map. apply Forall_forall. intros index Hin.
      apply interpolated_bounds; [exact Hse |].
      apply range_members. rewrite Hsplit. apply in_or_app. left.
      apply filter_In in Hin. apply Hin.
    + apply StronglySorted_map_monotone.
      * intros i j. now apply interpolated_monotone.
      * apply StronglySorted_filter.
        apply (StronglySorted_prefix Z.le done rest).
        rewrite <- Hsplit. apply range_sorted.
Qed.

(** X8.  With numbers drawn from the unit interval, and [math.exp]
    returning at each sample, the displacement of sample [index] is never
    negative and lies within 0.002 of the ramp [0.2 * index / 39]; no
    displacement exceeds 0.202. *)
Theorem displacement_follows_the_ramp (job_id : string)
    (payload : SimulationRequest.t) (max_stress : option Q) (clock : nat -> Q)
    (progress_range : option (Z * Z)) (w : World) :
  unit_interval random ->
  series_defined math_exp payload = true ->
  exists ts w',
    _build_time_series Random random math_sin math_exp math_pi job_id payload
      max_stress (Some (set_progress clock)) progress_range w = (Ok ts, w') /\
    Forall2
      (fun index p =>
         0 <= TimePoint.displacement p /\
         0.2 * (inject_Z index / 39) - 0.002 <= TimePoint.displacement p /\
         TimePoint.displacement p <= 0.2 * (inject_Z index / 39) + 0.002 /\
         TimePoint.displacement p <= 0.202)
      (range points) ts.
Proof.
  intros Hunit Hdef.
  destruct (build_time_series_defined Random random math_sin math_exp math_pi
              (fun _ => True) job_id payload max_stress
              (Some (set_progress clock)) progress_range w
              (set_progress_total clock) I Hdef)
    as (ts & w' & Hrun & _ & Hpure & _).
  exists ts, w'. split; [exact Hrun |].
  pose proof (build_time_series_points Random random math_sin math_exp math_pi
                (fun r => 0 <= r /\ r < 1) job_id payload max_stress ts
                Hunit Hpure) as Hall.
  apply Forall2_with_members in Hall.
  eapply Forall2_impl; [| exact Hall].
  intros index p (Hin & decay & r1 & r2 & _ & _ & [Hr0 Hr1] & ->).
  apply range_members in Hin.
  assert (Hd : ~ py_or (SimulationRequest.duration payload) 10.0 == 0).
  { apply py_or_nonzero. vm_compute. discriminate. }
  pose proof (sample_ratio _ index Hd) as Hratio.
  assert (Hi : 0 <= inject_Z index / 39 /\ inject_Z index / 39 <= 1).
  { assert (0 <= inject_Z index).
    { change 0 with (inject_Z 0). rewrite <- Zle_Qle. lia. }
    assert (inject_Z index <= 39).
    { change 39 with (inject_Z 39). rewrite <- Zle_Qle. unfold points in Hin. lia. }
    split; [apply Qle_shift_div_l | apply Qle_shift_div_r]; lra. }
  unfold sample_point. cbn [TimePoint.displacement].
  set (ratio := sample_time (py_or (SimulationRequest.duration payload) 10.0) index
                / py_or (SimulationRequest.duration payload) 10.0) in *.
  set (ramp := inject_Z index / 39) in *.
  match goal with
  | |- context [py_max ?x 0.0] =>
      destruct (py_max_cases x 0.0) as [[-> Hx] | [-> Hx]]
  end; repeat split; lra.
Qed.

(** X9.  With numbers drawn from the unit interval, a sine between -1 and
    1, an exponential that returns a value between 0 and 1 on the
    non-positive numbers, a positive duration, a non-negative damping ratio
    and a non-negative baseline stress, the generator returns and every
    stress of the time series lies between 0 and 1.0195 times the
    baseline. *)
Theorem series_stress_bounded (job_id : string) (payload : SimulationRequest.t)
    (max_stress : option Q) (clock : nat -> Q)
    (progress_range : option (Z * Z)) (w : World) :
  unit_interval random ->
  (forall x, -1 <= math_sin x /\ math_sin x <= 1) ->
  (forall x, x <= 0 -> exists y, math_exp x = Ok y /\ 0 <= y /\ y <= 1) ->
  0 < py_or (SimulationRequest.duration payload) 10.0 ->
  0 <= py_or (SimulationRequest.dampingRatio payload) 0.05 ->
  0 <= py_or max_stress 100.0 ->
  exists ts w',
    _build_time_series Random random math_sin math_exp math_pi job_id payload
      max_stress (Some (set_progress clock)) progress_range w = (Ok ts, w') /\
    Forall
      (fun p =>
         0 <= TimePoint.stress p /\
         TimePoint.stress p <= 1.0195 * py_or max_stress 100.0)
      ts.
Proof.
  intros Hunit Hsin Hexp Hduration Hdamping Hbase.
  assert (Hdef : series_defined math_exp payload = true).
  { apply (series_defined_below math_exp payload 0); [lra | | nra].
    intros x Hx. destruct (Hexp x Hx) as (y & Hy & _). now exists y. }
  destruct (build_time_series_defined Random random math_sin math_exp math_pi
              (fun _ => True) job_id payload max_stress
              (Some (set_progress clock)) progress_range w
              (set_progress_total clock) I Hdef)
    as (ts & w' & Hrun & _ & Hpure & _).
  exists ts, w'. split; [exact Hrun |].
  pose proof (build_time_series_points Random random math_sin math_exp math_pi
                (fun r => 0 <= r /\ r < 1) job_id payload max_stress ts
                Hunit Hpure) as Hall.
  apply Forall2_with_members in Hall.
  apply (Forall2_right _ (range points)).
  eapply Forall2_impl; [| exact Hall].
  intros index p (Hin & ex & r1 & r2 & Hex & [Hr0 Hr1] & _ & ->).
  apply range_members in Hin.
  unfold sample_point. cbn [TimePoint.stress].
  set (d := py_or (SimulationRequest.duration payload) 10.0) in *.
  set (damping := py_or (SimulationRequest.dampingRatio payload) 0.05) in *.
  set (b := py_or max_stress 100.0) in *.
  assert (Htime : 0 <= sample_time d index).
  { unfold sample_time. change (inject_Z (Z.max (points - 1) 1)) with 39.
    assert (0 <= inject_Z index).
    { change 0 with (inject_Z 0). rewrite <- Zle_Qle. lia. }
    apply Qle_shift_div_l; [lra | nra]. }
  assert (Harg : decay_argument damping d index <= 0).
  { unfold decay_argument. nra. }
  destruct (Hexp _ Harg) as (y & Hy & He0 & He1).
  rewrite Hy in Hex. injection Hex as <-.
  match goal with
  | |- context [math_sin ?x] => destruct (Hsin x) as [Hs0 Hs1]; set (so := math_sin x) in *
  end.
  assert (Hprod : so * y <= 1) by nra.
  assert (Hprod' : -1 <= so * y) by nra.
  assert (Hosc : b * 0.65 * so * y <= b * 0.65) by nra.
  match goal with
  | |- context [py_max ?x 0.0] =>
      destruct (py_max_cases x 0.0) as [[-> Hx] | [-> Hx]]
  end; split; nra.
Qed.

(** X15.  With an empty reference curve the fallback result, which the
    synthesizer returns when [math.exp] returns at each sample, reports a
    maxStress of 0, and its time series is the one of the default baseline
    stress 100: a zero maximum stress counts as absent. *)
Theorem empty_curve_series_uses_default_baseline (job_id : string)
    (payload : SimulationRequest.t) (clock : nat -> Q) (w : World) :
  reference_curve payload = [] ->
  series_defined math_exp payload = true ->
  exists r w',
    _build_stub_results Random random math_sin math_exp math_pi job_id payload
      (Some (set_progress clock)) w = (Ok r, w') /\
    Results.maxStress r = 0.0 /\
    forall w0,
      _build_time_series Random random math_sin math_exp math_pi job_id payload
        None None None w0 = (Ok (Results.timeSeriesData r), w0).
Proof.
  intros Hempty Hdef.
  destruct (build_stub_results_defined Random random math_sin math_exp math_pi
              (fun _ => True) job_id payload (Some (set_progress clock)) w
              (set_progress_total clock) I Hdef)
    as (r & w' & Hrun & _ & _ & Hparts).
  exists r, w'. split; [exact Hrun |].
  destruct Hparts as [Hcurve _ Hmax _ _ _ _ _ _ Hseries _ _ _ _ _ _ _].
  assert (Hgen : _build_stress_strain_curve Random random job_id payload None
                 = Ok [CurvePoint.mk 0.0 0.0]).
  { unfold _build_stress_strain_curve. unfold reference_curve in Hempty.
    now rewrite Hempty. }
  rewrite Hgen in Hcurve. injection Hcurve as Ecurve.
  rewrite <- Ecurve in Hmax. cbn in Hmax. injection Hmax as Emax.
  split; [now symmetry |].
  intro w0. rewrite <- (Hseries w0). rewrite <- Emax. reflexivity.
Qed.

End SeriesProperties.

(** X7, witness: the steel request reports ten times between 70 and 95,
    and with a damping ratio of -100 seven times, for the samples 0 to 24. *)
Lemma steel_series_reports :
  (exists ts w',
     _build_time_series Demo.Random Demo.random Demo.sin Demo.exp Demo.pi "job-1"
       Demo.request None (Some (set_progress Demo.clock)) (Some (70%Z, 95%Z))
       (submitted "job-1") = (Ok ts, w') /\
     candidates w' = [93; 90; 87; 85; 82; 80; 77; 75; 72; 70]%Z) /\
  (exists e0 w',
     _build_time_series Demo.Random Demo.random Demo.sin Demo.exp Demo.pi "job-1"
       Demo.overdamped None (Some (set_progress Demo.clock)) (Some (70%Z, 95%Z))
       (submitted "job-1") = (Raise e0, w') /\
     candidates w' = [85; 82; 80; 77; 75; 72; 70]%Z).
Proof.
  split.
  - destruct (series_progress_reports Demo.Random Demo.random Demo.sin Demo.exp
                Demo.pi "job-1" Demo.request None Demo.clock 70 95
                (submitted "job-1"))
      as (res & w' & done & _ & _ & Hrun & Hcands & _ & Hdef & _).
    destruct (Hdef steel_series_defined) as ([ts ->] & _ & Hten).
    exists ts, w'. split; [exact Hrun |].
    rewrite Hcands, Hten. reflexivity.
  - destruct (series_progress_reports Demo.Random Demo.random Demo.sin Demo.exp
                Demo.pi "job-1" Demo.overdamped None Demo.clock 70 95
                (submitted "job-1"))
      as (res & w' & done & _ & _ & Hrun & Hcands & _ & _ & Hundef & _).
    destruct (Hundef overdamped_series_undefined) as (e0 & index & rest & -> & _).
    exists e0, w'. split; [exact Hrun |].
    transitivity
      (candidates
         (snd (_build_time_series Demo.Random Demo.random Demo.sin Demo.exp
                 Demo.pi "job-1" Demo.overdamped None
                 (Some (set_progress Demo.clock)) (Some (70%Z, 95%Z))
                 (submitted "job-1")))).
    + now rewrite Hrun.
    + vm_compute. reflexivity.
Defined.

(** X8, witness: the vibration request under the demonstration generator. *)
Lemma vibration_displacement_ramp :
  exists ts w',
    _build_time_series Demo.Random Demo.random Demo.sin Demo.exp Demo.pi "job-1"
      Demo.vibration (Some 100.0) (Some (set_progress Demo.clock))
      (Some (70%Z, 95%Z)) (submitted "job-1") = (Ok ts, w') /\
    Forall2
      (fun index p =>
         0 <= TimePoint.displacement p /\
         0.2 * (inject_Z index / 39) - 0.002 <= TimePoint.displacement p /\
         TimePoint.displacement p <= 0.2 * (inject_Z index / 39) + 0.002 /\
         TimePoint.displacement p <= 0.202)
      (range points) ts.
Proof.
  exact (displacement_follows_the_ramp Demo.Random Demo.random Demo.sin Demo.exp
           Demo.pi "job-1" Demo.vibration (Some 100.0) Demo.clock
           (Some (70%Z, 95%Z)) (submitted "job-1") demo_random_unit_interval
           vibration_series_defined).
Defined.

(** X9, witness: the vibration request with a bounded sine and exponential. *)
Lemma vibration_stress_bounded :
  exists ts w',
    _build_time_series Demo.Random Demo.random Demo.flat_sin Demo.flat_exp
      Demo.pi "job-1" Demo.vibration (Some 100.0)
      (Some (set_progress Demo.clock)) (Some (70%Z, 95%Z)) (submitted "job-1")
    = (Ok ts, w') /\
    Forall
      (fun p =>
         0 <= TimePoint.stress p /\
         TimePoint.stress p <= 1.0195 * py_or (Some 100.0) 100.0)
      ts.
Proof.
  apply (series_stress_bounded Demo.Random Demo.random Demo.flat_sin
           Demo.flat_exp Demo.pi "job-1" Demo.vibration (Some 100.0) Demo.clock
           (Some (70%Z, 95%Z)) (submitted "job-1") demo_random_unit_interval).
  - intro x. unfold Demo.flat_sin. split; vm_compute; discriminate.
  - intros x _. exists 1. unfold Demo.flat_exp.
    split; [reflexivity | split; vm_compute; discriminate].
  - vm_compute. reflexivity.
  - vm_compute. discriminate.
  - vm_compute. discriminate.
Defined.

(** X15, witness: the request without a reference curve. *)
Lemma bare_request_series_baseline :
  exists r w',
    _build_stub_results Demo.Random Demo.random Demo.sin Demo.exp Demo.pi
      "job-1" Demo.bare (Some (set_progress Demo.clock)) (submitted "job-1")
    = (Ok r, w') /\
    Results.maxStress r = 0.0 /\
    forall w0,
      _build_time_series Demo.Random Demo.random Demo.sin Demo.exp Demo.pi
        "job-1" Demo.bare None None None w0
      = (Ok (Results.timeSeriesData r), w0).
Proof.
  exact (empty_curve_series_uses_default_baseline Demo.Random Demo.random
           Demo.sin Demo.exp Demo.pi "job-1" Demo.bare Demo.clock
           (submitted "job-1") eq_refl bare_series_defined).
Defined.

(** *** The sleeps of the throttle *)

(** What one call of [set_progress] does to the clock and the sleeps. *)
Lemma set_progress_naps (clock : nat -> Q) (value : Z) (w : World) :
  exists w',
    set_progress clock value w = (Ok tt, w') /\
    clock_reads w' = S (S (clock_reads w)) /\
    last_tick w' = clock (S (clock_reads w)) /\
    slept w' =
      (if Qltb (clock (clock_reads w) - last_tick w) min_tick_seconds
       then (min_tick_seconds - (clock (clock_reads w) - last_tick w)) :: slept w
       else slept w).
Proof.
  unfold set_progress, bind, log_candidate, read, monotonic, mutate,
    set_last_progress, set_last_tick. cbn.
  destruct (Qltb (clock (clock_reads w) - last_tick w) min_tick_seconds);
    cbn; eexists; repeat split.
Qed.

(** The sleeps are positive, and at most the minimum tick when the clock
    never runs backwards. *)
Definition napping (clock : nat -> Q) (w : World) : Prop :=
  Forall (fun d => 0 < d) (slept w) /\
  ((forall n, clock n <= clock (S n)) ->
   (exists k, (k < clock_reads w)%nat /\ last_tick w = clock k) /\
   Forall (fun d => d <= min_tick_seconds) (slept w)).

Lemma clock_monotone (clock : nat -> Q) (k n : nat) :
  (forall m, clock m <= clock (S m)) -> (k <= n)%nat -> clock k <= clock n.
Proof.
  intros Hstep Hkn. induction Hkn as [| n Hkn IH]; [lra |].
  pose proof (Hstep n). lra.
Qed.

Lemma set_progress_napping (clock : nat -> Q) :
  preserves (napping clock) (set_progress clock).
Proof.
  intros v w [Hpos Hmono].
  destruct (set_progress_naps clock v w) as (w' & Hrun & Hreads & Htick & Hslept).
  exists w'. split; [exact Hrun |].
  assert (Hcase : slept w' = slept w \/
            exists d, slept w' = d :: slept w /\
              d = min_tick_seconds - (clock (clock_reads w) - last_tick w) /\
              clock (clock_reads w) - last_tick w < min_tick_seconds).
  { rewrite Hslept.
    destruct (Qltb (clock (clock_reads w) - last_tick w) min_tick_seconds) eqn:E.
    - right. eexists. split; [reflexivity |]. split; [reflexivity |].
      now apply Qltb_true.
    - now left. }
  split.
  - destruct Hcase as [-> | (d & -> & -> & Hlt)]; [exact Hpos |].
    constructor; [lra | exact Hpos].
  - intro Hstep. destruct (Hmono Hstep) as [(k & Hk & Hlast) Hcap]. split.
    + exists (S (clock_reads w)). split; [lia | exact Htick].
    + destruct Hcase as [-> | (d & -> & -> & Hlt)]; [exact Hcap |].
      constructor; [| exact Hcap].
      pose proof (clock_monotone clock k (clock_reads w) Hstep) as Hle.
      rewrite Hlast. assert (clock k <= clock (clock_reads w)) by (apply Hle; lia).
      lra.
Qed.

Section Sleeps.

Context {rng_state : Type}.
Variable Random : string -> rng_state.
Variable random : rng_state -> Q * rng_state.
Variable math_sin : Q -> Q.
Variable math_exp : Q -> result Q.
Variable math_pi : Q.
Variable time_monotonic : nat -> Q.
Variable dolfin : SimulationRequest.t -> Z -> DolfinRun.

(** An invariant of the throttle that the terminal writes keep holds when
    [_run_job] returns and when an exception leaves it. *)
Lemma run_job_keeps (I : World -> Prop) (job_id : string)
    (payload : SimulationRequest.t) :
  preserves I (set_progress time_monotonic) ->
  (forall r w, I w -> I (commit r w)) ->
  I (mkWorld (create_job job_id) [create_job job_id] 5 (time_monotonic 0) 1 [] []) ->
  exists out w,
    _run_job Random random math_sin math_exp math_pi time_monotonic dolfin
      job_id payload (submitted job_id) = (out, w) /\
    I w.
Proof.
  intros Hpres Hcommit Hinit. unfold _run_job.
  do 4 (erewrite bind_ok by reflexivity).
  match goal with
  | |- context [try_except _ _ ?w] =>
      assert (Hw0 : I w) by exact Hinit; set (w0 := w) in *; clearbody w0
  end.
  destruct (Hpres 8%Z w0 Hw0) as (w_call & Hstart & Hcall).
  destruct (solve_with_fenics_run Random random math_sin math_exp math_pi dolfin
              I job_id payload (Some (set_progress time_monotonic))
              w_call Hpres Hcall)
    as (res & w_ret & Hsolve & Hret & _ & _).
  unfold try_except. rewrite (bind_ok _ _ _ _ _ Hstart).
  destruct res as [r | e].
  - rewrite (bind_ok _ _ _ _ _ Hsolve).
    exists (Ok tt), (commit r w_ret). split; [reflexivity | now apply Hcommit].
  - rewrite (bind_raise _ _ _ _ _ Hsolve).
    destruct (Hpres 70%Z w_ret Hret) as (w_fall & Hseventy & Hfall).
    rewrite (bind_ok _ _ _ _ _ Hseventy).
    destruct (build_stub_results_run Random random math_sin math_exp math_pi
                I job_id payload (Some (set_progress time_monotonic))
                w_fall Hpres Hfall)
      as (out & w_run & Hstub & Hrun & _ & _).
    destruct out as [r0 | e1].
    + rewrite (bind_ok _ _ _ _ _ Hstub).
      exists (Ok tt), (commit (Results.set_warning warning_text r0) w_run).
      split; [reflexivity | now apply Hcommit].
    + rewrite (bind_raise _ _ _ _ _ Hstub).
      exists (Raise e1), w_run. split; [reflexivity | exact Hrun].
Qed.

(** X10.  Over a whole job, whether it returns or an exception leaves it,
    every argument the throttle passes to [time.sleep] is positive, so the
    call cannot be refused as negative; when the clock never runs backwards
    no sleep exceeds the minimum tick of half a second. *)
Theorem throttle_sleeps_are_positive (job_id : string)
    (payload : SimulationRequest.t) :
  exists out w,
    _run_job Random random math_sin math_exp math_pi time_monotonic dolfin
      job_id payload (submitted job_id) = (out, w) /\
    Forall (fun d => 0 < d) (slept w) /\
    ((forall n, time_monotonic n <= time_monotonic (S n)) ->
     Forall (fun d => d <= 0.5) (slept w)).
Proof.
  destruct (run_job_keeps (napping time_monotonic) job_id payload)
    as (out & w & Hrun & Hpos & Hmono).
  - apply set_progress_napping.
  - intros r w H. exact H.
  - split; [constructor |]. intros _. split; [| constructor].
    exists 0%nat. split; [cbn; lia | reflexivity].
  - exists out, w. split; [exact Hrun |]. split; [exact Hpos |].
    intro Hstep. apply (Hmono Hstep).
Qed.

End Sleeps.

(** X10, witness: with a clock that advances by a tenth of a second a
    reading the throttle sleeps before each update, between 0 and half a
    second each time. *)
Lemma fast_clock_sleeps :
  exists out w,
    _run_job Demo.Random Demo.random Demo.sin Demo.exp Demo.pi Demo.fast_clock
      Demo.solver_fails "job-1" Demo.request (submitted "job-1") = (out, w) /\
    slept w <> [] /\
    Forall (fun d => 0 < d) (slept w) /\
    Forall (fun d => d <= 0.5) (slept w).
Proof.
  destruct (throttle_sleeps_are_positive Demo.Random Demo.random Demo.sin Demo.exp
              Demo.pi Demo.fast_clock Demo.solver_fails "job-1" Demo.request)
    as (out & w & Hrun & Hpos & Hcap).
  exists out, w. split; [exact Hrun |]. split; [| split; [exact Hpos |]].
  - assert (Hslept : List.length (slept w) = 12%nat).
    { transitivity
        (List.length
           (slept (snd (_run_job Demo.Random Demo.random Demo.sin Demo.exp Demo.pi
                          Demo.fast_clock Demo.solver_fails "job-1" Demo.request
                          (submitted "job-1"))))).
      - now rewrite Hrun.
      - vm_compute. reflexivity. }
    intro Hnil. rewrite Hnil in Hslept. discriminate Hslept.
  - apply Hcap. intro n. unfold Demo.fast_clock, Qdiv.
    apply Qmult_le_compat_r; [| vm_compute; discriminate].
    rewrite <- Zle_Qle. lia.
Defined.

(** *** The unthrottled updater *)









(** *** The job store and the endpoints *)

Lemma jobs_get_set_same (jobs : JobStore) (job_id : string) (status : JobStatus.t) :
  jobs_get (jobs_set jobs job_id status) job_id = Some status.
Proof.
  induction jobs as [| [k s] rest IH]; cbn [jobs_set jobs_get].
  - now rewrite String.eqb_refl.
  - destruct (String.eqb k job_id) eqn:E; cbn [jobs_get]; rewrite E; auto.
Qed.

Lemma jobs_get_set_other (jobs : JobStore) (job_id other : string)
    (status : JobStatus.t) :
  other <> job_id ->
  jobs_get (jobs_set jobs job_id status) other = jobs_get jobs other.
Proof.
  intro Hne. induction jobs as [| [k s] rest IH]; cbn [jobs_set jobs_get].
  - destruct (String.eqb_spec job_id other) as [E | E]; [congruence | reflexivity].
  - destruct (String.eqb_spec k job_id) as [E | E]; cbn [jobs_get].
    + subst k. destruct (String.eqb_spec job_id other) as [E' | E'];
        [congruence | reflexivity].
    + destruct (String.eqb k other); [reflexivity | exact IH].
Qed.

Lemma submit_all_lookup (requests : list (string * SimulationRequest.t))
    (jobs : JobStore) (job_id : string) :
  jobs_get (submit_all jobs requests) job_id =
    if existsb (String.eqb job_id) (map fst requests)
    then Some (JobStatus.mk job_id "running" 5 None None)
    else jobs_get jobs job_id.
Proof.
  revert jobs. induction requests as [| [k p] rest IH]; intro jobs.
  - reflexivity.
  - cbn [submit_all fold_left map existsb fst snd].
    change (fold_left _ rest ?js) with (submit_all js rest).
    rewrite IH. unfold Endpoint.create_job. cbn [fst].
    destruct (existsb (String.eqb job_id) (map fst rest)); [now rewrite orb_true_r |].
    rewrite orb_false_r.
    destruct (String.eqb_spec job_id k) as [E | E].
    + subst k. apply jobs_get_set_same.
    + now apply jobs_get_set_other.
Qed.

(** X12.  After any sequence of submissions to an empty store, [get_job]
    finds a job exactly when it was submitted: it then returns the record
    of that job, running at progress 5 without results or error, and
    otherwise raises the 404 "Job not found". *)
Theorem get_job_finds_the_submitted
    (requests : list (string * SimulationRequest.t)) (job_id : string) :
  (In job_id (map fst requests) ->
   Endpoint.get_job (submit_all [] requests) job_id
   = Respond (JobStatus.mk job_id "running" 5 None None)) /\
  (~ In job_id (map fst requests) ->
   Endpoint.get_job (submit_all [] requests) job_id
   = HTTPException 404 "Job not found").
Proof.
  unfold Endpoint.get_job. rewrite submit_all_lookup. split; intro H.
  - assert (E : existsb (String.eqb job_id) (map fst requests) = true).
    { apply existsb_exists. exists job_id. split; [exact H | apply String.eqb_refl]. }
    now rewrite E.
  - assert (E : existsb (String.eqb job_id) (map fst requests) = false).
    { destruct (existsb (String.eqb job_id) (map fst requests)) eqn:E; [| reflexivity].
      apply existsb_exists in E. destruct E as (k & Hin & Ek).
      apply String.eqb_eq in Ek. subst k. contradiction. }
    now rewrite E.
Qed.

Section EndToEnd.

Context {rng_state : Type}.
Variable Random : string -> rng_state.
Variable random : rng_state -> Q * rng_state.
Variable math_sin : Q -> Q.
Variable math_exp : Q -> result Q.
Variable math_pi : Q.
Variable time_monotonic : nat -> Q.
Variable dolfin : SimulationRequest.t -> Z -> DolfinRun.

(** X13.  Submitting a job and letting its background task run leaves the
    records of all other jobs as they were before the submission.  When
    [math.exp] returns at each sample of the request, the task returns and
    [get_job] returns the job as completed, at progress 100, without error
    and with a result: the fallback one with its warning when the solver
    path raised, the solver's otherwise.  When [math.exp] raises at a
    sample, its exception leaves the task and [get_job] keeps returning the
    job as running, without results and without error. *)
Theorem submitted_job_is_served (jobs : JobStore) (job_id : string)
    (payload : SimulationRequest.t) :
  exists res out jobs',
    (forall w0,
      _solve_with_fenics Random random math_sin math_exp math_pi dolfin
        job_id payload None w0 = (res, w0)) /\
    run_task Random random math_sin math_exp math_pi time_monotonic dolfin
      (fst (fst (Endpoint.create_job jobs job_id payload)))
      (snd (fst (Endpoint.create_job jobs job_id payload)))
    = Some (out, jobs') /\
    (series_defined math_exp payload = true ->
     exists r,
       out = Ok tt /\
       Endpoint.get_job jobs' job_id
       = Respond (JobStatus.mk job_id "completed" 100 (Some r) None) /\
       match res with
       | Raise _ =>
           Results.source r = "fallback"%string /\
           Results.warning r = Some warning_text
       | Ok r' => r = r' /\ Results.source r = "fenics"%string
       end) /\
    (series_defined math_exp payload = false ->
     exists e p,
       out = Raise e /\
       exp_raises math_exp payload e /\
       Endpoint.get_job jobs' job_id
       = Respond (JobStatus.mk job_id "running" p None None) /\
       (p <= 99)%Z) /\
    (forall other,
      other <> job_id ->
      Endpoint.get_job jobs' other = Endpoint.get_job jobs other).
Proof.
  destruct (run_job_run Random random math_sin math_exp math_pi time_monotonic
              dolfin job_id payload)
    as (w_call & res & w_ret & w_run & _ & _ & Hpure & Hrun & Hjob).
  destruct Hrun as [Hrec Hcap _ _ _ _ _].
  assert (Htask : forall out w,
            _run_job Random random math_sin math_exp math_pi time_monotonic dolfin
              job_id payload (submitted job_id) = (out, w) ->
            run_task Random random math_sin math_exp math_pi time_monotonic dolfin
              (fst (fst (Endpoint.create_job jobs job_id payload)))
              (snd (fst (Endpoint.create_job jobs job_id payload)))
            = Some
                (out,
                 jobs_set
                   (jobs_set jobs job_id
                      (JobStatus.mk job_id "running" 5 None None))
                   job_id (job w))).
  { intros out w Hout. unfold run_task, Endpoint.create_job. cbn [fst snd].
    rewrite jobs_get_set_same.
    change (world_of (JobStatus.mk job_id "running" 5 None None))
      with (submitted job_id).
    now rewrite Hout. }
  assert (Hothers : forall status other,
            other <> job_id ->
            Endpoint.get_job
              (jobs_set
                 (jobs_set jobs job_id
                    (JobStatus.mk job_id "running" 5 None None))
                 job_id status) other
            = Endpoint.get_job jobs other).
  { intros status other Hne. unfold Endpoint.get_job.
    now rewrite !jobs_get_set_other by exact Hne. }
  destruct (series_defined math_exp payload).
  - destruct Hjob as (r & Hjob & Hres).
    exists res, (Ok tt), 
      (jobs_set (jobs_set jobs job_id (JobStatus.mk job_id "running" 5 None None))
         job_id (job (commit r w_run))).
    split; [exact Hpure |]. split; [exact (Htask _ _ Hjob) |].
    split; [| split; [discriminate | apply Hothers]].
    intros _. exists r. split; [reflexivity |]. split.
    + unfold Endpoint.get_job. rewrite jobs_get_set_same.
      unfold commit. cbn [job]. rewrite Hrec. reflexivity.
    + destruct res as [r' | e].
      * destruct Hres as (-> & _ & Hparts). split; [reflexivity | apply Hparts].
      * destruct Hres as (r0 & _ & Hparts & ->). cbn.
        split; [apply Hparts | reflexivity].
  - destruct Hjob as (e & e0 & Hjob & _ & _ & Hexp).
    exists res, (Raise e),
      (jobs_set (jobs_set jobs job_id (JobStatus.mk job_id "running" 5 None None))
         job_id (job w_run)).
    split; [exact Hpure |]. split; [exact (Htask _ _ Hjob) |].
    split; [discriminate |]. split; [| apply Hothers].
    intros _. exists e, (last_progress w_run).
    split; [reflexivity |]. split; [exact Hexp |]. split; [| exact Hcap].
    unfold Endpoint.get_job. rewrite jobs_get_set_same. now rewrite Hrec.
Qed.

End EndToEnd.

(** X13, witness: the steel request is served as completed, and with a
    damping ratio of -100 it stays running at progress 85. *)
Lemma steel_job_is_served :
  (exists out jobs' r,
     run_task Demo.Random Demo.random Demo.sin Demo.exp Demo.pi Demo.clock
       Demo.solver_fails
       (fst (fst (Endpoint.create_job [] "job-1" Demo.request)))
       (snd (fst (Endpoint.create_job [] "job-1" Demo.request)))
     = Some (out, jobs') /\
     out = Ok tt /\
     Endpoint.get_job jobs' "job-1"
     = Respond (JobStatus.mk "job-1" "completed" 100 (Some r) None)) /\
  (exists out jobs' e p,
     run_task Demo.Random Demo.random Demo.sin Demo.exp Demo.pi Demo.clock
       Demo.solver_fails
       (fst (fst (Endpoint.create_job [] "job-1" Demo.overdamped)))
       (snd (fst (Endpoint.create_job [] "job-1" Demo.overdamped)))
     = Some (out, jobs') /\
     out = Raise e /\
     Endpoint.get_job jobs' "job-1"
     = Respond (JobStatus.mk "job-1" "running" p None None)).
Proof.
  split.
  - destruct (submitted_job_is_served Demo.Random Demo.random Demo.sin Demo.exp
                Demo.pi Demo.clock Demo.solver_fails [] "job-1" Demo.request)
      as (res & out & jobs' & _ & Htask & Hdef & _).
    destruct (Hdef steel_series_defined) as (r & Hout & Hget & _).
    exists out, jobs', r. split; [exact Htask |]. split; [exact Hout | exact Hget].
  - destruct (submitted_job_is_served Demo.Random Demo.random Demo.sin Demo.exp
                Demo.pi Demo.clock Demo.solver_fails [] "job-1" Demo.overdamped)
      as (res & out & jobs' & _ & Htask & _ & Hundef & _).
    destruct (Hundef overdamped_series_undefined) as (e & p & Hout & _ & Hget & _).
    exists out, jobs', e, p. split; [exact Htask |]. split; [exact Hout | exact Hget].
Defined.

(** X12, witness: two submissions, then a look-up of each and of a stranger. *)
Lemma two_jobs_submitted :
  Endpoint.get_job (submit_all [] [("a"%string, Demo.request); ("b"%string, Demo.bare)]) "b"
  = Respond (JobStatus.mk "b" "running" 5 None None) /\
  Endpoint.get_job (submit_all [] [("a"%string, Demo.request); ("b"%string, Demo.bare)]) "c"
  = HTTPException 404 "Job not found".
Proof.
  split.
  - apply (proj1 (get_job_finds_the_submitted
                    [("a"%string, Demo.request); ("b"%string, Demo.bare)] "b")).
    right. left. reflexivity.
  - apply (proj2 (get_job_finds_the_submitted
                    [("a"%string, Demo.request); ("b"%string, Demo.bare)] "c")).
    intros [H | [H | []]]; discriminate H.
Defined.

(** *** The checkpoints of a run *)

Lemma within_quiet {A : Type} (m : M A) :
  (forall w, candidates (snd (m w)) = candidates w) -> reports_within m.
Proof.
  intros H w. exists (fst (m w)), (snd (m w)), [].
  split; [apply surjective_pairing |]. split; [apply H | constructor].
Qed.

Lemma within_ret {A : Type} (a : A) : reports_within (ret a).
Proof. now apply within_quiet. Qed.

Lemma within_lift {A : Type} (r : result A) : reports_within (lift r).
Proof. now apply within_quiet. Qed.

Lemma within_read {A : Type} (f : World -> A) : reports_within (read f).
Proof. now apply within_quiet. Qed.

Lemma within_mutate (f : JobStatus.t -> JobStatus.t) : reports_within (mutate f).
Proof. now apply within_quiet. Qed.

Lemma within_set_last_progress (v : Z) : reports_within (set_last_progress v).
Proof. now apply within_quiet. Qed.

Lemma within_set_last_tick (v : Q) : reports_within (set_last_tick v).
Proof. now apply within_quiet. Qed.

Lemma within_monotonic (clock : nat -> Q) : reports_within (monotonic clock).
Proof. now apply within_quiet. Qed.

Lemma within_dolfin_stage (run : DolfinRun) (k : nat) :
  reports_within (dolfin_stage run k).
Proof.
  destruct run as [passed e | f]; cbn [dolfin_stage].
  - destruct (Nat.eqb passed k); [apply within_lift | apply within_ret].
  - apply within_ret.
Qed.

Lemma within_dolfin_fields (run : DolfinRun) : reports_within (dolfin_fields run).
Proof.
  destruct run as [passed e | f]; cbn [dolfin_fields];
    [apply within_lift | apply within_ret].
Qed.

Lemma within_bind {A B : Type} (m : M A) (k : A -> M B) :
  reports_within m -> (forall a, reports_within (k a)) ->
  reports_within (bind m k).
Proof.
  intros Hm Hk w. destruct (Hm w) as (res & w1 & cs1 & Hrun & Hc1 & HP1).
  unfold bind. rewrite Hrun. destruct res as [a | e].
  - destruct (Hk a w1) as (res2 & w2 & cs2 & Hrun2 & Hc2 & HP2).
    exists res2, w2, (cs2 ++ cs1)%list. split; [exact Hrun2 |]. split.
    + rewrite Hc2, Hc1. apply app_assoc.
    + apply Forall_app. split; assumption.
  - exists (Raise e), w1, cs1. split; [reflexivity |]. split; assumption.
Qed.

Lemma within_try_except {A : Type} (body : M A) (handler : exn -> M A) :
  reports_within body -> (forall e, reports_within (handler e)) ->
  reports_within (try_except body handler).
Proof.
  intros Hm Hk w. destruct (Hm w) as (res & w1 & cs1 & Hrun & Hc1 & HP1).
  unfold try_except. rewrite Hrun. destruct res as [a | e].
  - exists (Ok a), w1, cs1. split; [reflexivity |]. split; assumption.
  - destruct (Hk e w1) as (res2 & w2 & cs2 & Hrun2 & Hc2 & HP2).
    exists res2, w2, (cs2 ++ cs1)%list. split; [exact Hrun2 |]. split.
    + rewrite Hc2, Hc1. apply app_assoc.
    + apply Forall_app. split; assumption.
Qed.

Lemma within_call (cb : Z -> M unit) (v : Z) :
  records cb -> checkpoint v -> reports_within (call (Some cb) v).
Proof.
  intros Hcb Hv w. cbn [call]. destruct (Hcb v w) as (w' & Hrun & Hc).
  exists (Ok tt), w', [v]. split; [exact Hrun |]. split; [exact Hc |].
  constructor; [exact Hv | constructor].
Qed.

Section Checkpoints.

Context {rng_state : Type}.
Variable Random : string -> rng_state.
Variable random : rng_state -> Q * rng_state.
Variable math_sin : Q -> Q.
Variable math_exp : Q -> result Q.
Variable math_pi : Q.
Variable time_monotonic : nat -> Q.
Variable dolfin : SimulationRequest.t -> Z -> DolfinRun.

Lemma within_series (cb : Z -> M unit) (job_id : string)
    (payload : SimulationRequest.t) (max_stress : option Q) (s e : Z) :
  records cb -> (8 <= s)%Z -> (s <= e)%Z -> (e <= 95)%Z ->
  reports_within
    (_build_time_series Random random math_sin math_exp math_pi job_id payload
       max_stress (Some cb) (Some (s, e))).
Proof.
  intros Hcb Hs Hse He w.
  destruct (build_time_series_reports Random random math_sin math_exp math_pi
              cb job_id payload max_stress (Some (s, e)) w Hcb)
    as (res & w' & done & Hrun & Hc & Hres).
  exists res, w', (rev (reported (Some (s, e)) done)).
  split; [exact Hrun |]. split; [exact Hc |].
  assert (Hprefix : exists rest, range points = (done ++ rest)%list).
  { destruct res as [ts | e0].
    - exists []. now rewrite Hres, app_nil_r.
    - destruct Hres as (index & rest & Hsplit & _). now exists (index :: rest). }
  destruct Hprefix as [rest Hsplit].
  apply Forall_rev. unfold reported. apply Forall_map. apply Forall_forall.
  intros index Hin. apply filter_In in Hin. destruct Hin as [Hin _].
  assert (Hmember : In index (range points)).
  { rewrite Hsplit. apply in_or_app. now left. }
  apply range_members in Hmember.
  pose proof (interpolated_bounds s e index Hse Hmember). unfold checkpoint. lia.
Qed.

Ltac within_step Hcb :=
  cbv beta zeta;
  lazymatch goal with
  | |- reports_within (bind _ _) => apply within_bind; [| intro]
  | |- reports_within (try_except _ _) => apply within_try_except; [| intro]
  | |- reports_within (ret _) => apply within_ret
  | |- reports_within (lift _) => apply within_lift
  | |- reports_within (read _) => apply within_read
  | |- reports_within (mutate _) => apply within_mutate
  | |- reports_within (set_last_progress _) => apply within_set_last_progress
  | |- reports_within (set_last_tick _) => apply within_set_last_tick
  | |- reports_within (monotonic _) => apply within_monotonic
  | |- reports_within (dolfin_stage _ _) => apply within_dolfin_stage
  | |- reports_within (dolfin_fields _) => apply within_dolfin_fields
  | |- reports_within (call (Some _) _) =>
      apply within_call; [exact Hcb | unfold checkpoint; lia]
  | |- reports_within (_build_time_series _ _ _ _ _ _ _ _ (Some _) (Some _)) =>
      apply within_series; [exact Hcb | lia | lia | lia]
  | |- reports_within (if ?b then _ else _) => destruct b
  end.

Lemma within_solve (cb : Z -> M unit) (job_id : string)
    (payload : SimulationRequest.t) :
  records cb ->
  reports_within
    (_solve_with_fenics Random random math_sin math_exp math_pi dolfin
       job_id payload (Some cb)).
Proof.
  intro Hcb. unfold _solve_with_fenics. repeat within_step Hcb.
Qed.

Lemma within_stub (cb : Z -> M unit) (job_id : string)
    (payload : SimulationRequest.t) :
  records cb ->
  reports_within
    (_build_stub_results Random random math_sin math_exp math_pi
       job_id payload (Some cb)).
Proof.
  intro Hcb. unfold _build_stub_results. repeat within_step Hcb.
Qed.

Lemma within_run_job (job_id : string) (payload : SimulationRequest.t) :
  reports_within
    (_run_job Random random math_sin math_exp math_pi time_monotonic dolfin
       job_id payload).
Proof.
  pose proof (set_progress_records time_monotonic) as Hcb.
  unfold _run_job.
  repeat first
    [ within_step Hcb
    | apply within_solve; exact Hcb
    | apply within_stub; exact Hcb
    | apply (within_call _ _ Hcb); unfold checkpoint; lia ].
Qed.

(** Under the throttle, checkpoints keep the record between its first
    value and 95. *)
Lemma throttle_within (cands obs : list Z) :
  follows_throttle cands obs ->
  Forall checkpoint cands ->
  (exists newer, obs = newer ++ [5%Z])%list ->
  Forall (fun p => (5 <= p <= 95)%Z) obs.
Proof.
  revert obs. induction cands as [| c cands IH]; intros obs Hthr Hc Hfirst.
  - destruct obs as [| p [| q rest]]; cbn in Hthr; try contradiction.
    destruct Hfirst as [newer Hnewer].
    destruct newer as [| x [| y newer]]; cbn in Hnewer; try discriminate.
    injection Hnewer as ->. constructor; [lia | constructor].
  - destruct obs as [| p [| q rest]]; cbn in Hthr; try contradiction.
    destruct Hthr as [Hp Hthr].
    inversion Hc as [| ? ? Hcv Hrest]; subst.
    assert (Hobs : Forall (fun p => (5 <= p <= 95)%Z) (q :: rest)).
    { apply IH; [exact Hthr | exact Hrest |].
      destruct Hfirst as [newer Hnewer].
      destruct newer as [| x newer]; cbn in Hnewer; [discriminate |].
      injection Hnewer as _ Hnewer. now exists newer. }
    constructor; [| exact Hobs].
    inversion Hobs as [| ? ? Hq _]; subst.
    unfold observe, checkpoint in *. lia.
Qed.

(** X16.  Every value a run hands to the throttle lies between 8 and 95,
    whether the job returns or an exception leaves it, so the record of a
    job shows a progress between 5 and 95 for as long as its status is
    running: the cap of 99 in [set_progress] never applies, and the only
    later value is the final 100, written after the status became
    completed. *)
Theorem progress_stays_below_the_cap (job_id : string)
    (payload : SimulationRequest.t) :
  exists out w,
    _run_job Random random math_sin math_exp math_pi time_monotonic dolfin
      job_id payload (submitted job_id) = (out, w) /\
    Forall checkpoint (candidates w) /\
    Forall visible_progress (observable w) /\
    Forall (fun s => (JobStatus.progress s <= 95)%Z \/ JobStatus.progress s = 100%Z)
      (observable w).
Proof.
  destruct (run_job_run Random random math_sin math_exp math_pi time_monotonic
              dolfin job_id payload)
    as (w_call & res & w_ret & w_run & _ & _ & _ & Hrun & Hjob).
  destruct (within_run_job job_id payload (submitted job_id))
    as (res' & w' & cs & Hjob' & Hcs & Hall).
  assert (Hcands : candidates w_run = cs).
  { destruct (series_defined math_exp payload).
    - destruct Hjob as (r & Hjob & _). rewrite Hjob in Hjob'.
      injection Hjob' as _ <-.
      cbn [commit candidates submitted app] in Hcs. now rewrite app_nil_r in Hcs.
    - destruct Hjob as (e & e0 & Hjob & _). rewrite Hjob in Hjob'.
      injection Hjob' as _ <-.
      cbn [candidates submitted app] in Hcs. now rewrite app_nil_r in Hcs. }
  destruct Hrun as [Hrec Hcap [older Hhead] [newer Hfirst] Hstates _ Hthr].
  assert (Hobs : Forall (fun p => (5 <= p <= 95)%Z)
                   (map JobStatus.progress (observable w_run))).
  { apply (throttle_within (candidates w_run)); [exact Hthr | now rewrite Hcands |].
    exists (map JobStatus.progress newer). rewrite Hfirst, map_app. reflexivity. }
  assert (Hlast : (5 <= last_progress w_run <= 95)%Z).
  { rewrite Hhead, Hrec in Hobs. cbn [map JobStatus.progress] in Hobs.
    now inversion Hobs. }
  assert (Hvis : Forall visible_progress (observable w_run)).
  { rewrite Forall_forall in Hstates, Hobs. apply Forall_forall. intros s Hin.
    pose proof (Hobs _ (in_map JobStatus.progress _ _ Hin)) as Hp.
    destruct (Hstates s Hin) as (p & -> & _).
    left. split; [reflexivity | exact Hp]. }
  assert (Hseen : Forall (fun s => (JobStatus.progress s <= 95)%Z
                                   \/ JobStatus.progress s = 100%Z)
                    (observable w_run)).
  { eapply Forall_impl; [| exact Hvis]. intros s [[_ H] | [_ H]]; lia. }
  destruct (series_defined math_exp payload).
  - destruct Hjob as (r & Hjob & _).
    exists (Ok tt), (commit r w_run). split; [exact Hjob |]. split.
    + cbn [commit candidates]. now rewrite Hcands.
    + unfold commit. cbn [observable]. rewrite Hrec.
      cbn [JobStatus.set_status JobStatus.set_progress JobStatus.set_results
           JobStatus.id JobStatus.status JobStatus.progress JobStatus.results
           JobStatus.error].
      split.
      * repeat (constructor; [unfold visible_progress; cbn; right; split;
                               [reflexivity | lia] |]).
        exact Hvis.
      * repeat (constructor; [cbn; lia |]). exact Hseen.
  - destruct Hjob as (e & e0 & Hjob & _).
    exists (Raise e), w_run. split; [exact Hjob |].
    split; [now rewrite Hcands |]. split; [exact Hvis | exact Hseen].
Qed.

End Checkpoints.

(** *** The safety factor of a fallback result *)

Lemma Forall2_pick_l {A B : Type} (R : A -> B -> Prop) (l1 : list A)
    (l2 : list B) (a : A) :
  Forall2 R l1 l2 -> In a l1 -> exists b, In b l2 /\ R a b.
Proof.
  induction 1 as [| x y l1 l2 Hxy Hrest IH]; intro Hin; [contradiction |].
  destruct Hin as [<- | Hin].
  - exists y. split; [now left | exact Hxy].
  - destruct (IH Hin) as (b & Hb & Hab). exists b. split; [now right | exact Hab].
Qed.

Lemma Forall2_pick_r {A B : Type} (R : A -> B -> Prop) (l1 : list A)
    (l2 : list B) (b : B) :
  Forall2 R l1 l2 -> In b l2 -> exists a, In a l1 /\ R a b.
Proof.
  induction 1 as [| x y l1 l2 Hxy Hrest IH]; intro Hin; [contradiction |].
  destruct Hin as [<- | Hin].
  - exists x. split; [now left | exact Hxy].
  - destruct (IH Hin) as (a & Ha & Hab). exists a. split; [now right | exact Hab].
Qed.

Section SafetyBand.

Context {rng_state : Type}.
Variable Random : string -> rng_state.
Variable random : rng_state -> Q * rng_state.
Variable math_sin : Q -> Q.
Variable math_exp : Q -> result Q.
Variable math_pi : Q.

(** X17.  With numbers drawn from the unit interval, a reference curve
    whose greatest stress [ultimate] is positive and [math.exp] returning
    at each sample, the fallback result has a [maxStress] between 58.5 %
    and 161.5 % of [ultimate], and its [safetyFactor],
    [0.9 * ultimate / maxStress], lies between 0.557 and 1.539 whatever
    else the request asks for. *)
Theorem fallback_safety_factor_band (job_id : string)
    (payload : SimulationRequest.t) (clock : nat -> Q) (w : World)
    (ultimate : Q) :
  unit_interval random ->
  greatest ultimate (map StressPoint.stress (reference_curve payload)) ->
  0 < ultimate ->
  series_defined math_exp payload = true ->
  exists r w',
    _build_stub_results Random random math_sin math_exp math_pi job_id payload
      (Some (set_progress clock)) w = (Ok r, w') /\
    0.585 * ultimate <= Results.maxStress r /\
    Results.maxStress r <= 1.615 * ultimate /\
    Results.safetyFactor r == 0.9 * ultimate / Results.maxStress r /\
    0.557 <= Results.safetyFactor r /\
    Results.safetyFactor r <= 1.539.
Proof.
  intros Hunit [Hin Hup] Hpos Hdef.
  destruct (build_stub_results_defined Random random math_sin math_exp math_pi
              (fun _ => True) job_id payload (Some (set_progress clock)) w
              (set_progress_total clock) I Hdef)
    as (r & w' & Hrun & _ & _ & Hparts).
  exists r, w'. split; [exact Hrun |].
  destruct Hparts as [Hcurve _ Hmax _ _ _ _ _ _ _ _ _ _ Hsafety _ _ _].
  destruct (reference_curve payload) as [| p ps] eqn:Href; [contradiction |].
  rewrite (build_curve_cases Random random job_id payload None p ps Href) in Hcurve.
  cbv zeta in Hcurve.
  assert (Hlow : 0.6 <= load_factor_of payload).
  { unfold load_factor_of. apply py_max_lower_l. }
  assert (Hhigh : load_factor_of payload <= 1.6).
  { unfold load_factor_of.
    match goal with
    | |- py_max 0.6 (py_min 1.6 ?x) <= _ =>
        pose proof (py_min_upper_l 1.6 x);
        destruct (py_max_cases 0.6 (py_min 1.6 x)) as [[-> _] | [-> _]]; lra
    end. }
  destruct (dense_curve_loop_points random (fun r => 0 <= r /\ r < 1)
              (load_factor_of payload) (strain_scale_of payload) (p :: ps)
              Hunit (Random (String.append job_id "_curve")) [])
    as (new & Hloop & Hall).
  rewrite Hloop in Hcurve. cbn [app] in Hcurve. injection Hcurve as Hcurve.
  rewrite <- Hcurve in Hmax. clear Hcurve.
  destruct (py_max_list_greatest _ _ Hmax) as [Hmem Hgreatest].
  set (f := load_factor_of payload) in *.
  assert (Hupper : Results.maxStress r <= 1.615 * ultimate).
  { apply in_map_iff in Hmem. destruct Hmem as (out & <- & Hout).
    destruct (Forall2_pick_r _ _ _ _ Hall Hout) as (point & Hpoint & u & [Hu0 Hu1] & ->).
    cbn [CurvePoint.stress].
    assert (Hs : StressPoint.stress point <= ultimate).
    { rewrite Forall_forall in Hup. apply Hup. now apply in_map. }
    set (s := StressPoint.stress point) in *.
    match goal with
    | |- py_max 0.0 ?x <= _ =>
        destruct (py_max_cases 0.0 x) as [[-> Hx] | [-> Hx]]
    end; [lra |].
    destruct (Qlt_le_dec s 0) as [Hneg | Hnn]; nra. }
  assert (Hlower : 0.585 * ultimate <= Results.maxStress r).
  { apply in_map_iff in Hin. destruct Hin as (point & Hs & Hpoint).
    destruct (Forall2_pick_l _ _ _ _ Hall Hpoint) as (out & Hout & u & [Hu0 Hu1] & ->).
    rewrite Forall_forall in Hgreatest.
    pose proof (Hgreatest _ (in_map CurvePoint.stress _ _ Hout)) as Hle.
    cbn [CurvePoint.stress] in Hle. rewrite Hs in Hle.
    match type of Hle with
    | py_max 0.0 ?x <= _ => pose proof (py_max_lower_r 0.0 x) as Hx
    end.
    nra. }
  split; [exact Hlower |]. split; [exact Hupper |].
  destruct Hsafety as (allowable & Hallow & Hsf).
  destruct (estimate_allowable_run payload (Results.maxStress r))
    as (allowable' & Hallow' & Hval).
  rewrite Hallow in Hallow'. injection Hallow' as <-.
  rewrite Href in Hval.
  assert (Hult : fold_left py_max (map StressPoint.stress ps) (StressPoint.stress p)
                 == ultimate).
  { apply Qle_antisym.
    - rewrite Forall_forall in Hup. apply Hup.
      apply (fold_py_max_member (map StressPoint.stress ps) (StressPoint.stress p)).
    - destruct (fold_py_max_upper (map StressPoint.stress ps) (StressPoint.stress p))
        as [H1 H2].
      cbn [map] in Hin. destruct Hin as [<- | Hin]; [exact H1 |].
      rewrite Forall_forall in H2. now apply H2. }
  assert (Hmaxpos : 0 < Results.maxStress r) by lra.
  rewrite (proj2 (Qltb_true _ _) Hmaxpos) in Hsf.
  assert (Hq : Results.safetyFactor r == 0.9 * ultimate / Results.maxStress r).
  { rewrite Hsf, Hval, Hult. field. lra. }
  split; [exact Hq |].
  assert (Hprod : Results.safetyFactor r * Results.maxStress r == 0.9 * ultimate).
  { rewrite Hq. field. lra. }
  split; nra.
Qed.

End SafetyBand.

(** X17, witness: the steel request, whose greatest reference stress is 500. *)
Lemma steel_safety_factor_band :
  exists r w',
    _build_stub_results Demo.Random Demo.random Demo.sin Demo.exp Demo.pi "job-1"
      Demo.request (Some (set_progress Demo.clock)) (submitted "job-1")
    = (Ok r, w') /\
    0.557 <= Results.safetyFactor r /\
    Results.safetyFactor r <= 1.539.
Proof.
  destruct (fallback_safety_factor_band Demo.Random Demo.random Demo.sin Demo.exp
              Demo.pi "job-1" Demo.request Demo.clock (submitted "job-1") 500.0)
    as (r & w' & Hrun & _ & _ & _ & Hlo & Hhi).
  - exact demo_random_unit_interval.
  - split.
    + cbn. tauto.
    + repeat constructor; cbn; lra.
  - lra.
  - exact steel_series_defined.
  - exists r, w'. split; [exact Hrun |]. split; assumption.
Defined.

(** *** The material constants of the solver path *)

Lemma py_div_raises (a b : Q) : b == 0 -> py_div a b = Raise ZeroDivisionError.
Proof.
  intro H. unfold py_div. now rewrite (proj2 (Qeq_bool_iff b 0) H).
Qed.

Lemma py_div_cases (a b : Q) :
  (b == 0 /\ py_div a b = Raise ZeroDivisionError) \/
  (~ b == 0 /\ py_div a b = Ok (a / b)).
Proof.
  unfold py_div. destruct (Qeq_bool b 0) eqn:E.
  - left. split; [now apply Qeq_bool_iff | reflexivity].
  - right. split; [| reflexivity].
    intro H. apply Qeq_bool_iff in H. congruence.
Qed.

(** X18.  The Lame constants are undefined for a Poisson ratio of -1 or
    0.5: the computation of [mu] and [lmbda] raises [ZeroDivisionError] then
    and only then.  Otherwise [mu] is the softened modulus over
    [2 (1 + poisson)], [lmbda] is [2 mu poisson / (1 - 2 poisson)], and for
    a positive modulus and a ratio between 0 and 0.5 [mu] is positive and
    [lmbda] is not negative. *)
Theorem elastic_constants_division (payload : SimulationRequest.t) :
  let poisson := Material.poissonRatio (SimulationRequest.material payload) in
  let youngs_modulus :=
    Material.youngsModulus (SimulationRequest.material payload) * 1000.0
    * temperature_factor payload in
  match elastic_constants payload with
  | Raise e => e = ZeroDivisionError /\ (poisson == -1 \/ poisson == 0.5)
  | Ok (mu, lmbda) =>
      ~ poisson == -1 /\ ~ poisson == 0.5 /\
      mu * (2 * (1 + poisson)) == youngs_modulus /\
      lmbda * (1 - 2 * poisson) == 2 * mu * poisson /\
      (0 < Material.youngsModulus (SimulationRequest.material payload) ->
       0 <= poisson -> poisson < 0.5 -> 0 < mu /\ 0 <= lmbda)
  end.
Proof.
  intros poisson youngs_modulus. unfold elastic_constants.
  fold poisson. cbv zeta. fold youngs_modulus.
  assert (Hfactor : 0.6 <= temperature_factor payload).
  { unfold temperature_factor. apply py_max_lower_l. }
  destruct (py_div_cases youngs_modulus (2.0 * (1.0 + poisson)))
    as [[Hzero ->] | [Hmu ->]]; cbn [result_bind].
  { split; [reflexivity |]. left. lra. }
  destruct (py_div_cases (youngs_modulus * poisson)
              ((1.0 + poisson) * (1.0 - 2.0 * poisson)))
    as [[Hzero ->] | [Hlm ->]]; cbn [result_bind].
  { split; [reflexivity |]. right.
    assert (H1 : ~ 1.0 + poisson == 0) by (intro H; apply Hmu; lra).
    assert (H2 : (1.0 + poisson) * (1.0 - 2.0 * poisson) == 0) by exact Hzero.
    apply Qmult_integral in H2. destruct H2 as [H2 | H2]; [contradiction | lra]. }
  assert (H1 : ~ 1 + poisson == 0) by (intro H; apply Hmu; lra).
  assert (H2 : ~ 1 - 2 * poisson == 0).
  { intro H. apply Hlm. rewrite <- (Qmult_0_r (1.0 + poisson)).
    apply Qmult_comp; [reflexivity | lra]. }
  split; [intro H; apply H1; lra |]. split; [intro H; apply H2; lra |].
  split; [field; repeat split; intro H; first [apply H1; lra | apply H2; lra] |].
  split; [field; repeat split; intro H; first [apply H1; lra | apply H2; lra] |].
  intros Hpos Hnn Hhalf.
  assert (HE : 0 < youngs_modulus).
  { unfold youngs_modulus.
    set (E := Material.youngsModulus (SimulationRequest.material payload)) in *.
    nra. }
  split.
  - apply Qlt_shift_div_l; lra.
  - apply Qle_shift_div_l; [nra | nra].
Qed.

(** X19.  The stiffness is softened by 0.02 % per degree above 20 and never
    below 60 %: the factor is at least 0.6, equal to 0.6 from 2020 degrees
    on, at most 1 from 20 degrees on, and never increases with the
    temperature.  A temperature of 0 is read as 20, like a missing one, so
    the factor is 1 there although it exceeds 1 just above and just below
    0. *)
Theorem temperature_softening (payload : SimulationRequest.t) :
  0.6 <= temperature_factor payload /\
  (SimulationRequest.temperature payload = None ->
   temperature_factor payload == 1) /\
  (forall t,
    SimulationRequest.temperature payload = Some t ->
    (t == 0 -> temperature_factor payload == 1) /\
    (~ t == 0 ->
     (t < 20 -> temperature_factor payload == 1 + (20 - t) * 0.0002) /\
     (20 <= t -> t <= 2020 ->
      temperature_factor payload == 1 - (t - 20) * 0.0002) /\
     (2020 <= t -> temperature_factor payload == 0.6))).
Proof.
  unfold temperature_factor. split; [apply py_max_lower_l |].
  split.
  - intros ->. cbn [py_or].
    match goal with
    | |- py_max 0.6 ?x == _ =>
        destruct (py_max_cases 0.6 x) as [[-> Hx] | [-> Hx]]; lra
    end.
  - intros t ->. cbn [py_or]. split.
    + intro Ht. rewrite (proj2 (Qeq_bool_iff t 0) Ht).
      match goal with
      | |- py_max 0.6 ?x == _ =>
          destruct (py_max_cases 0.6 x) as [[-> Hx] | [-> Hx]]; lra
      end.
    + intro Ht. destruct (Qeq_bool t 0) eqn:E;
        [apply Qeq_bool_iff in E; contradiction |].
      match goal with
      | |- context [py_max 0.6 ?x] =>
          destruct (py_max_cases 0.6 x) as [[-> Hx] | [-> Hx]]
      end; repeat split; intros; lra.
Qed.

(** X18, witness: steel, with a Poisson ratio of 0.3, has both constants. *)
Lemma steel_constants_defined :
  exists mu lmbda,
    elastic_constants Demo.request = Ok (mu, lmbda) /\ 0 < mu /\ 0 <= lmbda.
Proof.
  pose proof (elastic_constants_division Demo.request) as H. cbv zeta in H.
  destruct (elastic_constants Demo.request) as [[mu lmbda] | e].
  - exists mu, lmbda. split; [reflexivity |].
    apply H; vm_compute; congruence.
  - destruct H as [_ [H | H]]; vm_compute in H; discriminate H.
Defined.

(** X19, witness: at 520 degrees the steel request keeps 90 % of its
    stiffness. *)
Lemma hot_steel_softened :
  temperature_factor
    (SimulationRequest.mk "hot" 1 "static" None (Some 520.0) None None None
       Demo.steel) == 0.9.
Proof.
  destruct (temperature_softening
              (SimulationRequest.mk "hot" 1 "static" None (Some 520.0) None None
                 None Demo.steel))
    as (_ & _ & H).
  destruct (H 520.0 eq_refl) as (_ & Hhot).
  destruct Hhot as (_ & Hmid & _).
  - vm_compute. discriminate.
  - rewrite Hmid; [reflexivity | vm_compute; discriminate | vm_compute; discriminate].
Defined.
